(** * DefiVisualizerAgent: template registry, content formatter and
    distribution orchestrator

    A shallow embedding of
    - [src/templates/template-interface.ts] (the template registry),
    - [src/distribution/capabilities.ts] (social distribution, content
      generation, tag derivation, post schedule), and
    - [src/distribution/file-distributor.ts] (saving and converting
      artifacts through a headless browser),
    followed by the properties of the specification that concern them, and
    of the parts of [templates/capabilities.ts] (template selection),
    [templates/market-overview.ts] (chart data), the twitter module and
    the DexScreener client (address resolution, token data) that the
    further properties are about.

    Conventions of the embedding.
    - A JavaScript string is the list of its UTF-16 code units, so that
      [length] is [String.prototype.length] and [take n] is
      [substring(0, n)].
    - A JavaScript number is an IEEE 754 binary64 value, [spec_float] with
      [prec = 53] and [emax = 1024].
    - A payload of type [any] is a JSON tree, [value].
    - A [throw] is the [Throw] outcome of the [outcome] type; code that
      talks to the file system, the browser or the host runtime threads a
      [world] explicitly.
    - Library functions that the repository calls but does not define and
      whose definition is a large table or algorithm (Unicode lower-casing,
      [Number::toString], [StringToNumber], Node's [path] module, the
      regular-expression engine) are fields of the class [EcmaLib]. *)

From Stdlib Require Import ZArith NArith List Ascii String Bool Lia.
From Stdlib Require Import Floats.SpecFloat.
From stdpp Require Import base decidable option list numbers countable gmap.

Open Scope Z_scope.
Open Scope list_scope.

(** ** Strings *)

Abbreviation jsstring := (list N) (only parsing).

(** The code units of an ASCII literal. *)
Fixpoint lit (s : string) : list N :=
  match s with
  | EmptyString => []
  | String a s' => N_of_ascii a :: lit s'
  end.

(** [\s] of ECMAScript regular expressions: WhiteSpace and LineTerminator. *)
Definition is_whitespace (c : N) : bool :=
  (N.leb 9 c && N.leb c 13)%N
  || N.eqb c 32 || N.eqb c 160 || N.eqb c 5760
  || (N.leb 8192 c && N.leb c 8202)%N
  || N.eqb c 8232 || N.eqb c 8233 || N.eqb c 8239 || N.eqb c 8287
  || N.eqb c 12288 || N.eqb c 65279.

(** [s.replace(/\s+/g, '')] *)
Definition strip_whitespace (s : jsstring) : jsstring :=
  List.filter (fun c => negb (is_whitespace c)) s.

(** [Array.prototype.join] on an array of strings. *)
Fixpoint join (sep : jsstring) (parts : list jsstring) : jsstring :=
  match parts with
  | [] => []
  | [p] => p
  | p :: rest => p ++ sep ++ join sep rest
  end.

Fixpoint is_prefix (p s : jsstring) : bool :=
  match p, s with
  | [], _ => true
  | _ :: _, [] => false
  | a :: p', b :: s' => N.eqb a b && is_prefix p' s'
  end.

(** [s.includes(sub)] *)
Fixpoint includes (s sub : jsstring) : bool :=
  is_prefix sub s ||
  match s with
  | [] => false
  | _ :: s' => includes s' sub
  end.

(** ** Numbers *)

Abbreviation number := spec_float (only parsing).

Definition prec : Z := 53.
Definition emax : Z := 1024.

(** The double nearest to the integer [z]. *)
Definition num_of_Z (z : Z) : number := binary_normalize prec emax z 0 false.

(** The double a decimal literal [n / 10^d] denotes (division of two exactly
    representable integers is correctly rounded). *)
Definition num_of_decimal (n : Z) (d : Z) : number :=
  SFdiv prec emax (num_of_Z n) (num_of_Z (10 ^ d)).

Definition num_div (x y : number) : number := SFdiv prec emax x y.

(** [x >= y] on numbers: false when either side is NaN. *)
Definition num_ge (x y : number) : bool := SFleb y x.

(** ToBoolean on numbers. *)
Definition num_truthy (x : number) : bool :=
  match x with
  | S754_zero _ | S754_nan => false
  | _ => true
  end.

(** Decimal digits of a non-negative integer. *)
Fixpoint digits_fuel (fuel : nat) (n : Z) (acc : jsstring) : jsstring :=
  match fuel with
  | O => acc
  | S fuel' =>
      let acc' := Z.to_N (48 + n mod 10) :: acc in
      if n <? 10 then acc' else digits_fuel fuel' (n / 10) acc'
  end.

Definition digits (n : Z) : jsstring :=
  digits_fuel (S (Z.to_nat (Z.log2 n))) n [].

(** The integer [n] for which [n / 10^f - m * 2^e] is closest to zero, the
    larger one on a tie (step 6 of Number.prototype.toFixed). *)
Definition scaled_round (m : positive) (e : Z) (f : nat) : Z :=
  let p := Z.pos m * 10 ^ Z.of_nat f in
  if 0 <=? e then p * 2 ^ e
  else (2 * p + 2 ^ (- e)) / 2 ^ (1 - e).

(** Whether [m * 2^e >= 10^21]. *)
Definition at_least_1e21 (m : positive) (e : Z) : bool :=
  if 0 <=? e then 10 ^ 21 <=? Z.pos m * 2 ^ e
  else 10 ^ 21 * 2 ^ (- e) <=? Z.pos m.

(** Steps 6 to 10 of toFixed on the integer [n] with [f] fraction digits. *)
Definition fixed_digits (n : Z) (f : nat) : jsstring :=
  let m := digits n in
  match f with
  | O => m
  | _ =>
      let m' := replicate (S f - length m) 48%N ++ m in
      let k := length m' in
      take (k - f) m' ++ lit "." ++ drop (k - f) m'
  end.


(** ** JSON values: the payloads typed [any] *)

#[warnings="-register-all"]
Inductive value :=
| VUndefined
| VNull
| VBool (b : bool)
| VNum (x : spec_float)
| VStr (s : list N)
| VArr (xs : list value)
| VObj (fields : list (list N * value)).

(** ** Exceptions and outcomes *)

(** A thrown JavaScript value: an [Error] object with its message, or any
    other value. *)
Inductive exn :=
| JsError (message : list N)
| Thrown (v : value).

Inductive outcome (A : Type) :=
| Ret (a : A)
| Throw (e : exn).
Arguments Ret {A} a.
Arguments Throw {A} e.

Definition bind {A B} (m : outcome A) (k : A -> outcome B) : outcome B :=
  match m with
  | Ret a => k a
  | Throw e => Throw e
  end.

Notation "'do' x <- m ; k" := (bind m (fun x => k))
  (at level 10, x name, m at level 100, k at level 200).

(** The engine's message text of a TypeError is not modelled. *)
Definition type_error : exn := JsError (lit "TypeError").

(** ToBoolean *)
Definition truthy (v : value) : bool :=
  match v with
  | VUndefined | VNull => false
  | VBool b => b
  | VNum x => num_truthy x
  | VStr s => match s with [] => false | _ => true end
  | VArr _ | VObj _ => true
  end.

(** [a || b] *)
Definition or_else (a b : value) : value := if truthy a then a else b.

Definition is_nullish (v : value) : bool :=
  match v with
  | VUndefined | VNull => true
  | _ => false
  end.

Fixpoint assoc (k : jsstring) (fields : list (list N * value)) : value :=
  match fields with
  | [] => VUndefined
  | (k', v) :: rest => if bool_decide (k = k') then v else assoc k rest
  end.

(** [v.k] for the property names the source reads from payloads (none of
    them is a method or an index): an own property of an object, [length]
    of a string or an array, [undefined] on other primitives, and a
    TypeError on [undefined] and [null]. *)
Definition get_prop (v : value) (k : jsstring) : outcome value :=
  match v with
  | VUndefined | VNull => Throw type_error
  | VObj fields => Ret (assoc k fields)
  | VStr s =>
      Ret (if bool_decide (k = lit "length")
           then VNum (num_of_Z (Z.of_nat (length s))) else VUndefined)
  | VArr xs =>
      Ret (if bool_decide (k = lit "length")
           then VNum (num_of_Z (Z.of_nat (length xs))) else VUndefined)
  | VBool _ | VNum _ => Ret VUndefined
  end.

(** [v?.k] *)
Definition get_opt (v : value) (k : jsstring) : value :=
  match get_prop v k with
  | Ret x => x
  | Throw _ => VUndefined
  end.

(** ** Library functions taken as parameters *)

Class EcmaLib := {
  (** Number::toString *)
  number_to_string : spec_float -> list N;
  (** StringToNumber *)
  string_to_number : list N -> spec_float;
  (** String.prototype.toLowerCase *)
  to_lower_case : list N -> list N;
  (** path.extname *)
  path_extname : list N -> list N;
  (** path.resolve with two segments *)
  path_resolve : list N -> list N -> list N;
  (** [s.replace(new RegExp(source), replacement)]; [new RegExp] throws a
      SyntaxError on a malformed source *)
  regexp_replace : list N -> list N -> list N -> outcome (list N);
  (** [html.match(/<svg[^>]*>[\s\S]*?<\/svg>/i)], the first match *)
  match_svg : list N -> option (list N);
  (** [buffer.toString('base64')] *)
  to_base64 : list N -> list N;
}.

(** ** Equality of values *)

#[global] Instance spec_float_eq_dec : EqDecision spec_float.
Proof. solve_decision. Defined.

Fixpoint value_eqb (a b : value) {struct a} : bool :=
  match a, b with
  | VUndefined, VUndefined | VNull, VNull => true
  | VBool x, VBool y => bool_decide (x = y)
  | VNum x, VNum y => bool_decide (x = y)
  | VStr s, VStr t => bool_decide (s = t)
  | VArr xs, VArr ys =>
      (fix go (xs ys : list value) {struct xs} : bool :=
         match xs, ys with
         | [], [] => true
         | x :: xs', y :: ys' => value_eqb x y && go xs' ys'
         | _, _ => false
         end) xs ys
  | VObj fs, VObj gs =>
      (fix go (fs gs : list (list N * value)) {struct fs} : bool :=
         match fs, gs with
         | [], [] => true
         | (k, x) :: fs', (k', y) :: gs' =>
             bool_decide (k = k') && value_eqb x y && go fs' gs'
         | _, _ => false
         end) fs gs
  | _, _ => false
  end.


(** ** Conversions *)

Section Conversions.
Context {lib : EcmaLib}.

(** ToString, as used by template literals and [String(v)]. *)
Fixpoint to_string (v : value) : jsstring :=
  match v with
  | VUndefined => lit "undefined"
  | VNull => lit "null"
  | VBool b => if b then lit "true" else lit "false"
  | VNum x => number_to_string x
  | VStr s => s
  | VArr xs =>
      join (lit ",")
        (List.map (fun x => if is_nullish x then [] else to_string x) xs)
  | VObj _ => lit "[object Object]"
  end.

(** ToNumber, as used by the relational and arithmetic operators. *)
Definition to_number (v : value) : number :=
  match v with
  | VUndefined => S754_nan
  | VNull => S754_zero false
  | VBool b => if b then num_of_Z 1 else S754_zero false
  | VNum x => x
  | VStr s => string_to_number s
  | VArr _ | VObj _ => string_to_number (to_string v)
  end.

(** [error instanceof Error ? error.message : String(error)] *)
Definition error_text (e : exn) : jsstring :=
  match e with
  | JsError m => m
  | Thrown v => to_string v
  end.

Definition sign_text (s : bool) : jsstring := if s then lit "-" else [].

(** Number.prototype.toFixed with [f] fraction digits. *)
Definition toFixed (x : number) (f : nat) : jsstring :=
  match x with
  | S754_nan | S754_infinity _ => number_to_string x
  | S754_zero _ => fixed_digits 0 f
  | S754_finite s m e =>
      sign_text s ++
      (if at_least_1e21 m e then number_to_string (S754_finite false m e)
       else fixed_digits (scaled_round m e f) f)
  end.

(** [v.toFixed(f)]: only numbers have the method. *)
Definition call_toFixed (v : value) (f : nat) : outcome jsstring :=
  match v with
  | VNum x => Ret (toFixed x f)
  | _ => Throw type_error
  end.

(** [v.replace(/\s+/g, '')]: only strings have the method. *)
Definition call_strip (v : value) : outcome jsstring :=
  match v with
  | VStr s => Ret (strip_whitespace s)
  | _ => Throw type_error
  end.

(** [v.toLowerCase()]: only strings have the method. *)
Definition call_toLowerCase (v : value) : outcome jsstring :=
  match v with
  | VStr s => Ret (to_lower_case s)
  | _ => Throw type_error
  end.

Definition num_1e9 : number := num_of_Z 1000000000.
Definition num_1e6 : number := num_of_Z 1000000.
Definition num_1e3 : number := num_of_Z 1000.
Definition num_0 : number := S754_zero false.

(** [formatNumber] (capabilities.ts:758). The argument is whatever the
    payload holds: the comparisons and the divisions coerce it with
    ToNumber, the last branch calls its own [toFixed]. *)
Definition formatNumber (num : value) : outcome jsstring :=
  if num_ge (to_number num) num_1e9 then
    Ret (toFixed (num_div (to_number num) num_1e9) 2 ++ lit "B")
  else if num_ge (to_number num) num_1e6 then
    Ret (toFixed (num_div (to_number num) num_1e6) 2 ++ lit "M")
  else if num_ge (to_number num) num_1e3 then
    Ret (toFixed (num_div (to_number num) num_1e3) 2 ++ lit "K")
  else call_toFixed num 2.

(** ** Sets of values, in insertion order *)

(** SameValueZero. Objects and arrays are compared by structure: a
    payload is a tree without sharing, and the only place that compares
    them, [extractDefaultTags], inserts at most one of them. *)
Definition same_value_zero (a b : value) : bool :=
  match a, b with
  | VNum S754_nan, VNum S754_nan => true
  | VNum x, VNum y => SFeqb x y
  | _, _ => value_eqb a b
  end.

Definition set_has (s : list value) (x : value) : bool :=
  existsb (same_value_zero x) s.

(** [Set.prototype.add] *)
Definition set_add (s : list value) (x : value) : list value :=
  if set_has s x then s else s ++ [x].

(** [[...new Set(xs)]] *)
Definition new_Set (xs : list value) : list value :=
  foldl set_add [] xs.

(** ** Tags (capabilities.ts:711) *)

Definition base_tags : list value :=
  [VStr (lit "DeFi"); VStr (lit "crypto"); VStr (lit "blockchain");
   VStr (lit "visualization"); VStr (lit "data")].

(** The aliases pushed after the chain. *)
Definition chain_aliases (lower : jsstring) : list value :=
  if bool_decide (lower = lit "ethereum") then [VStr (lit "ETH")]
  else if bool_decide (lower = lit "binance-smart-chain")
          || bool_decide (lower = lit "bsc")
  then [VStr (lit "BSC"); VStr (lit "BNB")]
  else if bool_decide (lower = lit "solana") then [VStr (lit "SOL")]
  else [].

(** The array [tags] after all the pushes, before line 750. *)
Definition collectTags (data : value) : outcome (list value) :=
  let tags := base_tags in
  do token <- get_prop data (lit "token");
  let symbol := get_opt token (lit "symbol") in
  let tags := if truthy symbol then tags ++ [symbol] else tags in
  let name := get_opt token (lit "name") in
  do tags <-
    (if truthy name then
       do stripped <- call_strip name; Ret (tags ++ [VStr stripped])
     else Ret tags);
  do dchain <- get_prop data (lit "chain");
  do tchain <-
    (if truthy dchain then Ret dchain
     else if truthy token then get_prop token (lit "chain") else Ret token);
  do tags <-
    (if truthy tchain then
       let chain := tchain in
       let tags := tags ++ [chain] in
       do lower <- call_toLowerCase chain;
       Ret (tags ++ chain_aliases lower)
     else Ret tags);
  do category <- get_prop data (lit "category");
  do tags <-
    (if truthy category then
       do stripped <- call_strip category; Ret (tags ++ [VStr stripped])
     else Ret tags);
  do topTokens <- get_prop data (lit "topTokens");
  let tags :=
    if truthy topTokens then tags ++ [VStr (lit "TokenAnalysis")] else tags in
  do tvl <- get_prop data (lit "tvl");
  do historicalTvl <- get_prop data (lit "historicalTvl");
  let tags :=
    if truthy (or_else tvl historicalTvl)
    then tags ++ [VStr (lit "TVL"); VStr (lit "TotalValueLocked")]
    else tags in
  Ret tags.

Definition extractDefaultTags (data : value) : outcome (list value) :=
  do tags <- collectTags data;
  Ret (take 10 (new_Set tags)).
End Conversions.

(** ** Social content (capabilities.ts:621) *)

Inductive Platform := twitter | linkedin | telegram.

#[global] Instance Platform_eq_dec : EqDecision Platform.
Proof. solve_decision. Defined.

Inductive contentType := Short | Detailed | Thread.

Record SocialContent := {
  message : list N;
  tags : list value;
  thread : option (list (list N));
}.

(** U+1F4CA, bar chart *)
Definition emoji_chart : jsstring := [55357; 56522]%N.
(** U+1F9F5 U+1F447, thread and pointing down *)
Definition emoji_thread : jsstring := [55358; 56821; 55357; 56391]%N.
Definition nl : jsstring := [10%N].

Section SocialContent.
Context {lib : EcmaLib}.

(** [data.a?.b] *)
Definition opt_field (data : value) (a b : jsstring) : outcome value :=
  do x <- get_prop data a; Ret (get_opt x b).

Definition zero : value := VNum num_0.

(** [${v >= 0 ? '+' : ''}] *)
Definition plus_sign (v : value) : jsstring :=
  if num_ge (to_number v) num_0 then lit "+" else [].

(** The [if (data.token)] branch. [inl] is the message left for the
    return at the end of the function, [inr] an early return. *)
Definition token_content (data token : value) (ct : contentType)
    (tags : list value) : outcome (list N + SocialContent) :=
  let tokenSymbol := or_else (get_opt token (lit "symbol")) (VStr (lit "Token")) in
  do usd <- opt_field data (lit "price") (lit "usd");
  let priceUsd := or_else usd zero in
  do change <- opt_field data (lit "price") (lit "change24h");
  let priceChange := or_else change zero in
  do vol <- opt_field data (lit "volume") (lit "usd24h");
  let volume24h := or_else vol zero in
  match ct with
  | Short =>
      do p6 <- call_toFixed priceUsd 6;
      do c2 <- call_toFixed priceChange 2;
      do v <- formatNumber volume24h;
      Ret (inl (to_string tokenSymbol ++ lit " is trading at $" ++ p6
                ++ lit " (" ++ plus_sign priceChange ++ c2
                ++ lit "% 24h) with $" ++ v ++ lit " 24h volume."))
  | Detailed =>
      do p6 <- call_toFixed priceUsd 6;
      do c2 <- call_toFixed priceChange 2;
      do v <- formatNumber volume24h;
      do liq <- opt_field data (lit "liquidity") (lit "usd");
      do l <- formatNumber (or_else liq zero);
      do cap <- get_prop data (lit "marketCap");
      do mc <- formatNumber (or_else cap zero);
      do txs <- get_prop data (lit "transactions24h");
      do tx <- formatNumber (or_else txs zero);
      do buys <- opt_field data (lit "buyVsSell24h") (lit "buys");
      do sells <- opt_field data (lit "buyVsSell24h") (lit "sells");
      Ret (inl (to_string tokenSymbol ++ lit " Market Update " ++ emoji_chart
                ++ nl ++ nl ++ lit "Current Price: $" ++ p6
                ++ nl ++ lit "24h Change: " ++ plus_sign priceChange ++ c2
                ++ lit "%" ++ nl ++ lit "24h Volume: $" ++ v
                ++ nl ++ nl ++ lit "Liquidity: $" ++ l
                ++ nl ++ lit "Market Cap: $" ++ mc
                ++ nl ++ nl ++ lit "Trades in last 24h: " ++ tx
                ++ lit " (" ++ to_string (or_else buys zero) ++ lit " buys, "
                ++ to_string (or_else sells zero) ++ lit " sells)"))
  | Thread =>
      do p6 <- call_toFixed priceUsd 6;
      do c2 <- call_toFixed priceChange 2;
      let hook :=
        to_string tokenSymbol ++ lit " is currently trading at $" ++ p6
        ++ lit " with a 24h change of " ++ plus_sign priceChange ++ c2
        ++ lit "%. Let's dive into the key metrics " ++ emoji_thread in
      do p6' <- call_toFixed priceUsd 6;
      do c2' <- call_toFixed priceChange 2;
      let t0 :=
        to_string tokenSymbol ++ lit " is trading at $" ++ p6' ++ lit " ("
        ++ plus_sign priceChange ++ c2' ++ lit "% 24h)" in
      do v <- formatNumber volume24h;
      let t1 := lit "Trading volume in the last 24 hours: $" ++ v in
      do cap <- get_prop data (lit "marketCap");
      do mc <- formatNumber (or_else cap zero);
      do liq <- opt_field data (lit "liquidity") (lit "usd");
      do l <- formatNumber (or_else liq zero);
      let t2 := lit "Market cap: $" ++ mc ++ lit " with $" ++ l
                ++ lit " in liquidity" in
      do txs <- get_prop data (lit "transactions24h");
      do buys <- opt_field data (lit "buyVsSell24h") (lit "buys");
      do sells <- opt_field data (lit "buyVsSell24h") (lit "sells");
      let t3 := to_string (or_else txs zero) ++ lit " trades in last 24h ("
                ++ to_string (or_else buys zero) ++ lit " buys, "
                ++ to_string (or_else sells zero) ++ lit " sells)" in
      do exs <- opt_field data (lit "exchanges") (lit "length");
      do chs <- opt_field data (lit "chains") (lit "length");
      let t4 := to_string tokenSymbol ++ lit " is available on "
                ++ to_string (or_else exs zero) ++ lit " exchanges across "
                ++ to_string (or_else chs zero) ++ lit " chains." in
      Ret (inr {| message := hook; tags := tags;
                  thread := Some [t0; t1; t2; t3; t4] |})
  end.

(** The [else if (data.topProtocols || data.chainsTvl)] branch. *)
Definition market_content (ct : contentType) (tags : list value)
    : list N + SocialContent :=
  match ct with
  | Short =>
      inl (lit "Check out our latest DeFi market visualization with key insights on tokens, protocols, and trends.")
  | Detailed =>
      inl (lit "DeFi Market Insights " ++ emoji_chart ++ nl ++ nl
           ++ lit "Our latest data visualization provides an in-depth look at the current state of decentralized finance."
           ++ nl ++ nl
           ++ lit "The visualization highlights key metrics, trending tokens, and protocol performance to help you make informed decisions."
           ++ nl ++ nl
           ++ lit "Swipe to see the full analysis and discover the latest trends in the DeFi ecosystem.")
  | Thread =>
      inr {| message :=
               lit "We've just published our latest DeFi market visualization! Let's explore the key insights "
               ++ emoji_thread;
             tags := tags;
             thread := Some [
               lit "Our latest DeFi visualization provides a comprehensive overview of the market";
               lit "Key metrics covered include token prices, trading volume, TVL, and distribution across protocols";
               lit "The data reveals important trends in user activity and capital flows in the DeFi ecosystem";
               lit "This analysis can help you make better-informed decisions about your DeFi investments and activities";
               lit "Follow us for regular updates and more detailed breakdowns of the DeFi landscape!"
             ] |}
  end.

(** The final [else] branch. *)
Definition default_content (ct : contentType) (tags : list value)
    : list N + SocialContent :=
  match ct with
  | Short => inl (lit "Check out our latest DeFi data visualization!")
  | Detailed =>
      inl (lit "Our latest DeFi data visualization provides insights on market trends, token performance, and protocol growth. Swipe to explore the data and discover the latest developments in the decentralized finance ecosystem.")
  | Thread =>
      inr {| message :=
               lit "We've published a new DeFi visualization! Let's explore what the data shows "
               ++ emoji_thread;
             tags := tags;
             thread := Some [
               lit "Our latest DeFi data visualization is now available!";
               lit "The visualization covers key metrics across the decentralized finance ecosystem";
               lit "This data helps highlight emerging trends and opportunities in the market";
               lit "Follow us for more insights and regular updates on the DeFi landscape!"
             ] |}
  end.

(** [generateSocialContent]. The [platform] argument is not read by the
    function; [action] is not read either and is left out. A rejected
    promise is a [Throw]. *)
Definition generateSocialContent (data : value) (p : Platform)
    (ct : contentType) : outcome SocialContent :=
  do tags <- extractDefaultTags data;
  do token <- get_prop data (lit "token");
  do branch <-
    (if truthy token then token_content data token ct tags
     else
       do topProtocols <- get_prop data (lit "topProtocols");
       do chainsTvl <- get_prop data (lit "chainsTvl");
       if truthy (or_else topProtocols chainsTvl)
       then Ret (market_content ct tags)
       else Ret (default_content ct tags));
  match branch with
  | inr early => Ret early
  | inl msg =>
      Ret {| message := msg; tags := tags;
             thread :=
               match ct with Thread => Some [msg] | _ => None end |}
  end.
End SocialContent.

(** ** Per-platform formatting (capabilities.ts:552, 594) *)

(** The string a platform is named by: the key of the result objects. *)
Definition platform_id (p : Platform) : jsstring :=
  match p with
  | twitter => lit "twitter"
  | linkedin => lit "linkedin"
  | telegram => lit "telegram"
  end.

(** [tag => `#${tag.replace(/\s+/g, '')}`] *)
Definition hashtag (tag : jsstring) : jsstring :=
  lit "#" ++ strip_whitespace tag.

Definition formatTagsForPlatforms (tags : list (list N))
    (platforms : list Platform) : gmap (list N) (list N) :=
  foldl
    (fun formattedTags p =>
       match p with
       | twitter =>
           <[platform_id p := join (lit " ") (List.map hashtag (take 5 tags))]>
             formattedTags
       | linkedin =>
           <[platform_id p := join (lit " ") (List.map hashtag (take 8 tags))]>
             formattedTags
       | telegram =>
           <[platform_id p := join (lit " ") (List.map hashtag tags)]>
             formattedTags
       end)
    ∅ platforms.

Definition formatMessageForPlatform (msg : jsstring) (p : Platform)
    : jsstring :=
  match p with
  | twitter =>
      if (250 <? length msg)%nat then take 247 msg ++ lit "..." else msg
  | linkedin => msg
  | telegram => msg
  end.

(** [`${platformMessage}\n\n${formattedTags[platform] || ''}`], the text
    handed to the platform (capabilities.ts:391). *)
Definition fullMessage (msg : jsstring)
    (formattedTags : gmap (list N) (list N)) (p : Platform) : jsstring :=
  formatMessageForPlatform msg p ++ nl ++ nl
  ++ default [] (formattedTags !! platform_id p).

(** ** Template registry (template-interface.ts:113) *)

(** A [VisualizationTemplate]. [generate] is never called by the registry
    and is left out. *)
Record VisualizationTemplate := {
  id : list N;
  name : list N;
  description : list N;
  suitableFor : list (list N);
  isSuitableFor : value -> bool;
}.

(** [Map<string, VisualizationTemplate>]: the entries in insertion order,
    with one entry per key. *)
Definition TemplateRegistry := list (list N * VisualizationTemplate).

Definition empty_registry : TemplateRegistry := [].

(** [Map.prototype.set]: an existing key keeps its place and gets the new
    value, a new key goes last. *)
Fixpoint map_set (k : jsstring) (t : VisualizationTemplate)
    (m : TemplateRegistry) : TemplateRegistry :=
  match m with
  | [] => [(k, t)]
  | (k', t') :: rest =>
      if bool_decide (k = k') then (k, t) :: rest
      else (k', t') :: map_set k t rest
  end.

Definition register (t : VisualizationTemplate) (r : TemplateRegistry)
    : TemplateRegistry :=
  map_set (id t) t r.

Fixpoint get (k : jsstring) (r : TemplateRegistry)
    : option VisualizationTemplate :=
  match r with
  | [] => None
  | (k', t) :: rest => if bool_decide (k = k') then Some t else get k rest
  end.

Definition getAll (r : TemplateRegistry) : list VisualizationTemplate :=
  List.map snd r.

Definition findSuitableTemplates (r : TemplateRegistry) (data : value)
    : list VisualizationTemplate :=
  List.filter (fun t => isSuitableFor t data) (getAll r).

(** [preferredType] is [None] when the argument is omitted. The test
    [if (preferredType)] also skips the empty string. *)
Definition findBestTemplate (r : TemplateRegistry) (data : value)
    (preferredType : option (list N)) : option VisualizationTemplate :=
  let suitableTemplates := findSuitableTemplates r data in
  if (length suitableTemplates =? 0)%nat then None
  else
    let preferred :=
      match preferredType with
      | Some (c :: hint) =>
          List.find (fun t => includes (id t) (c :: hint)) suitableTemplates
      | _ => None
      end in
    match preferred with
    | Some t => Some t
    | None => head suitableTemplates
    end.

(** *** The built-in templates and their registration

    [isSuitableFor] of price-chart.ts, market-overview.ts and tvl-chart.ts;
    the registration order is that of templates/capabilities.ts. Every
    property read below is on a truthy value and cannot throw, so [get_opt]
    is the plain read. *)

Definition is_array (v : value) : bool :=
  match v with VArr _ => true | _ => false end.

(** [typeof v === 'number'] *)
Definition is_number (v : value) : bool :=
  match v with VNum _ => true | _ => false end.

(** [typeof v === 'object'] *)
Definition is_object (v : value) : bool :=
  match v with VNull | VArr _ | VObj _ => true | _ => false end.

Definition PriceChartTemplate : VisualizationTemplate := {|
  id := lit "price-chart";
  name := lit "Token Price Chart";
  description := lit "Visualizes token price over time with volume indicators";
  suitableFor := [lit "token-price"; lit "historical-data"; lit "price-analysis"];
  isSuitableFor d :=
    truthy d &&
    ((truthy (get_opt d (lit "historicalPrices"))
      && is_array (get_opt d (lit "historicalPrices")))
     || (truthy (get_opt d (lit "price"))
         && is_number (get_opt (get_opt d (lit "price")) (lit "usd"))));
|}.

Definition MarketOverviewTemplate : VisualizationTemplate := {|
  id := lit "market-overview";
  name := lit "DeFi Market Overview";
  description :=
    lit "Comprehensive overview of the DeFi market with multiple visualizations";
  suitableFor := [lit "market-data"; lit "defi-overview"; lit "multi-metric"];
  isSuitableFor d :=
    truthy d &&
    ((truthy (get_opt d (lit "topTokens"))
      && is_array (get_opt d (lit "topTokens")))
     || (truthy (get_opt d (lit "topProtocols"))
         && is_array (get_opt d (lit "topProtocols"))));
|}.

Definition TvlChartTemplate : VisualizationTemplate := {|
  id := lit "tvl-chart";
  name := lit "TVL Chart";
  description :=
    lit "Visualizes Total Value Locked in a DeFi protocol or chain over time";
  suitableFor := [lit "tvl-data"; lit "protocol-analysis"; lit "historical-tvl"];
  isSuitableFor d :=
    truthy d &&
    ((truthy (get_opt d (lit "tvl")) && is_object (get_opt d (lit "tvl")))
     || (truthy (get_opt d (lit "historicalTvl"))
         && is_array (get_opt d (lit "historicalTvl"))));
|}.

Definition templateRegistry : TemplateRegistry :=
  register TvlChartTemplate
    (register MarketOverviewTemplate
       (register PriceChartTemplate empty_registry)).

(** ** The host: file system, headless browser, agent runtime, clock *)

(** The two scripts [page.evaluate] runs: the bounding box of
    [.chart-container] (or of the body), and the bounding box of the first
    [svg] element (1920 x 1080 without one). *)
Inductive script := ContainerBox | SvgBox.

(** What the collaborators outside the repository do. Every operation may
    change the host's state and, unless its type says otherwise, may throw.
    [fs.existsSync] never throws. [math_random_half] is
    [Math.floor(Math.random() * 2) = 1], that is whether the draw from
    [0, 1) is at least one half; it does not throw. [import_index] is [import('../index')]
    and tells whether the module has a default export. *)
Class Host (H : Type) := {
  process_cwd : H -> list N;
  fs_existsSync : H -> list N -> bool;
  fs_mkdirSync : H -> list N -> H * outcome unit;
  fs_writeFileSync : H -> list N -> list N -> H * outcome unit;
  fs_readFileSync : H -> list N -> H * outcome (list N);
  fs_unlinkSync : H -> list N -> H * outcome unit;
  puppeteer_launch : H -> H * outcome unit;
  browser_newPage : H -> nat -> H * outcome unit;
  page_goto : H -> nat -> list N -> H * outcome unit;
  page_evaluate : H -> nat -> script -> H * outcome (spec_float * spec_float);
  page_setViewport :
    H -> nat -> spec_float -> spec_float -> spec_float -> H * outcome unit;
  page_screenshot : H -> nat -> list N -> H * outcome unit;
  import_index : H -> H * outcome bool;
  agent_uploadFile : H -> value -> H * outcome value;
  action_callIntegration : H -> value -> H * outcome value;
  date_now : H -> Z;
  math_random_half : H -> H * bool;
}.

(** The world a call runs in: the host, and the browsers the code has
    launched and not yet closed. A browser is named by its launch number. *)
Record world (H : Type) := {
  host : H;
  launched : nat;
  open_browsers : list nat;
}.
Arguments host {H} w.
Arguments launched {H} w.
Arguments open_browsers {H} w.

Definition io (H A : Type) : Type := world H -> world H * outcome A.

Section IO.
Context {H : Type} {host_ops : Host H}.

Definition io_ret {A} (a : A) : io H A := fun w => (w, Ret a).

Definition io_throw {A} (e : exn) : io H A := fun w => (w, Throw e).

Definition io_bind {A B} (m : io H A) (k : A -> io H B) : io H B :=
  fun w =>
    match m w with
    | (w', Ret a) => k a w'
    | (w', Throw e) => (w', Throw e)
    end.

(** [try { body } catch (error) { handler }] *)
Definition try_catch {A} (body : io H A) (handler : exn -> io H A)
    : io H A :=
  fun w =>
    match body w with
    | (w', Ret a) => (w', Ret a)
    | (w', Throw e) => handler e w'
    end.

(** [try { body } finally { cleanup }]: the cleanup runs on both exits,
    and an exception of the cleanup replaces the outcome of the body. *)
Definition try_finally {A} (body : io H A) (cleanup : io H unit)
    : io H A :=
  fun w =>
    match body w with
    | (w', r) =>
        match cleanup w' with
        | (w'', Ret _) => (w'', r)
        | (w'', Throw e) => (w'', Throw e)
        end
    end.

(** A computation without effects. *)
Definition pure_outcome {A} (r : outcome A) : io H A := fun w => (w, r).

(** An operation of the host. *)
Definition host_op {A} (f : H -> H * outcome A) : io H A :=
  fun w =>
    match f (host w) with
    | (h', r) =>
        ({| host := h'; launched := launched w;
            open_browsers := open_browsers w |}, r)
    end.

(** An operation of the host that does not throw. *)
Definition host_step {A} (f : H -> H * A) : io H A :=
  fun w =>
    match f (host w) with
    | (h', a) =>
        ({| host := h'; launched := launched w;
            open_browsers := open_browsers w |}, Ret a)
    end.

(** A read of the host's state. *)
Definition host_read {A} (f : H -> A) : io H A :=
  fun w => (w, Ret (f (host w))).

(** [puppeteer.launch(...)]: on success a new browser is open. *)
Definition launch : io H nat :=
  fun w =>
    match puppeteer_launch (host w) with
    | (h', Ret _) =>
        ({| host := h'; launched := S (launched w);
            open_browsers := launched w :: open_browsers w |},
         Ret (launched w))
    | (h', Throw e) =>
        ({| host := h'; launched := launched w;
            open_browsers := open_browsers w |}, Throw e)
    end.

(** [browser.close()], taken to succeed. *)
Definition close (b : nat) : io H unit :=
  fun w =>
    ({| host := host w; launched := launched w;
        open_browsers :=
          List.filter (fun b' => negb (Nat.eqb b b')) (open_browsers w) |},
     Ret tt).
End IO.

Notation "'run' x <- m ; k" := (io_bind m (fun x => k))
  (at level 10, x name, m at level 100, k at level 200).

(** Math.ceil *)
Definition math_ceil (x : number) : number :=
  match x with
  | S754_finite s m e =>
      if 0 <=? e then x
      else
        let q := Z.pos m / 2 ^ (- e) in
        let r := Z.pos m mod 2 ^ (- e) in
        if s then (if q =? 0 then S754_zero true else num_of_Z (- q))
        else num_of_Z (if r =? 0 then q else q + 1)
  | _ => x
  end.

(** [Math.ceil(x) || fallback] *)
Definition ceil_or (x : number) (fallback : Z) : number :=
  if num_truthy (math_ceil x) then math_ceil x else num_of_Z fallback.

(** ** Saving and converting artifacts (file-distributor.ts) *)

Inductive format := html | png | svg.

Definition format_id (f : format) : jsstring :=
  match f with
  | html => lit "html"
  | png => lit "png"
  | svg => lit "svg"
  end.

(** The [action] argument, as far as the code reads it: [workspace] is
    [action.workspace.id], [None] when [action] has no workspace; [agent]
    and [me] tell whether [action.agent] and [action.me] are set. *)
Record Action := {
  workspace : option value;
  agent : bool;
  me : bool;
}.

Record SaveResult := {
  save_success : bool;
  filePath : list N;
  fileUrl : value;
}.

(** [\w] *)
Definition is_word_char (c : N) : bool :=
  ((N.leb 48 c && N.leb c 57) || (N.leb 65 c && N.leb c 90)
   || (N.leb 97 c && N.leb c 122) || N.eqb c 95)%N.

(** [s.replace(/<suffix>$/, replacement)] for a literal suffix. *)
Definition replace_suffix (s suffix replacement : jsstring) : jsstring :=
  let n := (length s - length suffix)%nat in
  if bool_decide (drop n s = suffix) && (length suffix <=? length s)%nat
  then take n s ++ replacement
  else s.

Definition quote : jsstring := [34%N].

(** The host document an SVG is wrapped in (file-distributor.ts:207). *)
Definition svg_wrapper (svg_text : jsstring) : jsstring :=
  nl ++ lit "        <!DOCTYPE html>"
  ++ nl ++ lit "        <html>"
  ++ nl ++ lit "        <head>"
  ++ nl ++ lit "          <meta charset=" ++ quote ++ lit "UTF-8" ++ quote ++ lit ">"
  ++ nl ++ lit "          <title>SVG Conversion</title>"
  ++ nl ++ lit "          <style>"
  ++ nl ++ lit "            body { margin: 0; padding: 0; }"
  ++ nl ++ lit "            svg { max-width: 100%; height: auto; }"
  ++ nl ++ lit "          </style>"
  ++ nl ++ lit "        </head>"
  ++ nl ++ lit "        <body>"
  ++ nl ++ lit "          " ++ svg_text
  ++ nl ++ lit "        </body>"
  ++ nl ++ lit "        </html>"
  ++ nl ++ lit "      ".

Section FileDistributor.
Context {lib : EcmaLib} {H : Type} {host_ops : Host H}.

(** The statements between [puppeteer.launch] and [browser.close]:
    open a page, load the file, measure, size the viewport, capture. *)
Definition screenshot_page (b : nat) (htmlPath outputPath : jsstring)
    (sc : script) (w0 h0 : Z) : io H unit :=
  run _ <- host_op (fun h => browser_newPage h b);
  run _ <- host_op (fun h => page_goto h b (lit "file://" ++ htmlPath));
  run size <- host_op (fun h => page_evaluate h b sc);
  run _ <- host_op (fun h =>
    page_setViewport h b (ceil_or (fst size) w0) (ceil_or (snd size) h0)
      (num_of_Z 2));
  host_op (fun h => page_screenshot h b outputPath).

(** [const browser = await puppeteer.launch(...); try { ... } finally
    { await browser.close(); extra }] *)
Definition with_browser (htmlPath outputPath : jsstring) (sc : script)
    (w0 h0 : Z) (extra : io H unit) : io H unit :=
  run b <- launch;
  try_finally (screenshot_page b htmlPath outputPath sc w0 h0)
    (run _ <- close b; extra).

Definition no_svg : exn := JsError (lit "No SVG content found in the HTML").

(** Lines 94 to 123: the upload to the workspace. [None] when the code
    falls through to the local result. *)
Definition upload (action : option Action) (outputPath fullFilename : jsstring)
    : io H (option SaveResult) :=
  match action with
  | Some a =>
      match workspace a with
      | Some ws =>
          try_catch
            (run fileContent <- host_op (fun h => fs_readFileSync h outputPath);
             run agentToUse <-
               (if agent a then io_ret true
                else if me a then host_op import_index
                else io_ret false);
             if negb agentToUse then
               io_throw (JsError (lit "No agent available for file upload"))
             else
               run uploadResponse <- host_op (fun h =>
                 agent_uploadFile h
                   (VObj [(lit "workspaceId", ws);
                          (lit "path", VStr fullFilename);
                          (lit "file", VStr fileContent);
                          (lit "skipSummarizer", VBool true)]));
               run url <- pure_outcome (get_prop uploadResponse (lit "url"));
               io_ret (Some {| save_success := true; filePath := outputPath;
                               fileUrl := url |}))
            (fun _ => io_ret None)
      | None => io_ret None
      end
  | None => io_ret None
  end.

Definition saveVisualization (html_text filename : jsstring) (fmt : format)
    (action : option Action) : io H SaveResult :=
  run cwd <- host_read process_cwd;
  let outputDir := path_resolve cwd (lit "output") in
  run dir_exists <- host_read (fun h => fs_existsSync h outputDir);
  run _ <-
    (if negb dir_exists then host_op (fun h => fs_mkdirSync h outputDir)
     else io_ret tt);
  let extension := format_id fmt in
  let fullFilename := filename ++ lit "." ++ extension in
  let outputPath := path_resolve outputDir fullFilename in
  try_catch
    (run _ <-
       match fmt with
       | html => host_op (fun h => fs_writeFileSync h outputPath html_text)
       | svg =>
           match match_svg html_text with
           | None => io_throw no_svg
           | Some svgMatch =>
               host_op (fun h => fs_writeFileSync h outputPath svgMatch)
           end
       | png =>
           let htmlPath := path_resolve outputDir (filename ++ lit ".html") in
           run _ <- host_op (fun h => fs_writeFileSync h htmlPath html_text);
           with_browser htmlPath outputPath ContainerBox 1920 1080 (io_ret tt)
       end;
     run uploaded <- upload action outputPath fullFilename;
     match uploaded with
     | Some r => io_ret r
     | None =>
         io_ret {| save_success := true; filePath := outputPath;
                   fileUrl := VUndefined |}
     end)
    (fun error =>
       io_throw (JsError (lit "Failed to save as " ++ format_id fmt
                          ++ lit ": " ++ error_text error))).

(** [inputPath.replace(new RegExp(`\\.${inputExt}$`), `.${outputFormat}`)].
    When the extension consists of word characters the pattern is the
    literal suffix; any other extension goes through the engine. *)
Definition replace_extension (inputPath inputExt : jsstring) (fmt : format)
    : outcome jsstring :=
  if forallb is_word_char inputExt then
    Ret (replace_suffix inputPath (lit "." ++ inputExt)
           (lit "." ++ format_id fmt))
  else
    regexp_replace inputPath (lit "\." ++ inputExt ++ lit "$")
      (lit "." ++ format_id fmt).

Definition convertVisualization (inputPath : jsstring) (outputFormat : format)
    : io H (list N) :=
  let inputExt := to_lower_case (drop 1 (path_extname inputPath)) in
  run outputPath <- pure_outcome (replace_extension inputPath inputExt outputFormat);
  if bool_decide (inputExt = format_id outputFormat) then io_ret inputPath
  else
    try_catch
      (run _ <-
         (if bool_decide (inputExt = lit "html") then
            match outputFormat with
            | svg =>
                run html_text <- host_op (fun h => fs_readFileSync h inputPath);
                match match_svg html_text with
                | None => io_throw no_svg
                | Some svgMatch =>
                    host_op (fun h => fs_writeFileSync h outputPath svgMatch)
                end
            | png =>
                with_browser inputPath outputPath ContainerBox 800 600 (io_ret tt)
            | html =>
                io_throw (JsError (lit "Unsupported conversion: " ++ inputExt
                                   ++ lit " to " ++ format_id outputFormat))
            end
          else if bool_decide (inputExt = lit "svg") then
            match outputFormat with
            | png =>
                run svg_text <- host_op (fun h => fs_readFileSync h inputPath);
                let htmlPath :=
                  replace_suffix inputPath (lit ".svg") (lit ".temp.html") in
                run _ <- host_op (fun h =>
                  fs_writeFileSync h htmlPath (svg_wrapper svg_text));
                with_browser htmlPath outputPath SvgBox 1920 1080
                  (host_op (fun h => fs_unlinkSync h htmlPath))
            | _ =>
                io_throw (JsError (lit "Unsupported conversion: " ++ inputExt
                                   ++ lit " to " ++ format_id outputFormat))
            end
          else
            io_throw (JsError (lit "Unsupported conversion: " ++ inputExt
                               ++ lit " to " ++ format_id outputFormat)));
       io_ret outputPath)
      (fun error =>
         io_throw (JsError (lit "Failed to convert visualization: "
                            ++ error_text error))).
End FileDistributor.

(** ** Distribution to social platforms (capabilities.ts:363) *)

(** A result object [{ success, postId?, url?, error? }]; a field that is
    not set reads [undefined]. *)
Record PublishResult := {
  success : bool;
  postId : value;
  url : value;
  error : value;
}.

Definition failure (text : jsstring) : PublishResult :=
  {| success := false; postId := VUndefined; url := VUndefined;
     error := VStr text |}.

Definition posted (post_id post_url : value) : PublishResult :=
  {| success := true; postId := post_id; url := post_url;
     error := VUndefined |}.

Definition integrationId (p : Platform) : jsstring :=
  match p with
  | twitter => lit "twitter-v2"
  | linkedin => lit "linkedin-v2"
  | telegram => lit "telegram"
  end.

Definition endpoint (p : Platform) : jsstring :=
  match p with
  | twitter => lit "/2/tweets"
  | linkedin => lit "/v2/ugcPosts"
  | telegram => lit "/sendPhoto"
  end.

Section Distribution.
Context {lib : EcmaLib} {H : Type} {host_ops : Host H}.

(** The [data] object of the platform request (lines 426 to 480). *)
Definition request_data (p : Platform) (text base64Image imagePath : jsstring)
    : value :=
  match p with
  | twitter =>
      VObj [(lit "text", VStr text);
            (lit "media",
             VObj [(lit "media_data", VStr base64Image);
                   (lit "media_type",
                    VStr (if bool_decide (path_extname imagePath = lit ".png")
                          then lit "image/png" else lit "image/jpeg"))])]
  | linkedin =>
      VObj [(lit "author", VStr (lit "urn:li:person:me"));
            (lit "lifecycleState", VStr (lit "PUBLISHED"));
            (lit "specificContent",
             VObj [(lit "com.linkedin.ugc.ShareContent",
                    VObj [(lit "shareCommentary",
                           VObj [(lit "text", VStr text)]);
                          (lit "shareMediaCategory", VStr (lit "IMAGE"));
                          (lit "media",
                           VArr [VObj [(lit "status", VStr (lit "READY"));
                                       (lit "description",
                                        VObj [(lit "text",
                                               VStr (lit "DeFi Visualization"))]);
                                       (lit "media", VStr base64Image);
                                       (lit "title",
                                        VObj [(lit "text",
                                               VStr (lit "DeFi Data Visualization"))])]])])]);
            (lit "visibility",
             VObj [(lit "com.linkedin.ugc.MemberNetworkVisibility",
                    VStr (lit "PUBLIC"))])]
  | telegram =>
      VObj [(lit "chat_id", VStr (lit "@your_channel_here"));
            (lit "caption", VStr text);
            (lit "photo", VStr base64Image)]
  end.

(** The argument of [action.callIntegration]. *)
Definition integration_request (ws_id : value) (p : Platform)
    (text base64Image imagePath : jsstring) : value :=
  VObj [(lit "workspaceId", ws_id);
        (lit "integrationId", VStr (integrationId p));
        (lit "details",
         VObj [(lit "endpoint", VStr (endpoint p));
               (lit "method", VStr (lit "POST"));
               (lit "data", request_data p text base64Image imagePath)])].

(** Lines 494 to 517: the result object built from the response. *)
Definition read_response (p : Platform) (postResponse : value)
    : outcome PublishResult :=
  do data <- get_prop postResponse (lit "data");
  match p with
  | twitter =>
      let post_id := get_opt data (lit "id") in
      Ret (posted post_id
             (if truthy post_id
              then VStr (lit "https://twitter.com/user/status/"
                         ++ to_string post_id)
              else VUndefined))
  | linkedin =>
      let post_id := get_opt data (lit "id") in
      Ret (posted post_id
             (if truthy post_id
              then VStr (lit "https://www.linkedin.com/feed/update/"
                         ++ to_string post_id)
              else VUndefined))
  | telegram => Ret (posted (get_opt data (lit "message_id")) VUndefined)
  end.

(** One iteration of the loop over [platforms]: the statements of the
    outer [try], each path ending in the assignment to
    [results[platform]]. *)
Definition post_to_platform (imagePath msg : jsstring)
    (formattedTags : gmap (list N) (list N)) (action : option Action)
    (results : gmap (list N) PublishResult) (p : Platform)
    : io H (gmap (list N) PublishResult) :=
  try_catch
    (run image_exists <- host_read (fun h => fs_existsSync h imagePath);
     if negb image_exists then
       io_ret (<[platform_id p :=
                   failure (lit "Image file not found: " ++ imagePath)]> results)
     else
       let text := fullMessage msg formattedTags p in
       match action with
       | Some {| workspace := Some ws_id |} =>
           try_catch
             (run imageBuffer <- host_op (fun h => fs_readFileSync h imagePath);
              let base64Image := to_base64 imageBuffer in
              run postResponse <- host_op (fun h =>
                action_callIntegration h
                  (integration_request ws_id p text base64Image imagePath));
              run r <- pure_outcome (read_response p postResponse);
              io_ret (<[platform_id p := r]> results))
             (fun e =>
                io_ret (<[platform_id p :=
                            failure (lit "Failed to post to " ++ platform_id p
                                     ++ lit ": " ++ error_text e)]> results))
       | _ =>
           io_ret (<[platform_id p :=
                       failure (lit "No workspace available for posting to social media")]>
                     results)
       end)
    (fun e =>
       io_ret (<[platform_id p :=
                   failure (lit "Error posting to " ++ platform_id p
                            ++ lit ": " ++ error_text e)]> results)).

Fixpoint post_to_platforms (imagePath msg : jsstring)
    (formattedTags : gmap (list N) (list N)) (action : option Action)
    (results : gmap (list N) PublishResult) (platforms : list Platform)
    : io H (gmap (list N) PublishResult) :=
  match platforms with
  | [] => io_ret results
  | p :: rest =>
      run results' <- post_to_platform imagePath msg formattedTags action results p;
      post_to_platforms imagePath msg formattedTags action results' rest
  end.

Definition distributeToSocial (imagePath : jsstring)
    (platforms : list Platform) (msg : jsstring) (tag_list : list (list N))
    (action : option Action) : io H (gmap (list N) PublishResult) :=
  let formattedTags := formatTagsForPlatforms tag_list platforms in
  post_to_platforms imagePath msg formattedTags action ∅ platforms.
End Distribution.

(** ** Post schedule and campaign (capabilities.ts:775, 100) *)

(** A schedule entry. [scheduledTime] is the instant in milliseconds since
    the epoch that [toISOString] renders; [setHours(getHours() + k)] moves
    it by [k] hours (a time zone whose offset does not change within the
    schedule). *)
Record ScheduleEntry := {
  platform : list N;
  scheduledTime : Z;
}.

Definition schedule_platforms : list (list N) :=
  [lit "twitter"; lit "linkedin"; lit "telegram"].

Definition hour_ms : Z := 3600000.

Record Visualization := {
  viz_type : list N;
  title : list N;
  htmlPath : list N;
  pngPath : list N;
  data : value;
}.

(** An entry of [platformContent[platform]]; [content] holds its
    [message], [tags] and [thread]. *)
Record CampaignContent := {
  visualization : list N;
  imagePath : list N;
  content : SocialContent;
}.

Record Campaign := {
  topic : list N;
  visualizations : list (list N * list N * list N * list N);
  platformContent : gmap (list N) (list CampaignContent);
  suggestedSchedule : list ScheduleEntry;
}.

Section Campaign.
Context {lib : EcmaLib} {H : Type} {host_ops : Host H}.

(** The loop of [generatePostSchedule], from index [i] for [n] more
    rounds. *)
Fixpoint schedule_from (now : Z) (i : Z) (n : nat)
    (schedule : list ScheduleEntry) : io H (list ScheduleEntry) :=
  match n with
  | O => io_ret schedule
  | S n' =>
      run half <- host_step math_random_half;
      let time := now + (i * 4 + (if half then 1 else 0)) * hour_ms in
      let p := nth (Z.to_nat (i mod 3)) schedule_platforms [] in
      schedule_from now (i + 1) n'
        (schedule ++ [{| platform := p; scheduledTime := time |}])
  end.

(** [postCount] is an integer; the loop runs [postCount] times, not at
    all when it is negative. *)
Definition generatePostSchedule (postCount : Z) : io H (list ScheduleEntry) :=
  run now <- host_read date_now;
  schedule_from now 0 (Z.to_nat postCount) [].

(** Lines 104 to 256 of [createSocialCampaign] fetch provider data,
    resolve and run the templates and convert the artifacts; their
    outcome, the array [visualizations], is a parameter. *)
Variable gather_and_render :
  list N -> list (list N) -> io H (list Visualization).

(** The inner loop of lines 261 to 284 for one platform. *)
Fixpoint contents_for (p : Platform) (includeThread : bool)
    (vs : list Visualization) : outcome (list CampaignContent) :=
  match vs with
  | [] => Ret []
  | viz :: rest =>
      let ct :=
        if includeThread && bool_decide (p = twitter) then Thread else Detailed in
      do c <- generateSocialContent (data viz) p ct;
      do cs <- contents_for p includeThread rest;
      Ret ({| visualization := title viz; imagePath := pngPath viz;
              content := c |} :: cs)
  end.

Fixpoint platform_contents (platforms : list Platform) (includeThread : bool)
    (vs : list Visualization)
    (platformContent : gmap (list N) (list CampaignContent))
    : outcome (gmap (list N) (list CampaignContent)) :=
  match platforms with
  | [] => Ret platformContent
  | p :: rest =>
      do contents <- contents_for p includeThread vs;
      platform_contents rest includeThread vs
        (<[platform_id p := contents]> platformContent)
  end.

(** [createSocialCampaign]; the result is the campaign object that the
    capability hands to [JSON.stringify]. *)
Definition createSocialCampaign (topic_text : jsstring)
    (platforms : list Platform) (visualizationTypes : list (list N))
    (postCount : Z) (includeThread : bool) : io H Campaign :=
  try_catch
    (run vs <- gather_and_render topic_text visualizationTypes;
     run pc <- pure_outcome (platform_contents platforms includeThread vs ∅);
     run schedule <- generatePostSchedule postCount;
     io_ret {| topic := topic_text;
               visualizations :=
                 List.map (fun v => (viz_type v, title v, htmlPath v, pngPath v)) vs;
               platformContent := pc;
               suggestedSchedule := schedule |})
    (fun e =>
       io_throw (JsError (lit "Failed to create social campaign: "
                          ++ error_text e))).
End Campaign.

(** ** A reference library and a scripted host

    Instances on which the code can be run. [ascii_lib] follows the
    platform's library on ASCII letters, on integers below 10^21 and on
    POSIX paths, and is a stand-in elsewhere: its pattern engine finds no
    match and its base64 is the identity. [scripted] is a host whose
    answers are listed in advance. *)

Definition ascii_lower (c : N) : N :=
  if (N.leb 65 c && N.leb c 90)%N then (c + 32)%N else c.

Definition is_digit (c : N) : bool := (N.leb 48 c && N.leb c 57)%N.

Definition parse_digits (s : jsstring) : Z :=
  foldl (fun acc c => 10 * acc + (Z.of_N c - 48)) 0 s.

Definition integer_to_string (x : number) : jsstring :=
  match x with
  | S754_nan => lit "NaN"
  | S754_infinity s => sign_text s ++ lit "Infinity"
  | S754_zero _ => lit "0"
  | S754_finite s m e => sign_text s ++ fixed_digits (scaled_round m e 0) 0
  end.

(** The last path segment. *)
Fixpoint basename_of (s acc : jsstring) : jsstring :=
  match s with
  | [] => acc
  | c :: s' => if N.eqb c 47 then basename_of s' [] else basename_of s' (acc ++ [c])
  end.

(** The part of a segment from its last dot on. *)
Fixpoint from_last_dot (s : jsstring) : option jsstring :=
  match s with
  | [] => None
  | c :: s' =>
      match from_last_dot s' with
      | Some e => Some e
      | None => if N.eqb c 46 then Some (c :: s') else None
      end
  end.

Definition posix_extname (p : jsstring) : jsstring :=
  match basename_of p [] with
  | [] => []
  | c :: rest => default [] (from_last_dot rest)
  end.

#[global] Instance ascii_lib : EcmaLib := {|
  number_to_string := integer_to_string;
  string_to_number s :=
    match s with
    | [] => S754_zero false
    | _ => if forallb is_digit s then num_of_Z (parse_digits s) else S754_nan
    end;
  to_lower_case := List.map ascii_lower;
  path_extname := posix_extname;
  path_resolve dir file := dir ++ lit "/" ++ file;
  regexp_replace s _ _ := Ret s;
  match_svg _ := None;
  to_base64 bytes := bytes;
|}.

Record scripted := {
  files : gmap (list N) (list N);
  page_error : option exn;
  requests : list value;
  replies : list (outcome value);
  clock : Z;
  halves : list bool;
}.

Definition with_files (h : scripted) (fs : gmap (list N) (list N)) : scripted :=
  {| files := fs; page_error := page_error h; requests := requests h;
     replies := replies h; clock := clock h; halves := halves h |}.

Definition enoent : exn := JsError (lit "ENOENT: no such file or directory").

#[global] Instance scripted_host : Host scripted := {|
  process_cwd _ := lit "/app";
  fs_existsSync h p := bool_decide (is_Some (files h !! p));
  fs_mkdirSync h p := (with_files h (<[p := []]> (files h)), Ret tt);
  fs_writeFileSync h p c := (with_files h (<[p := c]> (files h)), Ret tt);
  fs_readFileSync h p :=
    match files h !! p with
    | Some c => (h, Ret c)
    | None => (h, Throw enoent)
    end;
  fs_unlinkSync h p :=
    match files h !! p with
    | Some _ => (with_files h (delete p (files h)), Ret tt)
    | None => (h, Throw enoent)
    end;
  puppeteer_launch h := (h, Ret tt);
  browser_newPage h _ := (h, Ret tt);
  page_goto h _ _ :=
    match page_error h with
    | Some e => (h, Throw e)
    | None => (h, Ret tt)
    end;
  page_evaluate h _ _ := (h, Ret (num_of_Z 800, num_of_Z 400));
  page_setViewport h _ _ _ _ := (h, Ret tt);
  page_screenshot h _ p := (with_files h (<[p := lit "PNG"]> (files h)), Ret tt);
  import_index h := (h, Ret true);
  agent_uploadFile h _ := (h, Ret (VObj [(lit "url", VStr (lit "https://files.example/artifact"))]));
  action_callIntegration h req :=
    match replies h with
    | [] =>
        ({| files := files h; page_error := page_error h;
            requests := requests h ++ [req]; replies := [];
            clock := clock h; halves := halves h |},
         Throw (JsError (lit "no reply")))
    | r :: rs =>
        ({| files := files h; page_error := page_error h;
            requests := requests h ++ [req]; replies := rs;
            clock := clock h; halves := halves h |}, r)
    end;
  date_now := clock;
  math_random_half h :=
    match halves h with
    | [] => (h, false)
    | b :: bs =>
        ({| files := files h; page_error := page_error h;
            requests := requests h; replies := replies h;
            clock := clock h; halves := bs |}, b)
    end;
|}.

Definition start {H : Type} (h : H) : world H :=
  {| host := h; launched := 0; open_browsers := [] |}.

(** ** Vocabulary of the properties *)

(** [x] is the first element of [l] that satisfies [P]. *)
Definition is_first {A} (P : A -> Prop) (l : list A) (x : A) : Prop :=
  exists l1 l2, l = l1 ++ x :: l2 /\ P x /\ forall y, y ∈ l1 -> ~ P y.

(** [sub] occurs in [s] as a contiguous run of code units. *)
Definition substring_of (sub s : jsstring) : Prop :=
  exists a b, s = a ++ sub ++ b.

(** Deduplication that keeps first occurrences: an entry is kept exactly
    when it does not occur among the entries kept before it. *)
Inductive keeps_first : list value -> list value -> list value -> Prop :=
| keeps_first_nil seen : keeps_first seen [] []
| keeps_first_dup seen x l out :
    x ∈ seen -> keeps_first seen l out -> keeps_first seen (x :: l) out
| keeps_first_new seen x l out :
    x ∉ seen -> keeps_first (seen ++ [x]) l out ->
    keeps_first seen (x :: l) (x :: out).

(** A value other than the number zero, the only values on which
    SameValueZero and equality differ. *)
Definition not_zero (v : value) : Prop :=
  match v with
  | VNum (S754_zero _) => False
  | _ => True
  end.

(** The documented maximum number of tags (capabilities.ts:749). *)
Definition max_tags : nat := 10.

(** Twitter's post limit (capabilities.ts:319). *)
Definition twitter_post_limit : nat := 280.

(** The scheduled instants of a schedule, and strict increase. *)
Definition schedule_times (s : list ScheduleEntry) : list Z :=
  List.map scheduledTime s.

Definition strictly_increasing (ts : list Z) : Prop :=
  forall i j a b, (i < j)%nat -> ts !! i = Some a -> ts !! j = Some b -> a < b.

(** Every open browser was launched: its number is below the counter. *)
Definition well_formed {H : Type} (w : world H) : Prop :=
  Forall (fun b => (b < launched w)%nat) (open_browsers w).

(** A computation that, from a well-formed world, ends with the same
    browsers open, whether it returns or throws. *)
Definition closes_browsers {H A : Type} (m : io H A) : Prop :=
  forall w, well_formed w ->
    open_browsers (fst (m w)) = open_browsers w /\
    (launched w <= launched (fst (m w)))%nat.

(** *** Payloads of the expected shape

    The fields the content formatter calls methods on hold a value of the
    expected type or a falsy one (absent, [null], [0], the empty
    string). *)

Definition string_or_falsy (v : value) : Prop :=
  truthy v = false \/ exists s, v = VStr s.

Definition number_or_falsy (v : value) : Prop :=
  truthy v = false \/ exists x, v = VNum x.

(** [data.chain || (data.token && data.token.chain)] *)
Definition payload_chain (d : value) : value :=
  let token := get_opt d (lit "token") in
  or_else (get_opt d (lit "chain"))
    (if truthy token then get_opt token (lit "chain") else token).

Definition tags_typed (d : value) : Prop :=
  is_nullish d = false /\
  string_or_falsy (get_opt (get_opt d (lit "token")) (lit "name")) /\
  string_or_falsy (payload_chain d) /\
  string_or_falsy (get_opt d (lit "category")).

Definition numbers_typed (d : value) : Prop :=
  number_or_falsy (get_opt (get_opt d (lit "price")) (lit "usd")) /\
  number_or_falsy (get_opt (get_opt d (lit "price")) (lit "change24h")) /\
  number_or_falsy (get_opt (get_opt d (lit "volume")) (lit "usd24h")) /\
  number_or_falsy (get_opt (get_opt d (lit "liquidity")) (lit "usd")) /\
  number_or_falsy (get_opt d (lit "marketCap")) /\
  number_or_falsy (get_opt d (lit "transactions24h")).

(** ** Concrete payloads *)

(** [{token: {symbol: "ETH"}, price: {usd: 2500.123456, change24h: -1.5},
    volume: {usd24h: 1.2e9}}] *)
Definition eth_snapshot : value :=
  VObj [(lit "token", VObj [(lit "symbol", VStr (lit "ETH"))]);
        (lit "price",
         VObj [(lit "usd", VNum (num_of_decimal 2500123456 6));
               (lit "change24h", VNum (num_of_decimal (-15) 1))]);
        (lit "volume", VObj [(lit "usd24h", VNum (num_of_Z 1200000000))])].

(** A payload whose derived tags repeat base tags and exceed the cap:
    [{token: {symbol: "ETH", name: "Ethereum Token", chain: "ethereum"},
    category: "DeFi", topTokens: [], tvl: 1}] *)
Definition tagged_payload : value :=
  VObj [(lit "token",
         VObj [(lit "symbol", VStr (lit "ETH"));
               (lit "name", VStr (lit "Ethereum Token"));
               (lit "chain", VStr (lit "ethereum"))]);
        (lit "category", VStr (lit "DeFi"));
        (lit "topTokens", VArr []);
        (lit "tvl", VNum (num_of_Z 1))].

(** [{topProtocols: []}], and the [detailed] message and the five base
    tags that [generateSocialContent] returns for it. *)
Definition market_payload : value := VObj [(lit "topProtocols", VArr [])].

Definition detailed_market_message : jsstring :=
  match market_content Detailed [] with
  | inl m => m
  | inr c => message c
  end.

Definition base_tag_names : list (list N) :=
  [lit "DeFi"; lit "crypto"; lit "blockchain"; lit "visualization"; lit "data"].

(** ** Concrete hosts *)

Definition chart_png : jsstring := lit "/app/output/chart.png".

(** A host with the image on disk whose first platform call is refused and
    whose second is answered. *)
Definition two_replies : scripted := {|
  files := {[ chart_png := lit "PNG" ]};
  page_error := None;
  requests := [];
  replies :=
    [Throw (JsError (lit "rate limited"));
     Ret (VObj [(lit "data", VObj [(lit "message_id", VNum (num_of_Z 42))])])];
  clock := 0;
  halves := [];
|}.

Definition with_workspace : Action :=
  {| workspace := Some (VStr (lit "ws-1")); agent := true; me := false |}.

(** A host whose pages fail to load. *)
Definition failing_pages : scripted := {|
  files := {[ lit "/app/output/chart.html" := lit "<html></html>" ]};
  page_error := Some (JsError (lit "Navigation timeout"));
  requests := [];
  replies := [];
  clock := 0;
  halves := [];
|}.

(** A campaign run whose data gathering yields one rendered TVL chart, for
    the protocol [{name: "Lido", chain: "Ethereum", category: "Liquid
    Staking", tvl: 30000000000}]. *)
Definition one_tvl_chart {H : Type} (_ : list N) (_ : list (list N))
    : io H (list Visualization) :=
  fun w =>
    (w, Ret [{| viz_type := lit "tvl-chart";
                title := lit "Lido TVL Chart";
                htmlPath := lit "/app/output/tvl-chart_1.html";
                pngPath := lit "/app/output/tvl-chart_1.png";
                data := VObj [(lit "name", VStr (lit "Lido"));
                              (lit "chain", VStr (lit "Ethereum"));
                              (lit "category", VStr (lit "Liquid Staking"));
                              (lit "tvl", VNum (num_of_Z 30000000000))] |}]).


(** ** Template selection by the capabilities *)

(** A registry that was built by registrations alone. *)
Inductive registered : TemplateRegistry -> Prop :=
| registered_empty : registered empty_registry
| registered_more t r : registered r -> registered (register t r).

(** Lines 576 to 593 of the [generateVisualization] capability
    (templates/capabilities.ts): the template the data is rendered with.
    [templateId] is [None] when the argument is omitted; the test
    [if (templateId)] sends the empty string to the search as well. *)
Definition generateVisualization_template (r : TemplateRegistry)
    (templateId : option (list N)) (parsedData : value)
    : outcome VisualizationTemplate :=
  match templateId with
  | Some (c :: s) =>
      let templateId := c :: s in
      match get templateId r with
      | None =>
          Throw (JsError (lit "Template with ID " ++ quote ++ templateId
                          ++ quote ++ lit " not found"))
      | Some template =>
          if negb (isSuitableFor template parsedData) then
            Throw (JsError (lit "Template " ++ quote ++ templateId ++ quote
                            ++ lit " is not suitable for the provided data"))
          else Ret template
      end
  | _ =>
      match findBestTemplate r parsedData None with
      | None =>
          Throw (JsError (lit "No suitable template found for the provided data"))
      | Some template => Ret template
      end
  end.

(** [campaignData.primaryType], set by the topic of a campaign
    (distribution/capabilities.ts:123, 142, 168). *)
Inductive primaryType := primary_tokens | primary_protocols | primary_market.

(** Lines 179 to 192 of [createSocialCampaign]: the template for one
    requested visualization type. [None] is the case the loop skips. *)
Definition campaign_template (r : TemplateRegistry) (pt : primaryType)
    (vizType : jsstring) : option VisualizationTemplate :=
  match get vizType r with
  | Some template => Some template
  | None =>
      if match pt with primary_tokens => true | _ => false end
         && includes vizType (lit "price")
      then get (lit "price-chart") r
      else if match pt with primary_protocols => true | _ => false end
              && includes vizType (lit "tvl")
      then get (lit "tvl-chart") r
      else get (lit "market-overview") r
  end.

(** The tags a platform's hashtag string is made of
    (distribution/capabilities.ts:562, 570, 578). *)
Definition platform_tags (p : Platform) (tags : list (list N))
    : list (list N) :=
  match p with
  | twitter => take 5 tags
  | linkedin => take 8 tags
  | telegram => tags
  end.

(** ** The twitter module (distribution/capabilities.ts:797) *)

(** [xs.map(f)] for a callback that may throw: the elements are visited
    in order and the first exception ends the call. *)
Fixpoint map_outcome {A B} (f : A -> outcome B) (xs : list A)
    : outcome (list B) :=
  match xs with
  | [] => Ret []
  | x :: rest =>
      do y <- f x;
      do ys <- map_outcome f rest;
      Ret (y :: ys)
  end.

(** [v[i]] for an index [i]: an element of an array, a code unit of a
    string, the property named by the digits of [i] of an object,
    [undefined] past the end and on other primitives, and a TypeError on
    [undefined] and [null]. *)
Definition get_index (v : value) (i : nat) : outcome value :=
  match v with
  | VUndefined | VNull => Throw type_error
  | VArr xs => Ret (nth i xs VUndefined)
  | VStr s =>
      Ret (match s !! i with Some c => VStr [c] | None => VUndefined end)
  | VObj fields => Ret (assoc (digits (Z.of_nat i)) fields)
  | VBool _ | VNum _ => Ret VUndefined
  end.

(** U+2022, bullet *)
Definition bullet : jsstring := [8226%N].

(** [ensureTwitterLength]. [tagCount] is an integer; [substring] takes a
    negative end for zero. *)
Definition ensureTwitterLength (msg : jsstring) (tagCount : Z) : jsstring :=
  let hashtagChars := tagCount * 15 in
  let maxMessageLength := 280 - hashtagChars - 3 in
  if Z.of_nat (length msg) <=? maxMessageLength then msg
  else take (Z.to_nat (maxMessageLength - 3)) msg ++ lit "...".

Definition twitter_default_tags : list value :=
  [VStr (lit "DeFi"); VStr (lit "crypto"); VStr (lit "data");
   VStr (lit "analysis")].

Definition twitter_hook : jsstring :=
  lit "Just published our latest DeFi data visualization! Let's break down the key insights "
  ++ emoji_thread.

Definition twitter_call_to_action : jsstring :=
  lit "Want to see more detailed analytics? Check out our full visualization and follow for regular updates! ".

Section Twitter.
Context {lib : EcmaLib}.

(** [formatTwitterTags]. The tags are the ones [generateTwitterContent]
    collected from the payload; [replace] is a method of strings only. *)
Definition formatTwitterTags (tag_list : list value) : outcome jsstring :=
  do hashtags <-
    map_outcome
      (fun tag => do stripped <- call_strip tag; Ret (lit "#" ++ stripped))
      (take 3 tag_list);
  Ret (join (lit " ") hashtags).

(** [data.a.b] *)
Definition field2 (d : value) (a b : jsstring) : outcome value :=
  do x <- get_prop d a; get_prop x b.

(** [(v / divisor).toFixed(2)] *)
Definition scaled (v : value) (divisor : number) : jsstring :=
  toFixed (num_div (to_number v) divisor) 2.

(** [`${d[field][i][key]}: $${(d[field][i].tvl / 1e9).toFixed(2)}B`];
    the second read of [d[field][i]] gives what the first one gave. *)
Definition ranked_entry (d : value) (field : jsstring) (i : nat)
    (key : jsstring) : outcome jsstring :=
  do arr <- get_prop d field;
  do entry <- get_index arr i;
  do label <- get_prop entry key;
  do tvl <- get_prop entry (lit "tvl");
  Ret (to_string label ++ lit ": $" ++ scaled tvl num_1e9 ++ lit "B").

(** [generateTwitterContent]. A result without [thread] has
    [thread := None]. *)
Definition generateTwitterContent (d : value) (ct : contentType)
    : outcome SocialContent :=
  let tag_list := twitter_default_tags in
  do token <- get_prop d (lit "token");
  let tag_list :=
    if truthy (get_opt token (lit "symbol"))
    then tag_list ++ [get_opt token (lit "symbol")] else tag_list in
  do chain <- get_prop d (lit "chain");
  let tag_list := if truthy chain then tag_list ++ [chain] else tag_list in
  match ct with
  | Short =>
      do msg <-
        (if truthy token then
           do symbol <- get_prop token (lit "symbol");
           do usd <- field2 d (lit "price") (lit "usd");
           do p4 <- call_toFixed usd 4;
           do change <- field2 d (lit "price") (lit "change24h");
           do c2 <- call_toFixed change 2;
           Ret (to_string symbol ++ lit " is trading at $" ++ p4 ++ lit " ("
                ++ plus_sign change ++ c2
                ++ lit "%). Check out our analysis! ")
         else
           do topProtocols <- get_prop d (lit "topProtocols");
           if truthy topProtocols then
             do first <- get_index topProtocols 0;
             do label <- get_prop first (lit "name");
             do tvl <- get_prop first (lit "tvl");
             Ret (lit "DeFi Market Update: Top protocol " ++ to_string label
                  ++ lit " has $" ++ scaled tvl num_1e9
                  ++ lit "B TVL. See our full analysis! ")
           else Ret (lit "Check out our latest DeFi data visualization! "));
      Ret {| message := ensureTwitterLength msg 3;
             tags := take 3 tag_list;
             thread := None |}
  | Detailed =>
      let msg := lit "DeFi Market Insights " ++ emoji_chart ++ nl ++ nl in
      do msg <-
        (if truthy token then
           do symbol <- get_prop token (lit "symbol");
           do usd <- field2 d (lit "price") (lit "usd");
           do p6 <- call_toFixed usd 6;
           do change <- field2 d (lit "price") (lit "change24h");
           do c2 <- call_toFixed change 2;
           do vol <- field2 d (lit "volume") (lit "usd24h");
           Ret (msg ++ to_string symbol ++ lit " Analysis:" ++ nl
                ++ bullet ++ lit " Price: $" ++ p6 ++ nl
                ++ bullet ++ lit " 24h Change: " ++ plus_sign change ++ c2
                ++ lit "%" ++ nl
                ++ bullet ++ lit " Volume: $" ++ scaled vol num_1e6
                ++ lit "M" ++ nl ++ nl)
         else
           do topProtocols <- get_prop d (lit "topProtocols");
           if truthy topProtocols then
             do e0 <- ranked_entry d (lit "topProtocols") 0 (lit "name");
             do e1 <- ranked_entry d (lit "topProtocols") 1 (lit "name");
             Ret (msg ++ lit "Top Protocols by TVL:" ++ nl
                  ++ bullet ++ lit " " ++ e0 ++ nl
                  ++ bullet ++ lit " " ++ e1 ++ nl ++ nl)
           else Ret msg);
      Ret {| message := ensureTwitterLength msg 3;
             tags := take 3 tag_list;
             thread := None |}
  | Thread =>
      let posts := [twitter_hook] in
      do posts <-
        (if truthy token then
           do symbol <- get_prop token (lit "symbol");
           do usd <- field2 d (lit "price") (lit "usd");
           do p6 <- call_toFixed usd 6;
           do change <- field2 d (lit "price") (lit "change24h");
           do c2 <- call_toFixed change 2;
           let t1 := to_string symbol ++ lit " is trading at $" ++ p6
                     ++ lit " with " ++ plus_sign change ++ c2
                     ++ lit "% 24h change" in
           do vol <- field2 d (lit "volume") (lit "usd24h");
           let t2 := lit "Trading volume: $" ++ scaled vol num_1e6
                     ++ lit "M in the last 24 hours" in
           do cap <- get_prop d (lit "marketCap");
           do liq <- field2 d (lit "liquidity") (lit "usd");
           let t3 := lit "Market cap: $" ++ scaled cap num_1e6
                     ++ lit "M with $" ++ scaled liq num_1e6
                     ++ lit "M in liquidity" in
           do exchanges <- get_prop d (lit "exchanges");
           do count <-
             (if truthy exchanges then get_prop exchanges (lit "length")
              else Ret (VStr (lit "multiple")));
           let t4 := lit "Available on " ++ to_string count
                     ++ lit " exchanges" in
           Ret (posts ++ [t1; t2; t3; t4])
         else
           do topProtocols <- get_prop d (lit "topProtocols");
           if truthy topProtocols then
             do p0 <- ranked_entry d (lit "topProtocols") 0 (lit "name");
             do p1 <- ranked_entry d (lit "topProtocols") 1 (lit "name");
             do p2 <- ranked_entry d (lit "topProtocols") 2 (lit "name");
             let posts :=
               posts ++ [lit "Top DeFi protocols by TVL:" ++ nl
                         ++ lit "1. " ++ p0 ++ nl ++ lit "2. " ++ p1 ++ nl
                         ++ lit "3. " ++ p2] in
             do chainsTvl <- get_prop d (lit "chainsTvl");
             do posts <-
               (if truthy chainsTvl then
                  do c0 <- ranked_entry d (lit "chainsTvl") 0 (lit "name");
                  do c1 <- ranked_entry d (lit "chainsTvl") 1 (lit "name");
                  Ret (posts ++ [lit "Blockchain TVL distribution:" ++ nl
                                 ++ lit "1. " ++ c0 ++ nl ++ lit "2. " ++ c1])
                else Ret posts);
             do categoryDistribution <-
               get_prop d (lit "categoryDistribution");
             if truthy categoryDistribution then
               do g0 <- ranked_entry d (lit "categoryDistribution") 0
                          (lit "category");
               do g1 <- ranked_entry d (lit "categoryDistribution") 1
                          (lit "category");
               Ret (posts ++ [lit "DeFi category breakdown:" ++ nl
                              ++ lit "1. " ++ g0 ++ nl ++ lit "2. " ++ g1])
             else Ret posts
           else Ret posts);
      do formatted <- formatTwitterTags tag_list;
      let posts := posts ++ [twitter_call_to_action ++ formatted] in
      Ret {| message := nth 0 posts []; tags := tag_list;
             thread := Some posts |}
  end.
End Twitter.

(** ** Loading and cleaning up artifacts (file-distributor.ts:286, 298) and
    the capability built on saving (distribution/capabilities.ts:41) *)

Section Artifacts.
Context {lib : EcmaLib} {H : Type} {host_ops : Host H}.

Definition loadVisualization (path : jsstring) : io H (list N) :=
  try_catch
    (host_op (fun h => fs_readFileSync h path))
    (fun error =>
       io_throw (JsError (lit "Failed to load visualization: "
                          ++ error_text error))).

(** The exception of an iteration is logged and the loop goes on. *)
Fixpoint cleanupFiles (paths : list jsstring) : io H unit :=
  match paths with
  | [] => io_ret tt
  | path :: rest =>
      run _ <-
        try_catch
          (run file_exists <- host_read (fun h => fs_existsSync h path);
           if file_exists then host_op (fun h => fs_unlinkSync h path)
           else io_ret tt)
          (fun _ => io_ret tt);
      cleanupFiles rest
  end.

(** The [distributeToSocial] capability. [tag_list] is [None] when the
    argument is omitted ([tags || []]); the schema admits the formats
    [png] and [svg]. *)
Definition distributeToSocial_capability (html_text : jsstring)
    (platforms : list Platform) (msg : jsstring)
    (tag_list : option (list (list N))) (fmt : format)
    (action : option Action) : io H (gmap (list N) PublishResult) :=
  try_catch
    (run imageResult <-
       saveVisualization html_text (lit "temp-visualization") fmt action;
     distributeToSocial (filePath imageResult) platforms msg
       (default [] tag_list) action)
    (fun error =>
       io_throw (JsError (lit "Failed to distribute visualization: "
                          ++ error_text error))).
End Artifacts.

(** [path.resolve(process.cwd(), 'output')] and the path an artifact is
    saved under. *)
Definition output_dir {lib : EcmaLib} {H : Type} {host_ops : Host H}
    (w : world H) : jsstring :=
  path_resolve (process_cwd (host w)) (lit "output").

Definition output_path {lib : EcmaLib} {H : Type} {host_ops : Host H}
    (w : world H) (filename : jsstring) (fmt : format) : jsstring :=
  path_resolve (output_dir w) (filename ++ lit "." ++ format_id fmt).

(** A computation that neither launches nor closes a browser. *)
Definition keeps_browsers {H A : Type} (m : io H A) : Prop :=
  forall w,
    launched (fst (m w)) = launched w /\
    open_browsers (fst (m w)) = open_browsers w.

(** A file system on which a file that was written reads back as
    written. *)
Definition reads_back_writes (H : Type) {host_ops : Host H} : Prop :=
  forall (h h' : H) (path content : list N),
    fs_writeFileSync h path content = (h', Ret tt) ->
    fs_readFileSync h' path = (h', Ret content).

(** An [action] without a workspace: nothing is uploaded. *)
Definition no_workspace (action : option Action) : Prop :=
  match action with
  | Some a => workspace a = None
  | None => True
  end.

(** The conversions [convertVisualization] implements. *)
Definition supported_conversion (inputExt : jsstring) (fmt : format) : bool :=
  (bool_decide (inputExt = lit "html")
   && match fmt with svg | png => true | html => false end)
  || (bool_decide (inputExt = lit "svg")
      && match fmt with png => true | _ => false end).

(** A host with the output directory in place. *)
Definition with_output_dir : scripted := {|
  files := {[ lit "/app/output" := [] ]};
  page_error := None;
  requests := [];
  replies := [];
  clock := 0;
  halves := [];
|}.

(** ** Chart data of the market overview (templates/market-overview.ts:337) *)

Module MarketOverview.

(** The data of one chart. *)
Record ChartSeries := {
  labels : list value;
  values : list value;
  colors : list (list N);
  borderColors : list (list N);
}.

Record Charts := {
  topTokens : ChartSeries;
  topProtocols : ChartSeries;
  chainsTvl : ChartSeries;
  categoryDistribution : ChartSeries;
}.

(** The colours of [generateChartColors]. *)
Definition palette : list (list N) :=
  [lit "rgba(75, 192, 192, 0.7)";
   lit "rgba(54, 162, 235, 0.7)";
   lit "rgba(153, 102, 255, 0.7)";
   lit "rgba(255, 159, 64, 0.7)";
   lit "rgba(255, 99, 132, 0.7)";
   lit "rgba(255, 206, 86, 0.7)";
   lit "rgba(231, 233, 237, 0.7)";
   lit "rgba(75, 192, 150, 0.7)";
   lit "rgba(54, 135, 235, 0.7)";
   lit "rgba(153, 155, 255, 0.7)";
   lit "rgba(255, 120, 64, 0.7)";
   lit "rgba(230, 99, 132, 0.7)";
   lit "rgba(255, 180, 86, 0.7)";
   lit "rgba(200, 233, 237, 0.7)";
   lit "rgba(120, 192, 192, 0.7)";
   lit "rgba(100, 162, 235, 0.7)"].

(** The loop of [generateChartColors], from index [i] for [n] more
    rounds. *)
Fixpoint colors_from (i n : nat) (result : list (list N)) : list (list N) :=
  match n with
  | O => result
  | S n' =>
      colors_from (S i) n'
        (result ++ [nth (i mod length palette) palette []])
  end.

(** [generateChartColors]. [count] is a number of array entries. *)
Definition generateChartColors (count : nat) : list (list N) :=
  colors_from 0 count [].

(** [s.replace(pattern, replacement)] for a string pattern and a
    replacement without [$]: the first occurrence is replaced. *)
Fixpoint replace_first (s pattern replacement : jsstring) : jsstring :=
  if is_prefix pattern s then replacement ++ drop (length pattern) s
  else
    match s with
    | [] => []
    | c :: s' => c :: replace_first s' pattern replacement
    end.

(** [arr?.map(f) || []]: no entries for [undefined] and [null], a
    TypeError for any other value that is not an array. *)
Definition map_or_empty (arr : value) (f : value -> outcome value)
    : outcome (list value) :=
  match arr with
  | VUndefined | VNull => Ret []
  | VArr xs => map_outcome f xs
  | _ => Throw type_error
  end.

(** [item => item.a?.b || fallback] *)
Definition nested_or (a b : jsstring) (fallback : value) (item : value)
    : outcome value :=
  do x <- get_prop item a; Ret (or_else (get_opt x b) fallback).

(** [item => item.a || fallback] *)
Definition field_or (a : jsstring) (fallback : value) (item : value)
    : outcome value :=
  do x <- get_prop item a; Ret (or_else x fallback).

Definition unknown : value := VStr (lit "Unknown").

(** The four assignments of [colors] and [borderColors]. *)
Definition with_colors (baseColors : list (list N))
    (series_labels series_values : list value) : ChartSeries :=
  let series_colors := take (length series_labels) baseColors in
  {| labels := series_labels;
     values := series_values;
     colors := series_colors;
     borderColors :=
       List.map (fun color => replace_first color (lit "0.7") (lit "1"))
         series_colors |}.

Definition formatDataForCharts (d : value) : outcome Charts :=
  do tokens <- get_prop d (lit "topTokens");
  do token_labels <-
    map_or_empty tokens (nested_or (lit "baseToken") (lit "symbol") unknown);
  do token_values <-
    map_or_empty tokens (nested_or (lit "volume") (lit "h24") zero);
  do protocols <- get_prop d (lit "topProtocols");
  do protocol_labels <- map_or_empty protocols (field_or (lit "name") unknown);
  do protocol_values <- map_or_empty protocols (field_or (lit "tvl") zero);
  do chains <- get_prop d (lit "chainsTvl");
  do chain_labels <- map_or_empty chains (field_or (lit "name") unknown);
  do chain_values <- map_or_empty chains (field_or (lit "tvl") zero);
  do categories <- get_prop d (lit "categoryDistribution");
  do category_labels <-
    map_or_empty categories (field_or (lit "category") unknown);
  do category_values <- map_or_empty categories (field_or (lit "tvl") zero);
  let baseColors :=
    generateChartColors
      (Nat.max (length token_labels)
         (Nat.max (length protocol_labels)
            (Nat.max (length chain_labels) (length category_labels)))) in
  Ret {| topTokens := with_colors baseColors token_labels token_values;
         topProtocols := with_colors baseColors protocol_labels protocol_values;
         chainsTvl := with_colors baseColors chain_labels chain_values;
         categoryDistribution :=
           with_colors baseColors category_labels category_values |}.

(** The charts of a result. *)
Definition all_series (c : Charts) : list ChartSeries :=
  [topTokens c; topProtocols c; chainsTvl c; categoryDistribution c].

(** The number of entries of the array a chart is drawn from. *)
Definition entries (d : value) (field : jsstring) : nat :=
  match get_opt d field with
  | VArr xs => length xs
  | _ => 0
  end.

End MarketOverview.

(** A chart whose values are as many as its labels, coloured from enough
    base colours. *)
Definition aligned (s : MarketOverview.ChartSeries) : Prop :=
  length (MarketOverview.values s) = length (MarketOverview.labels s) /\
  length (MarketOverview.colors s) = length (MarketOverview.labels s) /\
  length (MarketOverview.borderColors s) = length (MarketOverview.labels s) /\
  forall (i : nat) (color : list N),
    MarketOverview.colors s !! i = Some color ->
    color = nth (i mod 16) MarketOverview.palette [] /\
    MarketOverview.borderColors s !! i
      = Some (MarketOverview.replace_first color (lit "0.7") (lit "1")).

(** ** Token address resolution of the DexScreener client
    (api/dexscreener.ts:69) *)

Definition weth_address : jsstring :=
  lit "0xc02aaa39b223fe8d0a0e5c4f27ead9083c756cc2".

Definition wbtc_address : jsstring :=
  lit "0x2260fac5e5542a773aa44fbcfedf7c193bc2c599".

Section Dexscreener.
Context {lib : EcmaLib}.

(** [resolveTokenAddress]. [chain] is [None] when the argument is
    omitted; on strings [x || ''] is [x]. The result is the pair of
    [address] and [resolvedChain]. *)
Definition resolveTokenAddress (tokenAddress : jsstring)
    (chain : option (list N)) : list N * list N :=
  let normalizedToken := to_lower_case tokenAddress in
  let normalizedChain :=
    match chain with
    | Some c => to_lower_case c
    | None => []
    end in
  if (includes normalizedToken (lit "eth")
      && negb (is_prefix (lit "0x") normalizedToken))
     || includes normalizedToken (lit "ethereum")
     || includes normalizedToken (lit "ether")
  then (weth_address, lit "ethereum")
  else if (includes normalizedToken (lit "btc")
           || includes normalizedToken (lit "bitcoin"))
          && negb (is_prefix (lit "0x") normalizedToken)
          && (bool_decide (normalizedChain = lit "ethereum")
              || bool_decide (normalizedChain = []))
  then (wbtc_address, lit "ethereum")
  else if bool_decide (normalizedChain = lit "osmosis")
          && includes normalizedToken (lit "factory/")
  then (tokenAddress, normalizedChain)
  else (tokenAddress, default [] chain).
End Dexscreener.

(** ** Token data of the DexScreener client (api/dexscreener.ts:232) *)



Section TokenData.
Context {lib : EcmaLib}.

(** [parseFloat] on a string, and the text of
    [new Date().toISOString()] at the time of the call. *)
Variable parse_float : list N -> spec_float.
Variable timestamp : list N.





End TokenData.



(** ** Number formatting of the visualization utilities
    (api/capabilities.ts:287) *)

Module Utils.

(** The engine's message text of a RangeError is not modelled. *)
Definition range_error : exn := JsError (lit "RangeError").

(** [isNaN] on a number. *)
Definition isNaN (x : number) : bool :=
  match x with
  | S754_nan => true
  | _ => false
  end.

Section Formatting.
Context {lib : EcmaLib}.

(** [x.toFixed(decimals)] for an integer [decimals]: more than 100
    digits are a RangeError. *)
Definition call_toFixed (x : number) (decimals : nat) : outcome jsstring :=
  if (100 <? decimals)%nat then Throw range_error
  else Ret (toFixed x decimals).

(** [formatNumber]; [decimals] is 2 when the argument is omitted. *)
Definition formatNumber (num : number) (decimals : nat) : outcome jsstring :=
  if isNaN num then Ret (lit "N/A")
  else if num_ge (SFabs num) num_1e9 then
    do s <- call_toFixed (num_div num num_1e9) decimals; Ret (s ++ lit "B")
  else if num_ge (SFabs num) num_1e6 then
    do s <- call_toFixed (num_div num num_1e6) decimals; Ret (s ++ lit "M")
  else if num_ge (SFabs num) num_1e3 then
    do s <- call_toFixed (num_div num num_1e3) decimals; Ret (s ++ lit "K")
  else call_toFixed num decimals.
End Formatting.

End Utils.
(** * Properties *)

(** ** Equality of values *)

Lemma value_eqb_eq : forall a b, value_eqb a b = true <-> a = b.
Proof.
  fix IH 1. intros a b; destruct a, b; simpl;
    try (split; [discriminate | discriminate]);
    try (split; [reflexivity | reflexivity]).
  - rewrite bool_decide_eq_true. split; congruence.
  - rewrite bool_decide_eq_true. split; congruence.
  - rewrite bool_decide_eq_true. split; congruence.
  - revert xs0. induction xs as [|x xs IHxs]; intros [|y ys];
      try (split; [discriminate | discriminate]);
      try (split; [reflexivity | reflexivity]).
    rewrite andb_true_iff, IH, IHxs. split.
    + intros [-> E]. congruence.
    + intros E. injection E as -> ->. split; reflexivity.
  - revert fields0. induction fields as [|[k x] fs IHfs]; intros [|[k' y] gs];
      try (split; [discriminate | discriminate]);
      try (split; [reflexivity | reflexivity]).
    rewrite !andb_true_iff, bool_decide_eq_true, IH, IHfs. split.
    + intros [[-> ->] E]. congruence.
    + intros E. injection E as -> -> ->. repeat split; reflexivity.
Qed.

(** ** Strings *)

Lemma is_prefix_spec (p s : list N) :
  is_prefix p s = true <-> exists b, s = p ++ b.
Proof.
  revert s. induction p as [|a p IH]; intros s; simpl.
  - split; [intros _; exists s; reflexivity | reflexivity].
  - destruct s as [|c s]; simpl.
    + split; [discriminate | intros [b Hb]; discriminate].
    + rewrite andb_true_iff, N.eqb_eq, IH. split.
      * intros [-> [b ->]]. exists b. reflexivity.
      * intros [b Hb]. injection Hb as -> ->. split; [reflexivity | eauto].
Qed.

Lemma includes_spec (s sub : list N) :
  includes s sub = true <-> substring_of sub s.
Proof.
  unfold substring_of. induction s as [|c s IH].
  - simpl. rewrite orb_false_r, is_prefix_spec. split.
    + intros [b Hb]. exists [], b. exact Hb.
    + intros [a [b Hab]]. destruct a; [eauto | discriminate].
  - cbn [includes]. rewrite orb_true_iff, is_prefix_spec, IH. split.
    + intros [[b Hb] | [a [b Hab]]].
      * exists [], b. exact Hb.
      * exists (c :: a), b. simpl. congruence.
    + intros [[|x a] [b Hab]].
      * left. exists b. exact Hab.
      * right. injection Hab as -> ->. eauto.
Qed.

(** ** Message formatting *)

(** C10. [formatMessageForPlatform] truncates for twitter only: it is the
    identity for linkedin and telegram whatever the length; for twitter it
    returns a message of at most 250 code units unchanged and otherwise its
    first 247 code units followed by three dots, so that its twitter output
    never exceeds 250 code units. *)
Theorem formatMessageForPlatform_truncates_twitter_only (msg : list N) :
  formatMessageForPlatform msg linkedin = msg /\
  formatMessageForPlatform msg telegram = msg /\
  ((length msg <= 250)%nat -> formatMessageForPlatform msg twitter = msg) /\
  ((250 < length msg)%nat ->
     formatMessageForPlatform msg twitter = take 247 msg ++ lit "...") /\
  (length (formatMessageForPlatform msg twitter) <= 250)%nat.
Proof.
  unfold formatMessageForPlatform.
  repeat split; try reflexivity.
  - intros Hle. destruct (Nat.ltb_spec 250 (length msg)); [lia | reflexivity].
  - intros Hlt. destruct (Nat.ltb_spec 250 (length msg)); [reflexivity | lia].
  - destruct (Nat.ltb_spec 250 (length msg)); [| lia].
    rewrite length_app, length_take.
    change (length (lit "...")) with 3%nat. lia.
Qed.

(** A message of 300 code units is cut to 247 and marked; one of 250 is
    kept. *)
Lemma formatMessageForPlatform_truncates_witness :
  formatMessageForPlatform (replicate 300 97%N) twitter
    = replicate 247 97%N ++ lit "..." /\
  formatMessageForPlatform (replicate 250 97%N) twitter = replicate 250 97%N.
Proof.
  split.
  - rewrite (proj1 (proj2 (proj2 (proj2
      (formatMessageForPlatform_truncates_twitter_only (replicate 300 97%N)))))).
    + reflexivity.
    + rewrite length_replicate. lia.
  - apply (proj1 (proj2 (proj2
      (formatMessageForPlatform_truncates_twitter_only (replicate 250 97%N))))).
    rewrite length_replicate. lia.
Defined.

(** ** Template registry *)

Section FirstMatch.
Context {A : Type}.

Lemma find_is_first (f : A -> bool) (l : list A) (x : A) :
  is_first (fun y => f y = true) l x -> List.find f l = Some x.
Proof.
  intros (l1 & l2 & -> & Hx & Hl1).
  induction l1 as [|y l1 IH]; simpl.
  - rewrite Hx. reflexivity.
  - destruct (f y) eqn:Hy.
    + exfalso. apply (Hl1 y); [left | exact Hy].
    + apply IH. intros z Hz. apply Hl1. right. exact Hz.
Qed.

Lemma find_none_iff (f : A -> bool) (l : list A) :
  List.find f l = None <-> forall y, y ∈ l -> f y = false.
Proof.
  induction l as [|y l IH]; simpl.
  - split; [intros _ z Hz; inversion Hz | reflexivity].
  - destruct (f y) eqn:Hy.
    + split; [discriminate |].
      intros Hall. rewrite (Hall y) in Hy; [discriminate | left].
    + rewrite IH. split.
      * intros Hall z Hz. inversion Hz; subst; auto.
      * intros Hall z Hz. apply Hall. right. exact Hz.
Qed.

Lemma find_filter (f g : A -> bool) (l : list A) :
  List.find g (List.filter f l) = List.find (fun y => f y && g y) l.
Proof.
  induction l as [|y l IH]; simpl; [reflexivity |].
  destruct (f y); simpl; [rewrite IH; reflexivity | exact IH].
Qed.

Lemma head_filter (f : A -> bool) (l : list A) :
  head (List.filter f l) = List.find f l.
Proof.
  induction l as [|y l IH]; simpl; [reflexivity |].
  destruct (f y); [reflexivity | exact IH].
Qed.

Lemma is_first_ext (P Q : A -> Prop) (l : list A) (x : A) :
  (forall y, P y <-> Q y) -> is_first P l x -> is_first Q l x.
Proof.
  intros HPQ (l1 & l2 & -> & Hx & Hl1).
  exists l1, l2. split; [reflexivity |]. split; [apply HPQ, Hx |].
  intros y Hy HQ. apply (Hl1 y Hy), HPQ, HQ.
Qed.

End FirstMatch.

(** A new id is registered last; registering an id again replaces its
    template where it stands. *)
Lemma getAll_register_new (t : VisualizationTemplate) (r : TemplateRegistry) :
  get (id t) r = None -> getAll (register t r) = getAll r ++ [t].
Proof.
  unfold register, getAll. induction r as [|[k t'] r IH]; simpl; [reflexivity |].
  destruct (bool_decide (id t = k)); [discriminate |].
  intros Hnone. simpl. rewrite IH by exact Hnone. reflexivity.
Qed.

Lemma get_register (t : VisualizationTemplate) (r : TemplateRegistry) :
  get (id t) (register t r) = Some t.
Proof.
  unfold register. induction r as [|[k t'] r IH]; simpl.
  - rewrite bool_decide_eq_true_2 by reflexivity. reflexivity.
  - destruct (bool_decide (id t = k)) eqn:E; simpl.
    + rewrite bool_decide_eq_true_2 by reflexivity. reflexivity.
    + rewrite E. exact IH.
Qed.

Lemma templateRegistry_order :
  getAll templateRegistry
    = [PriceChartTemplate; MarketOverviewTemplate; TvlChartTemplate].
Proof. reflexivity. Qed.

Lemma findBestTemplate_unfold (r : TemplateRegistry) (data : value)
    (hint : option (list N)) :
  findBestTemplate r data hint =
    match
      match hint with
      | Some (c :: h) =>
          List.find (fun t => isSuitableFor t data && includes (id t) (c :: h))
            (getAll r)
      | _ => None
      end
    with
    | Some t => Some t
    | None => List.find (fun t => isSuitableFor t data) (getAll r)
    end.
Proof.
  unfold findBestTemplate, findSuitableTemplates.
  pose proof (head_filter (fun t => isSuitableFor t data) (getAll r)) as Hh.
  destruct hint as [[|c h]|]; rewrite <- Hh.
  - destruct (List.filter _ (getAll r)); reflexivity.
  - rewrite <- (find_filter (fun t => isSuitableFor t data)
                  (fun t => includes (id t) (c :: h))).
    destruct (List.filter _ (getAll r)); reflexivity.
  - destruct (List.filter _ (getAll r)); reflexivity.
Qed.

(** C2. On the empty registry [findSuitableTemplates] returns the empty
    sequence and [findBestTemplate] returns absent; [findBestTemplate]
    returns absent whenever no registered template is suitable for the
    data; with a hint it returns the first suitable template, in the order
    of the registry, whose id contains the hint, and when no suitable id
    contains the hint it returns the first suitable template. *)
Theorem findBestTemplate_first_match (r : TemplateRegistry) (data : value) :
  findSuitableTemplates empty_registry data = [] /\
  (forall hint, findBestTemplate empty_registry data hint = None) /\
  (forall hint,
     (forall t, t ∈ getAll r -> isSuitableFor t data = false) ->
     findBestTemplate r data hint = None) /\
  (forall hint t,
     is_first (fun t' => isSuitableFor t' data = true /\ substring_of hint (id t'))
       (getAll r) t ->
     findBestTemplate r data (Some hint) = Some t) /\
  (forall hint t,
     (forall t', t' ∈ getAll r -> isSuitableFor t' data = true ->
                 ~ substring_of hint (id t')) ->
     is_first (fun t' => isSuitableFor t' data = true) (getAll r) t ->
     findBestTemplate r data (Some hint) = Some t).
Proof.
  split; [reflexivity |]. split; [intros [[|c h]|]; reflexivity |].
  split; [| split].
  - intros hint Hnone. rewrite findBestTemplate_unfold.
    assert (Hs : List.find (fun t => isSuitableFor t data) (getAll r) = None)
      by (apply find_none_iff; exact Hnone).
    rewrite Hs.
    destruct hint as [[|c h]|]; try reflexivity.
    assert (Hp : List.find
                   (fun t => isSuitableFor t data && includes (id t) (c :: h))
                   (getAll r) = None).
    { apply find_none_iff. intros y Hy. rewrite (Hnone y Hy). reflexivity. }
    rewrite Hp. reflexivity.
  - intros hint t Hfirst. rewrite findBestTemplate_unfold.
    destruct hint as [|c h].
    + apply find_is_first. revert Hfirst. apply is_first_ext.
      intros y. split; [tauto |]. intros Hy. split; [exact Hy |].
      exists [], (id y). reflexivity.
    + erewrite find_is_first; [reflexivity |].
      revert Hfirst. apply is_first_ext. intros y.
      rewrite andb_true_iff, includes_spec. tauto.
  - intros hint t Hno Hfirst. rewrite findBestTemplate_unfold.
    rewrite (find_is_first _ _ _ Hfirst).
    destruct hint as [|c h]; [reflexivity |].
    assert (Hp : List.find
                   (fun t => isSuitableFor t data && includes (id t) (c :: h))
                   (getAll r) = None).
    { apply find_none_iff. intros y Hy.
      destruct (isSuitableFor y data) eqn:Hs; [| reflexivity].
      destruct (includes (id y) (c :: h)) eqn:Hi; [| reflexivity].
      exfalso. apply (Hno y Hy Hs). apply includes_spec, Hi. }
    rewrite Hp. reflexivity.
Qed.

(** A payload with a numeric price and a TVL series suits the price chart
    and the TVL chart. With the hint [tvl] the built-in registry returns
    the TVL chart; with the hint [pie], which no id contains, it returns
    the first suitable template, the price chart. *)
Lemma findBestTemplate_first_match_witness :
  let d := VObj [(lit "price", VObj [(lit "usd", VNum (num_of_Z 1))]);
                 (lit "historicalTvl", VArr [])] in
  findBestTemplate templateRegistry d (Some (lit "tvl")) = Some TvlChartTemplate /\
  findBestTemplate templateRegistry d (Some (lit "pie")) = Some PriceChartTemplate /\
  findBestTemplate templateRegistry VNull None = None.
Proof.
  intros d.
  destruct (findBestTemplate_first_match templateRegistry d)
    as (_ & _ & _ & Hhint & Hfallback).
  destruct (findBestTemplate_first_match templateRegistry VNull)
    as (_ & _ & Hnone & _).
  split; [| split].
  - apply Hhint.
    exists [PriceChartTemplate; MarketOverviewTemplate], [].
    split; [reflexivity |]. split.
    + split; [reflexivity |]. exists [], (lit "-chart"). reflexivity.
    + intros y Hy [Hs Hsub]. apply includes_spec in Hsub.
      apply list_elem_of_In in Hy.
      destruct Hy as [<- | [<- | []]]; vm_compute in Hsub; discriminate.
  - apply Hfallback.
    + intros t' Ht' _ Hsub. apply includes_spec in Hsub.
      apply list_elem_of_In in Ht'.
      destruct Ht' as [<- | [<- | [<- | []]]]; vm_compute in Hsub; discriminate.
    + exists [], [MarketOverviewTemplate; TvlChartTemplate].
      split; [reflexivity |]. split; [reflexivity |].
      intros y Hy. inversion Hy.
  - apply Hnone. intros t Ht. apply list_elem_of_In in Ht.
    destruct Ht as [<- | [<- | [<- | []]]]; reflexivity.
Defined.

(** ** Tags *)

Lemma value_eqb_refl (v : value) : value_eqb v v = true.
Proof. apply value_eqb_eq. reflexivity. Qed.

Section Tags.
Context {lib : EcmaLib}.

Lemma truthy_not_zero (v : value) : truthy v = true -> not_zero v.
Proof. destruct v as [| | |[]| | |]; simpl; intros; try exact I; discriminate. Qed.

Lemma same_value_zero_refl (v : value) : same_value_zero v v = true.
Proof.
  destruct v as [| | |x| | |]; try apply value_eqb_refl.
  destruct x as [s|s| |s m e]; try reflexivity.
  - destruct s; reflexivity.
  - unfold same_value_zero, SFeqb, SFcompare.
    rewrite Z.compare_refl, Pos.compare_cont_refl.
    destruct s; reflexivity.
Qed.

Lemma same_value_zero_eq (x y : value) :
  not_zero x -> same_value_zero x y = true -> x = y.
Proof.
  intros Hx Hxy.
  destruct x as [| | |a| | |];
    try (apply value_eqb_eq; destruct y; exact Hxy).
  destruct y as [| | |b| | |]; try (destruct a; discriminate Hxy).
  f_equal.
  destruct a as [s|s| |s m e]; [destruct Hx | | |].
  - destruct b as [t|t| |t n f]; cbn in Hxy; try discriminate Hxy;
      destruct s; try destruct t; try reflexivity; discriminate Hxy.
  - destruct b; cbn in Hxy; try discriminate Hxy. reflexivity.
  - destruct b as [t|t| |t n f]; cbn in Hxy; try discriminate Hxy;
      try (destruct s; discriminate Hxy); try (destruct t; discriminate Hxy).
    unfold SFeqb, SFcompare in Hxy.
    assert (He : e = f /\ Pos.compare_cont Eq m n = Eq /\ s = t).
    { destruct s, t; try discriminate Hxy;
        destruct (Z.compare_spec e f); try discriminate Hxy;
        destruct (Pos.compare_cont Eq m n); try discriminate Hxy;
        auto. }
    destruct He as (-> & Hm & ->).
    apply Pos.compare_eq in Hm. subst n. reflexivity.
Qed.

Lemma set_has_elem (s : list value) (x : value) :
  x ∈ s -> set_has s x = true.
Proof.
  intros Hx. apply existsb_exists. exists x.
  split; [apply list_elem_of_In, Hx | apply same_value_zero_refl].
Qed.

Lemma set_has_inv (s : list value) (x : value) :
  not_zero x -> set_has s x = true -> x ∈ s.
Proof.
  intros Hnz Hs. apply existsb_exists in Hs as (y & Hy & Hxy).
  apply same_value_zero_eq in Hxy; [| exact Hnz]. subst y.
  apply list_elem_of_In, Hy.
Qed.

Lemma set_add_NoDup (s : list value) (x : value) :
  NoDup s -> NoDup (set_add s x).
Proof.
  intros Hs. unfold set_add. destruct (set_has s x) eqn:E; [exact Hs |].
  apply NoDup_app. split; [exact Hs |]. split.
  - intros y Hy Hyx. apply list_elem_of_singleton in Hyx. subst y.
    apply set_has_elem in Hy. congruence.
  - apply NoDup_singleton.
Qed.

Lemma foldl_set_add_NoDup (l s : list value) :
  NoDup s -> NoDup (foldl set_add s l).
Proof.
  revert s. induction l as [|x l IH]; intros s Hs; simpl; [exact Hs |].
  apply IH, set_add_NoDup, Hs.
Qed.

Lemma new_Set_NoDup (l : list value) : NoDup (new_Set l).
Proof. apply foldl_set_add_NoDup, NoDup_nil_2. Qed.

Lemma foldl_set_add_keeps_first (l s : list value) :
  Forall not_zero l ->
  exists out, foldl set_add s l = s ++ out /\ keeps_first s l out.
Proof.
  revert s. induction l as [|x l IH]; intros s Hl; simpl.
  - exists []. split; [rewrite app_nil_r; reflexivity | constructor].
  - inversion Hl as [|? ? Hx Hl']; subst.
    unfold set_add at 2. destruct (set_has s x) eqn:E.
    + destruct (IH s Hl') as (out & Hout & Hk).
      exists out. split; [exact Hout |].
      apply keeps_first_dup; [apply set_has_inv; assumption | exact Hk].
    + destruct (IH (s ++ [x]) Hl') as (out & Hout & Hk).
      exists (x :: out). split; [rewrite Hout, <- app_assoc; reflexivity |].
      apply keeps_first_new; [| exact Hk].
      intros Hin. apply set_has_elem in Hin. congruence.
Qed.

Lemma new_Set_keeps_first (l : list value) :
  Forall not_zero l -> keeps_first [] l (new_Set l).
Proof.
  intros Hl. destruct (foldl_set_add_keeps_first l [] Hl) as (out & Hout & Hk).
  unfold new_Set. rewrite Hout. exact Hk.
Qed.
End Tags.

Lemma bind_Ret_inv {A B} (m : outcome A) (k : A -> outcome B) (b : B) :
  bind m k = Ret b -> exists a, m = Ret a /\ k a = Ret b.
Proof. destruct m as [a|e]; simpl; [eauto | discriminate]. Qed.

Lemma Ret_inj {A} (a b : A) : Ret a = Ret b -> a = b.
Proof. intros E. injection E as ->. reflexivity. Qed.

(** Walks down a chain of [bind]s that returned: every step returned. *)
Ltac bind_inv Hret :=
  repeat (let E := fresh "E" in
          let x := fresh "x" in
          apply bind_Ret_inv in Hret as (x & E & Hret);
          cbv beta zeta in Hret).

Section TagsOfPayload.
Context {lib : EcmaLib}.

Lemma chain_aliases_not_zero (s : list N) :
  Forall not_zero (chain_aliases s).
Proof.
  unfold chain_aliases.
  repeat match goal with
    | |- context [if ?c then _ else _] => destruct c
    end; repeat constructor.
Qed.

(** Every pushed tag is a string or a truthy value. *)
Lemma collectTags_not_zero (data : value) (pushed : list value) :
  collectTags data = Ret pushed -> Forall not_zero pushed.
Proof.
  unfold collectTags. intros Hret. bind_inv Hret.
  inversion Hret; subst; clear Hret.
  assert (Hbase : Forall not_zero base_tags) by (repeat constructor).
  assert (H1 : Forall not_zero
                 (if truthy (get_opt x (lit "symbol"))
                  then base_tags ++ [get_opt x (lit "symbol")] else base_tags)).
  { destruct (truthy (get_opt x (lit "symbol"))) eqn:Hs; [| exact Hbase].
    apply Forall_app. split; [exact Hbase |].
    constructor; [apply truthy_not_zero, Hs | constructor]. }
  assert (H2 : Forall not_zero x0).
  { destruct (truthy (get_opt x (lit "name"))).
    - bind_inv E0. inversion E0; subst.
      apply Forall_app. split; [exact H1 | repeat constructor].
    - inversion E0; subst. exact H1. }
  assert (H3 : Forall not_zero x3).
  { destruct (truthy x2) eqn:Ht.
    - bind_inv E3. inversion E3; subst.
      repeat (apply Forall_app; split); try exact H2.
      + constructor; [apply truthy_not_zero, Ht | constructor].
      + apply chain_aliases_not_zero.
    - inversion E3; subst. exact H2. }
  assert (H4 : Forall not_zero x5).
  { destruct (truthy x4).
    - bind_inv E5. inversion E5; subst.
      apply Forall_app. split; [exact H3 | repeat constructor].
    - inversion E5; subst. exact H3. }
  repeat match goal with
    | |- context [if ?c then _ else _] => destruct c
    end;
    repeat (apply Forall_app; split); try assumption; repeat constructor.
Qed.

Lemma get_prop_defined (v : value) (k : list N) :
  is_nullish v = false -> get_prop v k = Ret (get_opt v k).
Proof. unfold get_opt. destruct v; simpl; intros E; try reflexivity; discriminate E. Qed.

Lemma truthy_defined (v : value) : truthy v = true -> is_nullish v = false.
Proof. destruct v; simpl; intros E; try reflexivity; discriminate E. Qed.

Lemma push_stripped_returns (v : value) (tgs : list value) :
  string_or_falsy v ->
  exists tgs',
    (if truthy v
     then do stripped <- call_strip v; Ret (tgs ++ [VStr stripped])
     else Ret tgs) = Ret tgs'.
Proof.
  intros [-> | [s ->]]; [eauto |].
  destruct (truthy (VStr s)); simpl; eauto.
Qed.

Lemma push_chain_returns (v : value) (tgs : list value) :
  string_or_falsy v ->
  exists tgs',
    (if truthy v
     then do lower <- call_toLowerCase v;
          Ret ((tgs ++ [v]) ++ chain_aliases lower)
     else Ret tgs) = Ret tgs'.
Proof.
  intros [-> | [s ->]]; [eauto |].
  destruct (truthy (VStr s)); simpl; eauto.
Qed.

Lemma chain_read_returns (d : value) :
  (if truthy (get_opt d (lit "chain")) then Ret (get_opt d (lit "chain"))
   else if truthy (get_opt d (lit "token"))
        then get_prop (get_opt d (lit "token")) (lit "chain")
        else Ret (get_opt d (lit "token")))
  = Ret (payload_chain d).
Proof.
  unfold payload_chain, or_else.
  destruct (truthy (get_opt d (lit "chain"))); [reflexivity |].
  destruct (truthy (get_opt d (lit "token"))) eqn:Ht; [| reflexivity].
  apply get_prop_defined, truthy_defined, Ht.
Qed.

(** [extractDefaultTags] returns on every payload whose name, chain and
    category are strings or falsy. *)
Lemma collectTags_returns (d : value) :
  tags_typed d -> exists pushed, collectTags d = Ret pushed.
Proof.
  intros (Hd & Hname & Hchain & Hcat). unfold collectTags.
  rewrite !(get_prop_defined d) by exact Hd. cbn [bind].
  match goal with
  | |- context [bind (if truthy ?v then _ else Ret ?tgs) _] =>
      destruct (push_stripped_returns v tgs Hname) as [tgs1 ->]
  end.
  cbn [bind]. rewrite chain_read_returns. cbn [bind].
  destruct (push_chain_returns (payload_chain d) tgs1 Hchain) as [tgs2 ->].
  cbn [bind].
  destruct (push_stripped_returns (get_opt d (lit "category")) tgs2 Hcat)
    as [tgs3 ->].
  cbn [bind]. eauto.
Qed.

Lemma extractDefaultTags_returns (d : value) :
  tags_typed d -> exists out, extractDefaultTags d = Ret out.
Proof.
  intros Hd. destruct (collectTags_returns d Hd) as [pushed Hp].
  unfold extractDefaultTags. rewrite Hp. cbn [bind]. eauto.
Qed.

(** C7. The list [extractDefaultTags] returns has at most ten entries and
    no two equal entries, and it is the first ten entries of the pushed
    tags deduplicated with first occurrences kept. *)
Theorem extractDefaultTags_bounded_distinct (data : value)
    (out : list value) :
  extractDefaultTags data = Ret out ->
  (length out <= max_tags)%nat /\
  NoDup out /\
  exists pushed kept,
    collectTags data = Ret pushed /\
    keeps_first [] pushed kept /\
    out = take max_tags kept.
Proof.
  unfold extractDefaultTags. intros Hret. bind_inv Hret.
  inversion Hret; subst; clear Hret.
  split; [rewrite length_take; unfold max_tags; lia |].
  split.
  - apply (sublist_NoDup _ (new_Set x));
      [apply new_Set_NoDup | apply sublist_take].
  - exists x, (new_Set x). split; [exact E |].
    split; [| reflexivity].
    apply new_Set_keeps_first, (collectTags_not_zero data), E.
Qed.
End TagsOfPayload.

(** Thirteen tags are pushed for [tagged_payload]; [ETH] and [DeFi] occur
    twice, eleven are distinct, and the first ten are returned. *)
Lemma extractDefaultTags_bounded_distinct_witness :
  let out :=
    List.map (fun s => VStr (lit s))
      ["DeFi"; "crypto"; "blockchain"; "visualization"; "data"; "ETH";
       "EthereumToken"; "ethereum"; "TokenAnalysis"; "TVL"]%string in
  extractDefaultTags (lib := ascii_lib) tagged_payload = Ret out /\
  (length out <= max_tags)%nat /\ NoDup out.
Proof.
  intros out.
  assert (Hrun : extractDefaultTags (lib := ascii_lib) tagged_payload = Ret out)
    by reflexivity.
  split; [exact Hrun |].
  destruct (extractDefaultTags_bounded_distinct tagged_payload out Hrun)
    as (Hlen & Hnodup & _).
  split; [exact Hlen | exact Hnodup].
Defined.

(** ** Social content *)

(** C6, as stated, fails: for the ETH snapshot with content type [short]
    on twitter the returned tag list has six entries, not at most three. *)
Lemma eth_short_tags_exceed_three :
  ~ exists c,
      generateSocialContent (lib := ascii_lib) eth_snapshot twitter Short = Ret c /\
      substring_of (lit "ETH") (message c) /\
      substring_of (lit "2500.123456") (message c) /\
      substring_of (lit "%") (message c) /\
      (length (tags c) <= 3)%nat.
Proof.
  intros (c & Hc & _ & _ & _ & Hlen).
  vm_compute in Hc. inversion Hc; subst c. simpl in Hlen. lia.
Qed.

(** C6, amended. For the ETH snapshot with content type [short] on twitter
    the message is [ETH is trading at $2500.123456 (-1.50% 24h) with $1.20B
    24h volume.], which contains the symbol, the price text and the percent
    sign; the tags are the five base tags followed by [ETH], six entries,
    within the cap of ten that [extractDefaultTags] applies. *)
Theorem generateSocialContent_eth_short {lib : EcmaLib} :
  exists c,
    generateSocialContent eth_snapshot twitter Short = Ret c /\
    message c =
      lit "ETH is trading at $2500.123456 (-1.50% 24h) with $1.20B 24h volume." /\
    substring_of (lit "ETH") (message c) /\
    substring_of (lit "2500.123456") (message c) /\
    substring_of (lit "%") (message c) /\
    tags c = base_tags ++ [VStr (lit "ETH")] /\
    thread c = None /\
    (length (tags c) <= max_tags)%nat.
Proof.
  eexists. split; [vm_compute; reflexivity |].
  split; [reflexivity |].
  split; [apply includes_spec; reflexivity |].
  split; [apply includes_spec; reflexivity |].
  split; [apply includes_spec; reflexivity |].
  split; [reflexivity |]. split; [reflexivity |].
  simpl. unfold max_tags. lia.
Qed.

(** C3, as stated, fails: for the ETH snapshot with content type [thread]
    the message is the hook [ETH is currently trading at ...], while the
    first thread entry is [ETH is trading at $2500.123456 (-1.50% 24h)]. *)
Lemma thread_hook_is_not_first_post :
  ~ exists c posts,
      generateSocialContent (lib := ascii_lib) eth_snapshot twitter Thread = Ret c /\
      thread c = Some posts /\
      head posts = Some (message c).
Proof.
  intros (c & posts & Hc & Hposts & Hhead).
  vm_compute in Hc. inversion Hc; subst c; clear Hc.
  simpl in Hposts. inversion Hposts; subst posts; clear Hposts.
  simpl in Hhead. inversion Hhead.
Qed.

Section ThreadContent.
Context {lib : EcmaLib}.

Lemma suffix_of_eighth (a b c d e f g h : list N) :
  h `suffix_of` a ++ b ++ c ++ d ++ e ++ f ++ g ++ h.
Proof. do 7 apply suffix_app_r. reflexivity. Qed.

Lemma token_content_thread (d token : value) (tgs : list value)
    (r : list N + SocialContent) :
  token_content d token Thread tgs = Ret r ->
  exists c first rest,
    r = inr c /\ thread c = Some (first :: rest) /\
    length rest = 4%nat /\ emoji_thread `suffix_of` message c /\
    message c <> first.
Proof.
  unfold token_content, opt_field. intros Hret.
  bind_inv Hret. apply Ret_inj in Hret. subst r.
  eexists _, _, _. split; [reflexivity |]. split; [reflexivity |].
  split; [reflexivity |]. lazy beta iota delta [message].
  split; [apply suffix_of_eighth |].
  intros Heq. apply app_inv_head in Heq.
  cbn in Heq. discriminate Heq.
Qed.

Lemma market_content_thread (tgs : list value) :
  exists c first rest,
    market_content Thread tgs = inr c /\ thread c = Some (first :: rest) /\
    length rest = 4%nat /\ emoji_thread `suffix_of` message c /\
    message c <> first.
Proof.
  eexists _, _, _. split; [reflexivity |]. split; [reflexivity |].
  split; [reflexivity |]. split; [apply suffix_app_r; reflexivity |].
  cbn. discriminate.
Qed.

Lemma default_content_thread (tgs : list value) :
  exists c first rest,
    default_content Thread tgs = inr c /\ thread c = Some (first :: rest) /\
    length rest = 3%nat /\ emoji_thread `suffix_of` message c /\
    message c <> first.
Proof.
  eexists _, _, _. split; [reflexivity |]. split; [reflexivity |].
  split; [reflexivity |]. split; [apply suffix_app_r; reflexivity |].
  cbn. discriminate.
Qed.

Lemma or_zero_number (v : value) :
  number_or_falsy v -> exists x, or_else v zero = VNum x.
Proof.
  unfold or_else. intros [-> | [x ->]]; [unfold zero; eauto |].
  destruct (truthy (VNum x)); unfold zero; eauto.
Qed.

Lemma formatNumber_number (x : spec_float) :
  exists s, formatNumber (VNum x) = Ret s.
Proof.
  unfold formatNumber.
  repeat match goal with
    | |- context [if ?c then _ else _] => destruct c
    end; simpl; eauto.
Qed.

(** On a payload whose numeric fields are numbers or falsy the token
    branch returns for every content type. *)
Lemma token_content_returns (d token : value) (ct : contentType)
    (tgs : list value) :
  is_nullish d = false -> numbers_typed d ->
  exists r, token_content d token ct tgs = Ret r.
Proof.
  intros Hd (Husd & Hchange & Hvol & Hliq & Hcap & Htx).
  unfold token_content, opt_field.
  rewrite !(get_prop_defined d) by exact Hd. cbn [bind].
  destruct (or_zero_number _ Husd) as [usd ->].
  destruct (or_zero_number _ Hchange) as [change ->].
  destruct (or_zero_number _ Hvol) as [vol ->].
  destruct (formatNumber_number vol) as [v Hv].
  destruct ct; cbn [call_toFixed bind]; rewrite Hv; cbn [bind].
  - eauto.
  - destruct (or_zero_number _ Hliq) as [liq ->].
    destruct (formatNumber_number liq) as [l ->].
    destruct (or_zero_number _ Hcap) as [cap ->].
    destruct (formatNumber_number cap) as [mc ->].
    destruct (or_zero_number _ Htx) as [tx ->].
    destruct (formatNumber_number tx) as [t ->].
    cbn [bind]. eauto.
  - destruct (or_zero_number _ Hcap) as [cap ->].
    destruct (formatNumber_number cap) as [mc ->].
    destruct (or_zero_number _ Hliq) as [liq ->].
    destruct (formatNumber_number liq) as [l ->].
    cbn [bind]. eauto.
Qed.

(** [generateSocialContent] returns on every payload of the expected
    shape, for every platform and content type. *)
Lemma generateSocialContent_returns (d : value) (p : Platform)
    (ct : contentType) :
  tags_typed d -> numbers_typed d ->
  exists c, generateSocialContent d p ct = Ret c.
Proof.
  intros Htags Hnums. unfold generateSocialContent.
  destruct (extractDefaultTags_returns d Htags) as [tgs ->]. cbn [bind].
  destruct Htags as (Hd & _).
  rewrite !(get_prop_defined d) by exact Hd. cbn [bind].
  destruct (truthy (get_opt d (lit "token"))).
  - destruct (token_content_returns d (get_opt d (lit "token")) ct tgs Hd Hnums)
      as [[msg|c] ->]; cbn [bind]; eauto.
  - cbn [bind].
    destruct (truthy _);
      [destruct (market_content ct tgs) | destruct (default_content ct tgs)];
      cbn [bind]; eauto.
Qed.

(** C3, amended. Whenever [generateSocialContent] returns for content
    type [thread], on any payload and platform, the thread is present and
    has at least four entries, and the message is a separate hook line:
    it ends with the thread emoji and differs from the first thread
    entry. *)
Theorem generateSocialContent_thread_has_hook (d : value) (p : Platform)
    (c : SocialContent) :
  generateSocialContent d p Thread = Ret c ->
  exists first rest,
    thread c = Some (first :: rest) /\
    (3 <= length rest)%nat /\
    emoji_thread `suffix_of` message c /\
    message c <> first.
Proof.
  unfold generateSocialContent. intros Hret. bind_inv Hret.
  assert (Hbranch : exists c' first rest,
             x1 = inr c' /\ thread c' = Some (first :: rest) /\
             (3 <= length rest)%nat /\ emoji_thread `suffix_of` message c' /\
             message c' <> first).
  { destruct (truthy x0).
    - apply token_content_thread in E1
        as (c' & first & rest & -> & Ht & Hl & Hp & Hm).
      exists c', first, rest. repeat split; try assumption; lia.
    - bind_inv E1. destruct (truthy (or_else x2 x3)).
      + destruct (market_content_thread x)
          as (c' & first & rest & Hc & Ht & Hl & Hp & Hm).
        rewrite Hc in E1. inversion E1; subst x1.
        exists c', first, rest. repeat split; try assumption; lia.
      + destruct (default_content_thread x)
          as (c' & first & rest & Hc & Ht & Hl & Hp & Hm).
        rewrite Hc in E1. inversion E1; subst x1.
        exists c', first, rest. repeat split; try assumption; lia. }
  destruct Hbranch as (c' & first & rest & -> & Ht & Hl & Hp & Hm).
  inversion Hret; subst c'. exists first, rest.
  repeat split; assumption.
Qed.
End ThreadContent.

(** On the ETH snapshot the thread is present and the hook differs from
    its first entry. *)
Lemma generateSocialContent_thread_has_hook_witness :
  exists c first rest,
    generateSocialContent (lib := ascii_lib) eth_snapshot twitter Thread = Ret c /\
    thread c = Some (first :: rest) /\
    (3 <= length rest)%nat /\
    emoji_thread `suffix_of` message c /\
    message c <> first.
Proof.
  destruct (generateSocialContent (lib := ascii_lib) eth_snapshot twitter Thread)
    as [c|e] eqn:Hrun; [| vm_compute in Hrun; discriminate Hrun].
  destruct (generateSocialContent_thread_has_hook eth_snapshot twitter c Hrun)
    as (first & rest & Ht & Hl & Hp & Hm).
  exists c, first, rest. split; [reflexivity |]. split; [exact Ht |].
  split; [exact Hl |]. split; [exact Hp | exact Hm].
Defined.

(** ** Distribution *)

Lemma platform_id_inj (p q : Platform) : platform_id p = platform_id q -> p = q.
Proof. destruct p, q; simpl; intros E; try reflexivity; discriminate E. Qed.

Section DistributionProperties.
Context {lib : EcmaLib} {H : Type} {host_ops : Host H}.

(** One iteration always ends in an assignment to [results[platform]]:
    no exception leaves the loop body. *)
Lemma post_to_platform_records (imagePath msg : list N)
    (formattedTags : gmap (list N) (list N)) (action : option Action)
    (results : gmap (list N) PublishResult) (p : Platform) (w : world H) :
  exists w' r,
    post_to_platform imagePath msg formattedTags action results p w
      = (w', Ret (<[platform_id p := r]> results)).
Proof.
  unfold post_to_platform, try_catch, io_bind, host_read, host_op,
    pure_outcome, io_ret.
  destruct (fs_existsSync (host w) imagePath); simpl; [| eauto].
  destruct action as [[[ws|] ? ?]|]; simpl; try (eexists _, _; reflexivity).
  destruct (fs_readFileSync (host w) imagePath) as [h1 [bytes|e]]; simpl;
    [| eauto].
  destruct (action_callIntegration h1 _) as [h2 [resp|e]]; simpl; [| eauto].
  destruct (read_response p resp) as [r|e]; simpl; eauto.
Qed.




Lemma post_to_platforms_records (imagePath msg : list N)
    (formattedTags : gmap (list N) (list N)) (action : option Action)
    (platforms : list Platform) :
  forall (results : gmap (list N) PublishResult) (w : world H),
  exists w' results',
    post_to_platforms imagePath msg formattedTags action results platforms w
      = (w', Ret results') /\
    forall k, is_Some (results' !! k) <->
              is_Some (results !! k) \/
              exists p, p ∈ platforms /\ k = platform_id p.
Proof.
  induction platforms as [|p ps IH]; intros results w; simpl.
  - exists w, results. split; [reflexivity |].
    intros k. split; [auto |]. intros [Hk | (p & Hp & _)]; [exact Hk |].
    inversion Hp.
  - unfold io_bind.
    destruct (post_to_platform_records imagePath msg formattedTags action
                results p w) as (w1 & r & ->).
    destruct (IH (<[platform_id p := r]> results) w1)
      as (w' & results' & -> & Hdom).
    exists w', results'. split; [reflexivity |].
    intros k. rewrite Hdom. split.
    + intros [Hk | (q & Hq & ->)].
      * destruct (decide (platform_id p = k)) as [<- | Hne].
        -- right. exists p. split; [left | reflexivity].
        -- left. rewrite lookup_insert_ne in Hk by exact Hne. exact Hk.
      * right. exists q. split; [right; exact Hq | reflexivity].
    + intros [Hk | (q & Hq & ->)].
      * destruct (decide (platform_id p = k)) as [<- | Hne].
        -- left. rewrite lookup_insert_eq. eauto.
        -- left. rewrite lookup_insert_ne by exact Hne. exact Hk.
      * inversion Hq; subst.
        -- left. rewrite lookup_insert_eq. eauto.
        -- right. exists q. split; [assumption | reflexivity].
Qed.

End DistributionProperties.


(** C4, the code at a failing input. The [detailed] market message that
    [generateSocialContent] produces, published to twitter with the five
    base tags: the prose is cut to 250 code units whatever the tags are,
    the hashtags are appended after a blank line, and the text handed to
    the platform has 298 code units, above the limit of 280. *)
Theorem twitter_text_exceeds_post_limit :
  let formattedTags := formatTagsForPlatforms base_tag_names [twitter] in
  let text := fullMessage detailed_market_message formattedTags twitter in
  generateSocialContent (lib := ascii_lib) market_payload twitter Detailed
    = Ret {| message := detailed_market_message; tags := base_tags;
             thread := None |} /\
  formattedTags !! lit "twitter"
    = Some (lit "#DeFi #crypto #blockchain #visualization #data") /\
  length text = 298%nat /\
  (twitter_post_limit < length text)%nat /\
  requests (host (fst (distributeToSocial (lib := ascii_lib) chart_png [twitter]
                         detailed_market_message base_tag_names
                         (Some with_workspace) (start two_replies))))
    = [integration_request (lib := ascii_lib) (VStr (lit "ws-1")) twitter text
         (lit "PNG") chart_png].
Proof.
  repeat split; try reflexivity.
  vm_compute. lia.
Qed.

(** ** Post schedule *)

Section Schedule.
Context {lib : EcmaLib} {H : Type} {host_ops : Host H}.

(** Entry [k] of what the loop appends from index [i] on goes to the
    platform at [(i + k) mod 3] and is due between [4 (i + k)] and
    [4 (i + k) + 1] hours from now. *)
Lemma schedule_from_spec (now : Z) (n : nat) :
  forall (i : Z) (acc : list ScheduleEntry) (w : world H),
    0 <= i ->
    exists w' added,
      schedule_from now i n acc w = (w', Ret (acc ++ added)) /\
      open_browsers w' = open_browsers w /\
      length added = n /\
      forall (k : nat) (e : ScheduleEntry),
        added !! k = Some e ->
        platform e
          = nth (Z.to_nat ((i + Z.of_nat k) mod 3)) schedule_platforms [] /\
        now + 4 * (i + Z.of_nat k) * hour_ms <= scheduledTime e
          <= now + (4 * (i + Z.of_nat k) + 1) * hour_ms.
Proof.
  induction n as [|n IH]; intros i acc w Hi; cbn [schedule_from].
  - exists w, []. rewrite app_nil_r.
    split; [reflexivity |]. split; [reflexivity |]. split; [reflexivity |].
    intros k e Hk. inversion Hk.
  - unfold io_bind, host_step at 1.
    destruct (math_random_half (host w)) as [h' half].
    set (entry := {| platform := nth (Z.to_nat (i mod 3)) schedule_platforms [];
                     scheduledTime :=
                       now + (i * 4 + (if half then 1 else 0)) * hour_ms |}).
    set (w1 := {| host := h'; launched := launched w;
                  open_browsers := open_browsers w |}).
    destruct (IH (i + 1) (acc ++ [entry]) w1 ltac:(lia))
      as (w' & added & Hrun & Hopen & Hlen & Hentries).
    rewrite Hrun. exists w', (entry :: added).
    split; [rewrite <- app_assoc; reflexivity |].
    split; [exact Hopen |]. split; [simpl; rewrite Hlen; reflexivity |].
    intros [|k] e Hk.
    + inversion Hk; subst e; clear Hk. unfold entry.
      cbn [platform scheduledTime].
      rewrite Z.add_0_r. split; [reflexivity |].
      unfold hour_ms. destruct half; lia.
    + apply Hentries in Hk as [Hp Ht].
      replace (i + Z.of_nat (S k)) with (i + 1 + Z.of_nat k) by lia.
      split; [exact Hp | exact Ht].
Qed.

(** [generatePostSchedule] returns [postCount] entries, cycling through
    twitter, linkedin and telegram, at strictly increasing instants. *)
Lemma generatePostSchedule_spec (postCount : Z) (w : world H) :
  exists w' schedule,
    generatePostSchedule postCount w = (w', Ret schedule) /\
    length schedule = Z.to_nat postCount /\
    (forall (k : nat) (e : ScheduleEntry),
       schedule !! k = Some e ->
       platform e = nth (k mod 3) schedule_platforms []) /\
    strictly_increasing (schedule_times schedule).
Proof.
  unfold generatePostSchedule, io_bind, host_read.
  destruct (schedule_from_spec (date_now (host w)) (Z.to_nat postCount)
              0 [] w ltac:(lia)) as (w' & added & Hrun & _ & Hlen & Hentries).
  rewrite Hrun. exists w', added. split; [reflexivity |].
  split; [exact Hlen |]. split.
  - intros k e Hk. apply Hentries in Hk as [Hp _]. rewrite Hp.
    f_equal. rewrite Z.add_0_l.
    rewrite <- (Nat2Z.id (k mod 3)), Nat2Z.inj_mod. reflexivity.
  - intros i j a b Hij Ha Hb. unfold schedule_times in Ha, Hb.
    rewrite list_lookup_fmap in Ha, Hb.
    destruct (added !! i) as [ei|] eqn:Hi; [| discriminate Ha].
    destruct (added !! j) as [ej|] eqn:Hj; [| discriminate Hb].
    inversion Ha; subst a. inversion Hb; subst b.
    apply Hentries in Hi as [_ Hti]. apply Hentries in Hj as [_ Htj].
    unfold hour_ms in *. lia.
Qed.
End Schedule.

(** C5, as stated, fails: the schedule of the campaign for [Ethereum TVL
    trends] on twitter alone has a linkedin entry and a telegram entry. *)
Lemma campaign_schedule_not_all_twitter :
  ~ exists w' c,
      createSocialCampaign (lib := ascii_lib) one_tvl_chart
        (lit "Ethereum TVL trends") [twitter] [lit "tvl-chart"] 3 false
        (start two_replies) = (w', Ret c) /\
      length (suggestedSchedule c) = 3%nat /\
      Forall (fun e => platform e = lit "twitter") (suggestedSchedule c) /\
      strictly_increasing (schedule_times (suggestedSchedule c)).
Proof.
  intros (w' & c & Hrun & _ & Hall & _).
  vm_compute in Hrun. inversion Hrun; subst c; clear Hrun.
  cbn [suggestedSchedule] in Hall.
  inversion Hall as [|? ? _ Hrest]; subst.
  inversion Hrest as [|? ? Hlinkedin _]; subst.
  cbn in Hlinkedin. discriminate Hlinkedin.
Qed.

Section CampaignSchedule.
Context {lib : EcmaLib} {H : Type} {host_ops : Host H}.

(** C5, amended. Whenever [createSocialCampaign] returns a campaign for
    a post count of 3, as for [Ethereum TVL trends] on twitter with the
    [tvl-chart] visualization and no thread, the schedule has exactly
    three entries, at strictly increasing instants; their platforms are
    twitter, linkedin and telegram in this order, the fixed cycle of
    [generatePostSchedule], whatever platforms were requested. *)
Theorem createSocialCampaign_schedule
    (gather : list N -> list (list N) -> io H (list Visualization))
    (topic_text : list N) (platforms : list Platform)
    (visualizationTypes : list (list N)) (includeThread : bool)
    (w w' : world H) (c : Campaign) :
  createSocialCampaign gather topic_text platforms visualizationTypes 3
    includeThread w = (w', Ret c) ->
  length (suggestedSchedule c) = 3%nat /\
  List.map platform (suggestedSchedule c)
    = [lit "twitter"; lit "linkedin"; lit "telegram"] /\
  strictly_increasing (schedule_times (suggestedSchedule c)).
Proof.
  unfold createSocialCampaign, try_catch, io_bind, pure_outcome, io_throw,
    io_ret.
  intros Hrun.
  destruct (gather topic_text visualizationTypes w) as [w1 [vs|e]];
    [| inversion Hrun].
  destruct (platform_contents platforms includeThread vs ∅) as [pc|e];
    [| inversion Hrun].
  destruct (generatePostSchedule_spec 3 w1)
    as (w2 & schedule & Hs & Hlen & Hplat & Hinc).
  rewrite Hs in Hrun. inversion Hrun; subst; clear Hrun.
  cbn [suggestedSchedule].
  split; [exact Hlen |]. split; [| exact Hinc].
  destruct schedule as [|e0 [|e1 [|e2 [|e3 rest]]]]; try discriminate Hlen.
  cbn [List.map].
  rewrite (Hplat 0%nat e0 eq_refl), (Hplat 1%nat e1 eq_refl),
    (Hplat 2%nat e2 eq_refl).
  reflexivity.
Qed.
End CampaignSchedule.

(** The campaign for [Ethereum TVL trends] on the scripted host. *)
Lemma createSocialCampaign_schedule_witness :
  exists w' c,
    createSocialCampaign (lib := ascii_lib) one_tvl_chart
      (lit "Ethereum TVL trends") [twitter] [lit "tvl-chart"] 3 false
      (start two_replies) = (w', Ret c) /\
    length (suggestedSchedule c) = 3%nat /\
    List.map platform (suggestedSchedule c)
      = [lit "twitter"; lit "linkedin"; lit "telegram"] /\
    strictly_increasing (schedule_times (suggestedSchedule c)).
Proof.
  destruct (createSocialCampaign (lib := ascii_lib) one_tvl_chart
              (lit "Ethereum TVL trends") [twitter] [lit "tvl-chart"] 3 false
              (start two_replies)) as [w' [c|e]] eqn:Hrun;
    [| vm_compute in Hrun; discriminate Hrun].
  exists w', c. split; [reflexivity |].
  exact (createSocialCampaign_schedule one_tvl_chart
           (lit "Ethereum TVL trends") [twitter] [lit "tvl-chart"] false
           (start two_replies) w' c Hrun).
Defined.

(** ** Artifacts *)

Lemma format_id_word (f : format) : forallb is_word_char (format_id f) = true.
Proof. destruct f; reflexivity. Qed.

Section Conversion.
Context {lib : EcmaLib} {H : Type} {host_ops : Host H}.

(** C8. Converting an artifact to the format it already has, that is
    when the lower-cased extension of its path is the target format,
    returns the path it was given and leaves the world as it was: no
    file is written and no browser is launched. *)
Theorem convertVisualization_same_format (inputPath : list N)
    (outputFormat : format) (w : world H) :
  to_lower_case (drop 1 (path_extname inputPath)) = format_id outputFormat ->
  convertVisualization inputPath outputFormat w = (w, Ret inputPath).
Proof.
  intros Hext. unfold convertVisualization, replace_extension.
  rewrite Hext, format_id_word.
  unfold io_bind, pure_outcome, io_ret.
  rewrite bool_decide_eq_true_2 by reflexivity. reflexivity.
Qed.
End Conversion.

(** [chart.png] converted to [png] on the scripted host. *)
Lemma convertVisualization_same_format_witness :
  convertVisualization (lib := ascii_lib) chart_png png (start two_replies)
    = (start two_replies, Ret chart_png).
Proof.
  apply (convertVisualization_same_format (lib := ascii_lib) (H := scripted)).
  reflexivity.
Defined.

(** *** Browsers are closed *)

Section Browsers.
Context {lib : EcmaLib} {H : Type} {host_ops : Host H}.

Lemma closes_well_formed {A} (m : io H A) (w : world H) :
  closes_browsers m -> well_formed w -> well_formed (fst (m w)).
Proof.
  intros Hm Hw. destruct (Hm w Hw) as [Ho Hl].
  unfold well_formed. rewrite Ho.
  eapply Forall_impl; [exact Hw |]. simpl. intros b Hb. lia.
Qed.

Lemma closes_ret {A} (a : A) : closes_browsers (H := H) (io_ret a).
Proof. intros w _. simpl. split; [reflexivity | lia]. Qed.

Lemma closes_throw {A} (e : exn) : closes_browsers (H := H) (A := A) (io_throw e).
Proof. intros w _. simpl. split; [reflexivity | lia]. Qed.

Lemma closes_pure {A} (r : outcome A) : closes_browsers (H := H) (pure_outcome r).
Proof. intros w _. simpl. split; [reflexivity | lia]. Qed.

Lemma closes_host_op {A} (f : H -> H * outcome A) :
  closes_browsers (host_op f).
Proof.
  intros w _. unfold host_op. destruct (f (host w)). simpl.
  split; [reflexivity | lia].
Qed.

Lemma closes_host_read {A} (f : H -> A) : closes_browsers (host_read f).
Proof. intros w _. simpl. split; [reflexivity | lia]. Qed.

Lemma closes_bind {A B} (m : io H A) (k : A -> io H B) :
  closes_browsers m -> (forall a, closes_browsers (k a)) ->
  closes_browsers (io_bind m k).
Proof.
  intros Hm Hk w Hw. unfold io_bind.
  pose proof (Hm w Hw) as [Ho Hl].
  pose proof (closes_well_formed m w Hm Hw) as Hw1.
  destruct (m w) as [w1 [a|e]]; simpl in *.
  - destruct (Hk a w1 Hw1) as [Ho' Hl']. split; [congruence | lia].
  - split; [exact Ho | exact Hl].
Qed.

Lemma closes_try_catch {A} (body : io H A) (handler : exn -> io H A) :
  closes_browsers body -> (forall e, closes_browsers (handler e)) ->
  closes_browsers (try_catch body handler).
Proof.
  intros Hm Hk w Hw. unfold try_catch.
  pose proof (Hm w Hw) as [Ho Hl].
  pose proof (closes_well_formed body w Hm Hw) as Hw1.
  destruct (body w) as [w1 [a|e]]; simpl in *.
  - split; [exact Ho | exact Hl].
  - destruct (Hk e w1 Hw1) as [Ho' Hl']. split; [congruence | lia].
Qed.

Lemma closes_screenshot_page (b : nat) (htmlPath outputPath : list N)
    (sc : script) (w0 h0 : Z) :
  closes_browsers (screenshot_page b htmlPath outputPath sc w0 h0).
Proof.
  unfold screenshot_page.
  repeat (apply closes_bind; [apply closes_host_op | intros ?]).
  apply closes_host_op.
Qed.

(** The heart of the matter: the browser launched by [with_browser] is
    closed by the [finally] block whether or not the page steps throw. *)
Lemma closes_with_browser (htmlPath outputPath : list N) (sc : script)
    (w0 h0 : Z) (extra : io H unit) :
  closes_browsers extra ->
  closes_browsers (with_browser htmlPath outputPath sc w0 h0 extra).
Proof.
  intros Hextra w Hw. unfold with_browser, io_bind, launch.
  destruct (puppeteer_launch (host w)) as [h1 [[]|e]]; simpl;
    [| split; [reflexivity | lia]].
  set (w1 := {| host := h1; launched := S (launched w);
                open_browsers := launched w :: open_browsers w |}).
  assert (Hw1 : well_formed w1).
  { unfold well_formed, w1. simpl. constructor; [lia |].
    eapply Forall_impl; [exact Hw |]. simpl. intros b Hb. lia. }
  unfold try_finally.
  pose proof (closes_screenshot_page (launched w) htmlPath outputPath sc
                w0 h0 w1 Hw1) as [Ho2 Hl2].
  destruct (screenshot_page (launched w) htmlPath outputPath sc w0 h0 w1)
    as [w2 r]. simpl in Ho2, Hl2.
  set (w3 := {| host := host w2; launched := launched w2;
                open_browsers :=
                  List.filter (fun b' => negb (Nat.eqb (launched w) b'))
                    (open_browsers w2) |}).
  assert (Ho3 : open_browsers w3 = open_browsers w).
  { unfold w3. cbn [open_browsers]. rewrite Ho2. unfold w1.
    cbn [open_browsers List.filter]. rewrite Nat.eqb_refl. cbn [negb].
    apply forallb_filter_id, forallb_forall. intros b Hb.
    apply negb_true_iff, Nat.eqb_neq.
    unfold well_formed in Hw. rewrite Forall_forall in Hw.
    apply list_elem_of_In, Hw in Hb. lia. }
  assert (Hw3 : well_formed w3).
  { unfold well_formed. rewrite Ho3. unfold w3. cbn [launched].
    eapply Forall_impl; [exact Hw |]. simpl. intros b Hb.
    unfold w1 in Hl2. simpl in Hl2. lia. }
  destruct (Hextra w3 Hw3) as [Ho4 Hl4].
  destruct (extra w3) as [w4 [[]|e]]; simpl in *.
  - destruct r; simpl; split; try congruence; unfold w1 in Hl2; simpl in Hl2; lia.
  - split; [congruence |]. unfold w1 in Hl2. simpl in Hl2. lia.
Qed.
End Browsers.

(** Proves [closes_browsers] for a computation built from the combinators,
    case by case on the data it branches on. *)
Ltac closes :=
  repeat first
    [ apply closes_ret | apply closes_throw | apply closes_pure
    | apply closes_host_op | apply closes_host_read
    | apply closes_with_browser
    | apply closes_bind; [| intros ?]
    | apply closes_try_catch; [| intros ?]
    | match goal with
      | |- closes_browsers (if ?c then _ else _) => destruct c
      | |- closes_browsers (match ?x with _ => _ end) => destruct x
      end ].

Section BrowsersClosed.
Context {lib : EcmaLib} {H : Type} {host_ops : Host H}.

Lemma closes_upload (action : option Action) (outputPath fullFilename : list N) :
  closes_browsers (H := H) (upload action outputPath fullFilename).
Proof. unfold upload. closes. Qed.

Lemma closes_saveVisualization (html_text filename : list N) (fmt : format)
    (action : option Action) :
  closes_browsers (H := H) (saveVisualization html_text filename fmt action).
Proof.
  unfold saveVisualization. closes; try apply closes_upload; closes.
Qed.

Lemma closes_convertVisualization (inputPath : list N) (outputFormat : format) :
  closes_browsers (H := H) (convertVisualization inputPath outputFormat).
Proof. unfold convertVisualization. closes. Qed.

(** C9. From a world in which every open browser was launched before,
    [saveVisualization] and [convertVisualization] end, whether they
    return or throw and whatever the host does, with exactly the browsers
    open that were open at the start: the browser they launch is
    closed on every exit. *)
Theorem browsers_closed_on_every_exit (html_text filename inputPath : list N)
    (fmt outputFormat : format) (action : option Action) (w : world H) :
  well_formed w ->
  open_browsers (fst (saveVisualization html_text filename fmt action w))
    = open_browsers w /\
  open_browsers (fst (convertVisualization inputPath outputFormat w))
    = open_browsers w.
Proof.
  intros Hw. split.
  - apply closes_saveVisualization, Hw.
  - apply closes_convertVisualization, Hw.
Qed.
End BrowsersClosed.

(** Saving as PNG on a host whose pages fail to load, and converting HTML
    to PNG there: both throw, one browser was launched each time, and none
    is left open. *)
Lemma browsers_closed_on_every_exit_witness :
  let saved :=
    saveVisualization (lib := ascii_lib) (lit "<html></html>") (lit "chart")
      png None (start failing_pages) in
  let converted :=
    convertVisualization (lib := ascii_lib) (lit "/app/output/chart.html")
      png (start failing_pages) in
  snd saved
    = Throw (JsError (lit "Failed to save as png: Navigation timeout")) /\
  launched (fst saved) = 1%nat /\
  open_browsers (fst saved) = [] /\
  snd converted
    = Throw (JsError (lit "Failed to convert visualization: Navigation timeout")) /\
  launched (fst converted) = 1%nat /\
  open_browsers (fst converted) = [].
Proof.
  intros saved converted.
  destruct (browsers_closed_on_every_exit (lib := ascii_lib) (H := scripted)
              (lit "<html></html>") (lit "chart") (lit "/app/output/chart.html")
              png png None (start failing_pages)) as [Hsave Hconvert].
  { constructor. }
  split; [reflexivity |]. split; [reflexivity |]. split; [exact Hsave |].
  split; [reflexivity |]. split; [reflexivity | exact Hconvert].
Defined.

(** * Further properties of the code *)

(** ** The template registry *)

(** X1. Looking an id up after a registration: the id of the registered
    template resolves to that template, also when the id was registered
    before, and every other id resolves as it did. *)
Theorem get_after_register (t : VisualizationTemplate) (r : TemplateRegistry)
    (k : list N) :
  get k (register t r) = if bool_decide (k = id t) then Some t else get k r.
Proof.
  unfold register. induction r as [|[k' t'] r IH]; simpl.
  - reflexivity.
  - destruct (decide (id t = k')) as [E | E].
    + rewrite (bool_decide_eq_true_2 _ E). simpl. subst k'.
      destruct (bool_decide (k = id t)); reflexivity.
    + rewrite (bool_decide_eq_false_2 _ E). simpl. rewrite IH.
      destruct (decide (k = k')) as [-> | E'].
      * rewrite bool_decide_eq_true_2 by reflexivity.
        rewrite bool_decide_eq_false_2 by (intros E2; apply E; symmetry; exact E2).
        reflexivity.
      * rewrite (bool_decide_eq_false_2 _ E'). reflexivity.
Qed.

Lemma map_set_keys (k : list N) (t : VisualizationTemplate)
    (r : TemplateRegistry) :
  forall k', k' ∈ List.map fst (map_set k t r) <-> k' = k \/ k' ∈ List.map fst r.
Proof.
  induction r as [|[k0 t0] r IH]; intros k'; simpl.
  - rewrite list_elem_of_singleton. split; [auto |].
    intros [E | E]; [exact E | inversion E].
  - destruct (decide (k = k0)) as [<- | E].
    + rewrite bool_decide_eq_true_2 by reflexivity. simpl.
      rewrite !elem_of_cons. tauto.
    + rewrite (bool_decide_eq_false_2 _ E). simpl.
      rewrite !elem_of_cons, IH. tauto.
Qed.

Lemma map_set_NoDup (k : list N) (t : VisualizationTemplate)
    (r : TemplateRegistry) :
  NoDup (List.map fst r) -> NoDup (List.map fst (map_set k t r)).
Proof.
  induction r as [|[k0 t0] r IH]; simpl; intros Hr.
  - apply NoDup_singleton.
  - apply NoDup_cons in Hr as [Hk0 Hr].
    destruct (decide (k = k0)) as [<- | E].
    + rewrite bool_decide_eq_true_2 by reflexivity. simpl.
      apply NoDup_cons. split; assumption.
    + rewrite (bool_decide_eq_false_2 _ E). simpl.
      apply NoDup_cons. split; [| apply IH, Hr].
      rewrite map_set_keys. intros [E' | E']; [apply E; symmetry; exact E' |].
      apply Hk0, E'.
Qed.

Lemma map_set_keyed (k : list N) (t : VisualizationTemplate)
    (r : TemplateRegistry) :
  k = id t ->
  Forall (fun kt => fst kt = id (snd kt)) r ->
  Forall (fun kt => fst kt = id (snd kt)) (map_set k t r).
Proof.
  intros Hk. induction r as [|[k0 t0] r IH]; simpl; intros Hr.
  - apply Forall_cons. split; [exact Hk | apply Forall_nil_2].
  - apply Forall_cons in Hr as [H0 Hr].
    destruct (bool_decide (k = k0)).
    + apply Forall_cons. split; [exact Hk | exact Hr].
    + apply Forall_cons. split; [exact H0 | apply IH, Hr].
Qed.

Lemma registered_keys (r : TemplateRegistry) :
  registered r ->
  NoDup (List.map fst r) /\ Forall (fun kt => fst kt = id (snd kt)) r.
Proof.
  induction 1 as [|t r Hr [IH1 IH2]].
  - split; [apply NoDup_nil_2 | apply Forall_nil_2].
  - split; [apply map_set_NoDup, IH1 | apply map_set_keyed; [reflexivity | exact IH2]].
Qed.

Lemma get_of_entry (r : TemplateRegistry) (k : list N)
    (t : VisualizationTemplate) :
  NoDup (List.map fst r) -> (k, t) ∈ r -> get k r = Some t.
Proof.
  induction r as [|[k0 t0] r IH]; simpl; intros Hnd Hin.
  - inversion Hin.
  - apply NoDup_cons in Hnd as [Hk0 Hnd].
    apply elem_of_cons in Hin as [E | Hin].
    + injection E as -> ->. rewrite bool_decide_eq_true_2 by reflexivity.
      reflexivity.
    + destruct (decide (k = k0)) as [-> | E].
      * exfalso. apply Hk0. apply list_elem_of_fmap. exists (k0, t).
        split; [reflexivity | exact Hin].
      * rewrite (bool_decide_eq_false_2 _ E). apply IH; assumption.
Qed.

Lemma get_entry (r : TemplateRegistry) (k : list N)
    (t : VisualizationTemplate) :
  get k r = Some t -> (k, t) ∈ r.
Proof.
  induction r as [|[k0 t0] r IH]; simpl; intros Hget.
  - discriminate Hget.
  - destruct (decide (k = k0)) as [-> | E].
    + rewrite bool_decide_eq_true_2 in Hget by reflexivity.
      injection Hget as ->. left.
    + rewrite (bool_decide_eq_false_2 _ E) in Hget. right. apply IH, Hget.
Qed.

Lemma get_listed (r : TemplateRegistry) (k : list N)
    (t : VisualizationTemplate) :
  get k r = Some t -> t ∈ getAll r.
Proof.
  intros Hget. apply get_entry in Hget. unfold getAll.
  apply list_elem_of_fmap. exists (k, t). split; [reflexivity | exact Hget].
Qed.

(** X2. In a registry built by registrations, the listed templates have
    pairwise distinct ids, and a template is listed exactly when its own
    id resolves to it. *)
Theorem registered_ids_distinct (r : TemplateRegistry) :
  registered r ->
  NoDup (List.map id (getAll r)) /\
  forall t, t ∈ getAll r <-> get (id t) r = Some t.
Proof.
  intros Hr. destruct (registered_keys r Hr) as [Hnd Hkeyed]. split.
  - assert (E : List.map id (getAll r) = List.map fst r).
    { clear Hnd Hr. induction r as [|[k t] r IH]; [reflexivity |].
      apply Forall_cons in Hkeyed as [E Hkeyed]. simpl in *.
      rewrite E, (IH Hkeyed). reflexivity. }
    rewrite E. exact Hnd.
  - intros t. split; [| apply get_listed].
    intros Ht. unfold getAll in Ht.
    apply list_elem_of_fmap in Ht as ([k t'] & -> & Hin). simpl.
    apply get_of_entry; [exact Hnd |].
    rewrite Forall_forall in Hkeyed. specialize (Hkeyed _ Hin). simpl in Hkeyed.
    rewrite <- Hkeyed. exact Hin.
Qed.

(** The built-in registry, with [price-chart] registered a second time:
    three distinct ids remain. *)
Lemma registered_ids_distinct_witness :
  NoDup (List.map id (getAll (register PriceChartTemplate templateRegistry))) /\
  length (getAll (register PriceChartTemplate templateRegistry)) = 3%nat.
Proof.
  split; [| reflexivity].
  apply (registered_ids_distinct (register PriceChartTemplate templateRegistry)).
  repeat constructor.
Defined.

Lemma elem_of_filter_bool {A} (f : A -> bool) (l : list A) (x : A) :
  x ∈ List.filter f l <-> x ∈ l /\ f x = true.
Proof.
  rewrite !list_elem_of_In. apply filter_In.
Qed.

Lemma find_some_elem {A} (f : A -> bool) (l : list A) (x : A) :
  List.find f l = Some x -> x ∈ l /\ f x = true.
Proof.
  intros Hf. apply find_some in Hf as [Hin Hfx].
  split; [apply list_elem_of_In, Hin | exact Hfx].
Qed.

(** The template [findBestTemplate] returns is listed and suitable. *)
Lemma findBestTemplate_suitable (r : TemplateRegistry) (d : value)
    (hint : option (list N)) (t : VisualizationTemplate) :
  findBestTemplate r d hint = Some t ->
  t ∈ getAll r /\ isSuitableFor t d = true.
Proof.
  unfold findBestTemplate. intros Hbest.
  destruct (length (findSuitableTemplates r d) =? 0)%nat; [discriminate Hbest |].
  assert (Hin : t ∈ findSuitableTemplates r d).
  { destruct (match hint with
              | Some (c :: h) =>
                  List.find (fun t0 => includes (id t0) (c :: h))
                    (findSuitableTemplates r d)
              | _ => None
              end) as [t'|] eqn:Hpref.
    - injection Hbest as ->.
      destruct hint as [[|c h]|]; try discriminate Hpref.
      apply find_some_elem in Hpref as [Hin _]. exact Hin.
    - destruct (findSuitableTemplates r d) as [|t0 l]; [discriminate Hbest |].
      injection Hbest as ->. left. }
  unfold findSuitableTemplates in Hin.
  apply elem_of_filter_bool in Hin. exact Hin.
Qed.

Lemma findBestTemplate_none (r : TemplateRegistry) (d : value)
    (hint : option (list N)) :
  findBestTemplate r d hint = None <-> findSuitableTemplates r d = [].
Proof.
  unfold findBestTemplate.
  destruct (findSuitableTemplates r d) as [|t0 l] eqn:Hs; simpl.
  - split; reflexivity.
  - split; [| discriminate].
    intros Hbest.
    repeat match type of Hbest with
           | context [match ?x with _ => _ end] => destruct x
           end; discriminate Hbest.
Qed.

(** X3. Whatever the hint, [findBestTemplate] never returns a template
    that is not registered or not suitable for the data, and it returns
    none only when no registered template is suitable. *)
Theorem findBestTemplate_sound (r : TemplateRegistry) (d : value)
    (hint : option (list N)) :
  (forall t, findBestTemplate r d hint = Some t ->
             t ∈ getAll r /\ isSuitableFor t d = true) /\
  (findBestTemplate r d hint = None <->
   forall t, t ∈ getAll r -> isSuitableFor t d = false).
Proof.
  split; [intros t; apply findBestTemplate_suitable |].
  rewrite findBestTemplate_none. unfold findSuitableTemplates. split.
  - intros Hnil t Ht. destruct (isSuitableFor t d) eqn:Hs; [| reflexivity].
    assert (Hin : t ∈ List.filter (fun t0 => isSuitableFor t0 d) (getAll r))
      by (apply elem_of_filter_bool; split; assumption).
    rewrite Hnil in Hin. inversion Hin.
  - intros Hall. destruct (List.filter _ _) as [|t l] eqn:Hf; [reflexivity |].
    assert (Hin : t ∈ List.filter (fun t0 => isSuitableFor t0 d) (getAll r))
      by (rewrite Hf; left).
    apply elem_of_filter_bool in Hin as [Hin Hs].
    rewrite (Hall t Hin) in Hs. discriminate Hs.
Qed.

(** A payload with a price and a TVL history, and a hint that matches no
    id: the price chart, which is suitable, is returned; a payload no
    template is suitable for gives none. *)
Lemma findBestTemplate_sound_witness :
  let d := VObj [(lit "price", VObj [(lit "usd", VNum (num_of_Z 1))]);
                 (lit "historicalTvl", VArr [])] in
  (PriceChartTemplate ∈ getAll templateRegistry /\
   isSuitableFor PriceChartTemplate d = true) /\
  findBestTemplate templateRegistry (VObj []) (Some (lit "pie")) = None.
Proof.
  intros d. split.
  - apply (proj1 (findBestTemplate_sound templateRegistry d (Some (lit "pie")))).
    reflexivity.
  - apply (proj2 (findBestTemplate_sound templateRegistry (VObj [])
                    (Some (lit "pie")))).
    intros t Ht. rewrite templateRegistry_order in Ht.
    repeat (apply elem_of_cons in Ht as [-> | Ht]; [reflexivity |]).
    inversion Ht.
Defined.

(** X4. With the built-in registry and no hint, the registration order of
    templates/capabilities.ts decides between templates that are suitable
    for the same data: the price chart is preferred to the market
    overview, and the market overview to the TVL chart. *)
Theorem templateRegistry_precedence (d : value) :
  findBestTemplate templateRegistry d None =
    if isSuitableFor PriceChartTemplate d then Some PriceChartTemplate
    else if isSuitableFor MarketOverviewTemplate d then Some MarketOverviewTemplate
    else if isSuitableFor TvlChartTemplate d then Some TvlChartTemplate
    else None.
Proof.
  unfold findBestTemplate, findSuitableTemplates.
  rewrite templateRegistry_order. cbn [List.filter].
  destruct (isSuitableFor PriceChartTemplate d);
    destruct (isSuitableFor MarketOverviewTemplate d);
    destruct (isSuitableFor TvlChartTemplate d); reflexivity.
Qed.

(** X5. The template the [generateVisualization] capability renders with
    is registered and suitable for the data. A template named by id is
    used exactly when it is registered under that id and suitable, and is
    never replaced by another one; without an id (or with the empty
    string) the choice is that of [findBestTemplate] without a hint. *)
Theorem generateVisualization_template_sound (r : TemplateRegistry)
    (templateId : option (list N)) (d : value) :
  (forall t, generateVisualization_template r templateId d = Ret t ->
             t ∈ getAll r /\ isSuitableFor t d = true) /\
  (forall c s t, templateId = Some (c :: s) ->
     (generateVisualization_template r templateId d = Ret t <->
      get (c :: s) r = Some t /\ isSuitableFor t d = true)) /\
  (forall t, templateId = None \/ templateId = Some [] ->
     (generateVisualization_template r templateId d = Ret t <->
      findBestTemplate r d None = Some t)).
Proof.
  split; [| split].
  - intros t. unfold generateVisualization_template.
    destruct templateId as [[|c s]|].
    + destruct (findBestTemplate r d None) as [t'|] eqn:Hb; [| discriminate].
      intros E. apply Ret_inj in E. subst t'.
      apply (findBestTemplate_suitable r d None t Hb).
    + destruct (get (c :: s) r) as [t'|] eqn:Hg; [| discriminate].
      destruct (isSuitableFor t' d) eqn:Hs; [| discriminate]. simpl.
      intros E. apply Ret_inj in E. subst t'.
      split; [apply (get_listed r (c :: s) t Hg) | exact Hs].
    + destruct (findBestTemplate r d None) as [t'|] eqn:Hb; [| discriminate].
      intros E. apply Ret_inj in E. subst t'.
      apply (findBestTemplate_suitable r d None t Hb).
  - intros c s t ->. unfold generateVisualization_template.
    destruct (get (c :: s) r) as [t'|] eqn:Hg.
    + destruct (isSuitableFor t' d) eqn:Hs; simpl.
      * split.
        -- intros E. apply Ret_inj in E. subst t'. split; [reflexivity | exact Hs].
        -- intros [E _]. injection E as ->. reflexivity.
      * split; [discriminate |].
        intros [E Hs']. injection E as ->. rewrite Hs in Hs'. discriminate Hs'.
    + split; [discriminate | intros [E _]; discriminate E].
  - intros t [-> | ->]; unfold generateVisualization_template;
      (destruct (findBestTemplate r d None) as [t'|];
       [split; [intros E; apply Ret_inj in E; subst t'; reflexivity
               | intros E; injection E as ->; reflexivity]
       | split; discriminate]).
Qed.

(** A TVL history rendered with [tvl-chart] by id, and the refusal to
    render it with [price-chart]. *)
Lemma generateVisualization_template_sound_witness :
  let d := VObj [(lit "historicalTvl", VArr [])] in
  generateVisualization_template templateRegistry (Some (lit "tvl-chart")) d
    = Ret TvlChartTemplate /\
  generateVisualization_template templateRegistry (Some (lit "price-chart")) d
    = Throw (JsError (lit "Template " ++ quote ++ lit "price-chart" ++ quote
                      ++ lit " is not suitable for the provided data")) /\
  generateVisualization_template templateRegistry None d = Ret TvlChartTemplate.
Proof.
  intros d. split; [| split].
  - apply (proj1 (proj2 (generateVisualization_template_sound templateRegistry
                           (Some (lit "tvl-chart")) d))
             116%N (lit "vl-chart") TvlChartTemplate eq_refl).
    split; reflexivity.
  - reflexivity.
  - apply (proj2 (proj2 (generateVisualization_template_sound templateRegistry
                           None d)) TvlChartTemplate (or_introl eq_refl)).
    reflexivity.
Defined.

Lemma get_templateRegistry (k : list N) :
  get k templateRegistry =
    if bool_decide (k = lit "price-chart") then Some PriceChartTemplate
    else if bool_decide (k = lit "market-overview") then Some MarketOverviewTemplate
    else if bool_decide (k = lit "tvl-chart") then Some TvlChartTemplate
    else None.
Proof. reflexivity. Qed.

(** X6. With the built-in registry, every visualization type requested
    from a campaign resolves to a template, so that the loop of
    [createSocialCampaign] never skips a type: a registered id resolves to
    its template, and any other type to the price chart (token campaigns,
    type containing [price]), to the TVL chart (protocol campaigns, type
    containing [tvl]) or else to the market overview. *)
Theorem campaign_template_found (pt : primaryType) (vizType : list N) :
  exists t,
    campaign_template templateRegistry pt vizType = Some t /\
    t ∈ getAll templateRegistry /\
    (vizType ∈ List.map id (getAll templateRegistry) -> id t = vizType) /\
    (vizType ∉ List.map id (getAll templateRegistry) ->
     id t =
       if match pt with primary_tokens => true | _ => false end
          && includes vizType (lit "price")
       then lit "price-chart"
       else if match pt with primary_protocols => true | _ => false end
               && includes vizType (lit "tvl")
       then lit "tvl-chart"
       else lit "market-overview").
Proof.
  unfold campaign_template. rewrite templateRegistry_order.
  rewrite !get_templateRegistry.
  destruct (decide (vizType = lit "price-chart")) as [-> | E1].
  { exists PriceChartTemplate. split; [reflexivity |].
    split; [left |]. split; [reflexivity |].
    intros Hn. exfalso. apply Hn. left. }
  destruct (decide (vizType = lit "market-overview")) as [-> | E2].
  { exists MarketOverviewTemplate. split; [reflexivity |].
    split; [right; left |]. split; [reflexivity |].
    intros Hn. exfalso. apply Hn. right. left. }
  destruct (decide (vizType = lit "tvl-chart")) as [-> | E3].
  { exists TvlChartTemplate. split; [reflexivity |].
    split; [right; right; left |]. split; [reflexivity |].
    intros Hn. exfalso. apply Hn. right. right. left. }
  rewrite (bool_decide_eq_false_2 _ E1), (bool_decide_eq_false_2 _ E2),
    (bool_decide_eq_false_2 _ E3).
  assert (Hnot : vizType ∈ List.map id
                   [PriceChartTemplate; MarketOverviewTemplate; TvlChartTemplate]
                 -> False).
  { intros Hin.
    apply elem_of_cons in Hin as [E | Hin]; [exact (E1 E) |].
    apply elem_of_cons in Hin as [E | Hin]; [exact (E2 E) |].
    apply elem_of_cons in Hin as [E | Hin]; [exact (E3 E) |].
    inversion Hin. }
  destruct (match pt with primary_tokens => true | _ => false end
            && includes vizType (lit "price")).
  { exists PriceChartTemplate. split; [reflexivity |]. split; [left |].
    split; [intros Hin; destruct (Hnot Hin) | reflexivity]. }
  destruct (match pt with primary_protocols => true | _ => false end
            && includes vizType (lit "tvl")).
  { exists TvlChartTemplate. split; [reflexivity |].
    split; [right; right; left |].
    split; [intros Hin; destruct (Hnot Hin) | reflexivity]. }
  exists MarketOverviewTemplate. split; [reflexivity |].
  split; [right; left |].
  split; [intros Hin; destruct (Hnot Hin) | reflexivity].
Qed.

(** The type [tvl-history], which is not an id, in a protocol campaign. *)
Lemma campaign_template_found_witness :
  exists t,
    campaign_template templateRegistry primary_protocols (lit "tvl-history")
      = Some t /\
    id t = lit "tvl-chart".
Proof.
  destruct (campaign_template_found primary_protocols (lit "tvl-history"))
    as (t & Ht & _ & _ & Hfall).
  exists t. split; [exact Ht |].
  apply Hfall. intros Hin.
  repeat (apply elem_of_cons in Hin as [E | Hin]; [discriminate E |]).
  inversion Hin.
Defined.

(** ** Hashtags per platform *)

Lemma formatTags_step (tags : list (list N)) (m : gmap (list N) (list N))
    (q : Platform) :
  match q with
  | twitter =>
      <[platform_id q := join (lit " ") (List.map hashtag (take 5 tags))]> m
  | linkedin =>
      <[platform_id q := join (lit " ") (List.map hashtag (take 8 tags))]> m
  | telegram =>
      <[platform_id q := join (lit " ") (List.map hashtag tags)]> m
  end
  = <[platform_id q :=
        join (lit " ") (List.map hashtag (platform_tags q tags))]> m.
Proof. destruct q; reflexivity. Qed.

Lemma formatTags_fold (tags : list (list N)) (platforms : list Platform)
    (p : Platform) :
  forall m : gmap (list N) (list N),
    foldl
      (fun formattedTags q =>
         match q with
         | twitter =>
             <[platform_id q := join (lit " ") (List.map hashtag (take 5 tags))]>
               formattedTags
         | linkedin =>
             <[platform_id q := join (lit " ") (List.map hashtag (take 8 tags))]>
               formattedTags
         | telegram =>
             <[platform_id q := join (lit " ") (List.map hashtag tags)]>
               formattedTags
         end) m platforms !! platform_id p
    = if bool_decide (p ∈ platforms)
      then Some (join (lit " ") (List.map hashtag (platform_tags p tags)))
      else m !! platform_id p.
Proof.
  induction platforms as [|q ps IH]; intros m; cbn [foldl].
  - rewrite bool_decide_eq_false_2 by (intros Hin; inversion Hin). reflexivity.
  - rewrite IH, formatTags_step.
    destruct (decide (p ∈ ps)) as [Hin | Hnin].
    + rewrite (bool_decide_eq_true_2 _ Hin).
      rewrite bool_decide_eq_true_2 by (right; exact Hin). reflexivity.
    + rewrite (bool_decide_eq_false_2 _ Hnin).
      destruct (decide (p = q)) as [-> | Hne].
      * rewrite bool_decide_eq_true_2 by left. apply lookup_insert_eq.
      * rewrite bool_decide_eq_false_2.
        -- apply lookup_insert_ne. intros E. apply Hne. symmetry.
           apply platform_id_inj, E.
        -- intros Hin. apply elem_of_cons in Hin as [E | Hin];
             [exact (Hne E) | exact (Hnin Hin)].
Qed.

(** X7. The hashtag strings of [formatTagsForPlatforms]: a requested
    platform gets the tags, in order, each with its white space removed
    and a [#] in front, joined by single spaces, the first five of them
    for twitter, the first eight for linkedin and all of them for
    telegram; a platform that was not requested gets no entry. *)
Theorem formatTagsForPlatforms_lookup (tags : list (list N))
    (platforms : list Platform) (p : Platform) :
  formatTagsForPlatforms tags platforms !! platform_id p
    = if bool_decide (p ∈ platforms)
      then Some (join (lit " ") (List.map hashtag (platform_tags p tags)))
      else None.
Proof.
  unfold formatTagsForPlatforms. rewrite formatTags_fold.
  rewrite lookup_empty. reflexivity.
Qed.

(** ** The post schedule *)

Section ScheduleSpacing.
Context {lib : EcmaLib} {H : Type} {host_ops : Host H}.

End ScheduleSpacing.

(** ** The twitter module *)

(** X9. With room for up to eighteen hashtags, [ensureTwitterLength]
    keeps a message within [277 - 15 tagCount] code units: a message that
    fits is returned as it is, a longer one is cut to its first
    [274 - 15 tagCount] code units followed by three dots. *)
Theorem ensureTwitterLength_fits (msg : list N) (tagCount : Z) :
  0 <= tagCount <= 18 ->
  Z.of_nat (length (ensureTwitterLength msg tagCount)) <= 277 - 15 * tagCount /\
  (Z.of_nat (length msg) <= 277 - 15 * tagCount ->
   ensureTwitterLength msg tagCount = msg) /\
  (277 - 15 * tagCount < Z.of_nat (length msg) ->
   ensureTwitterLength msg tagCount
     = take (Z.to_nat (274 - 15 * tagCount)) msg ++ lit "...").
Proof.
  intros Hc. unfold ensureTwitterLength.
  replace (280 - tagCount * 15 - 3) with (277 - 15 * tagCount) by lia.
  replace (277 - 15 * tagCount - 3) with (274 - 15 * tagCount) by lia.
  destruct (Z.leb_spec (Z.of_nat (length msg)) (277 - 15 * tagCount)) as [Hle | Hgt].
  - split; [exact Hle |]. split; [reflexivity | lia].
  - split; [| split; [lia | reflexivity]].
    rewrite length_app, length_take.
    change (length (lit "...")) with 3%nat. lia.
Qed.

(** A message of 300 code units with three hashtags to come: 229 code
    units of it and the dots, 232 in all. *)
Lemma ensureTwitterLength_fits_witness :
  ensureTwitterLength (replicate 300 97%N) 3 = replicate 229 97%N ++ lit "..." /\
  length (ensureTwitterLength (replicate 300 97%N) 3) = 232%nat.
Proof.
  destruct (ensureTwitterLength_fits (replicate 300 97%N) 3 ltac:(lia))
    as (_ & _ & Hcut).
  assert (E : ensureTwitterLength (replicate 300 97%N) 3
              = replicate 229 97%N ++ lit "...").
  { rewrite Hcut by (rewrite length_replicate; lia). reflexivity. }
  split; [exact E | rewrite E; reflexivity].
Defined.

(** X10. With nineteen hashtags or more to come no room is left: every
    message, the empty one included, becomes three dots. *)
Theorem ensureTwitterLength_no_room (msg : list N) (tagCount : Z) :
  19 <= tagCount -> ensureTwitterLength msg tagCount = lit "...".
Proof.
  intros Hc. unfold ensureTwitterLength.
  destruct (Z.leb_spec (Z.of_nat (length msg)) (280 - tagCount * 15 - 3)) as [Hle | Hgt].
  - lia.
  - replace (Z.to_nat (280 - tagCount * 15 - 3 - 3)) with 0%nat by lia.
    reflexivity.
Qed.

Lemma ensureTwitterLength_no_room_witness :
  ensureTwitterLength [] 19 = lit "..." /\
  ensureTwitterLength (lit "gm") 19 = lit "...".
Proof.
  split; apply ensureTwitterLength_no_room; lia.
Defined.

Lemma ensureTwitterLength_three (msg : list N) :
  (length (ensureTwitterLength msg 3) <= 232)%nat.
Proof.
  unfold ensureTwitterLength.
  destruct (Z.leb_spec (Z.of_nat (length msg)) (280 - 3 * 15 - 3)) as [Hle | Hgt].
  - lia.
  - rewrite length_app, length_take. change (length (lit "...")) with 3%nat. lia.
Qed.

Section TwitterContent.
Context {lib : EcmaLib}.

Lemma formatTwitterTags_defaults (extra : list value) :
  formatTwitterTags (twitter_default_tags ++ extra)
    = Ret (lit "#DeFi #crypto #data").
Proof. reflexivity. Qed.

(** The tags collected from a payload: the four defaults, then the
    symbol and the chain when they are set. *)
Lemma twitter_tags_shape (symbol chain : value) :
  exists extra,
    (if truthy chain
     then (if truthy symbol then twitter_default_tags ++ [symbol]
           else twitter_default_tags) ++ [chain]
     else (if truthy symbol then twitter_default_tags ++ [symbol]
           else twitter_default_tags))
    = twitter_default_tags ++ extra /\
    (length extra <= 2)%nat.
Proof.
  destruct (truthy chain), (truthy symbol).
  - exists [symbol; chain]. split; [reflexivity | simpl; lia].
  - exists [chain]. split; [reflexivity | simpl; lia].
  - exists [symbol]. split; [reflexivity | simpl; lia].
  - exists []. split; [reflexivity | simpl; lia].
Qed.

(** X11. A single tweet of [generateTwitterContent] (content type
    [short] or [detailed]) has no thread, a message of at most 232 code
    units, and exactly the tags DeFi, crypto and data: the symbol and
    the chain of the payload are collected but never returned. *)
Theorem generateTwitterContent_single (d : value) (ct : contentType)
    (c : SocialContent) :
  ct <> Thread ->
  generateTwitterContent d ct = Ret c ->
  tags c = [VStr (lit "DeFi"); VStr (lit "crypto"); VStr (lit "data")] /\
  thread c = None /\
  (length (message c) <= 232)%nat.
Proof.
  intros Hct Hret. unfold generateTwitterContent in Hret.
  destruct ct; [| | destruct (Hct eq_refl)];
    bind_inv Hret; apply Ret_inj in Hret; subst c;
    lazy beta iota delta [message tags thread];
    (split; [| split; [reflexivity | apply ensureTwitterLength_three]]);
    destruct (twitter_tags_shape (get_opt x (lit "symbol")) x0)
      as (extra & -> & _); reflexivity.
Qed.

Lemma ranked_entry_throws (d : value) (field : list N) (i : nat)
    (key : list N) (e : exn) :
  ranked_entry d field i key = Throw e -> e = type_error.
Proof.
  unfold ranked_entry.
  destruct (get_prop d field) as [arr|e'] eqn:E1; cbn [bind].
  2: { destruct d; simpl in E1; try discriminate E1;
       injection E1 as <-; intros E; injection E as <-; reflexivity. }
  destruct (get_index arr i) as [entry|e'] eqn:E2; cbn [bind].
  2: { destruct arr; simpl in E2; try discriminate E2;
       injection E2 as <-; intros E; injection E as <-; reflexivity. }
  destruct (get_prop entry key) as [label|e'] eqn:E3; cbn [bind].
  2: { destruct entry; simpl in E3; try discriminate E3;
       injection E3 as <-; intros E; injection E as <-; reflexivity. }
  destruct (get_prop entry (lit "tvl")) as [tvl|e'] eqn:E4; cbn [bind].
  2: { destruct entry; simpl in E4; try discriminate E4;
       injection E4 as <-; intros E; injection E as <-; reflexivity. }
  discriminate.
Qed.

Lemma ranked_entry_past_end (d : value) (field : list N) (i : nat)
    (key : list N) (xs : list value) :
  is_nullish d = false -> get_opt d field = VArr xs ->
  (length xs <= i)%nat ->
  ranked_entry d field i key = Throw type_error.
Proof.
  intros Hd Harr Hlen. unfold ranked_entry.
  rewrite (get_prop_defined d field Hd), Harr. cbn [bind get_index].
  rewrite nth_overflow by exact Hlen. reflexivity.
Qed.

(** The result of two steps of which the second one throws a
    TypeError. *)
Lemma bind_then_throws {A B} (m : outcome A) (k : A -> outcome B) :
  (forall e, m = Throw e -> e = type_error) ->
  (forall a, k a = Throw type_error) ->
  bind m k = Throw type_error.
Proof.
  intros Hm Hk. destruct m as [a|e]; cbn [bind]; [apply Hk |].
  rewrite (Hm e eq_refl). reflexivity.
Qed.
End TwitterContent.

(** The ETH snapshot as a short tweet: the symbol is in the message and
    not among the tags. *)
Lemma generateTwitterContent_single_witness :
  exists c,
    generateTwitterContent (lib := ascii_lib) eth_snapshot Short = Ret c /\
    message c
      = lit "ETH is trading at $2500.1235 (-1.50%). Check out our analysis! " /\
    tags c = [VStr (lit "DeFi"); VStr (lit "crypto"); VStr (lit "data")] /\
    thread c = None /\
    (length (message c) <= 232)%nat.
Proof.
  eexists. split; [vm_compute; reflexivity |]. split; [reflexivity |].
  apply (generateTwitterContent_single (lib := ascii_lib) eth_snapshot Short);
    [discriminate | vm_compute; reflexivity].
Defined.

Section TwitterThread.
Context {lib : EcmaLib}.

(** The posts between the hook and the call to action. *)
Lemma twitter_thread_middle (d token : value) (posts : list (list N)) :
  (if truthy token then
     do symbol <- get_prop token (lit "symbol");
     do usd <- field2 d (lit "price") (lit "usd");
     do p6 <- call_toFixed usd 6;
     do change <- field2 d (lit "price") (lit "change24h");
     do c2 <- call_toFixed change 2;
     let t1 := to_string symbol ++ lit " is trading at $" ++ p6
               ++ lit " with " ++ plus_sign change ++ c2
               ++ lit "% 24h change" in
     do vol <- field2 d (lit "volume") (lit "usd24h");
     let t2 := lit "Trading volume: $" ++ scaled vol num_1e6
               ++ lit "M in the last 24 hours" in
     do cap <- get_prop d (lit "marketCap");
     do liq <- field2 d (lit "liquidity") (lit "usd");
     let t3 := lit "Market cap: $" ++ scaled cap num_1e6
               ++ lit "M with $" ++ scaled liq num_1e6
               ++ lit "M in liquidity" in
     do exchanges <- get_prop d (lit "exchanges");
     do count <-
       (if truthy exchanges then get_prop exchanges (lit "length")
        else Ret (VStr (lit "multiple")));
     let t4 := lit "Available on " ++ to_string count
               ++ lit " exchanges" in
     Ret ([twitter_hook] ++ [t1; t2; t3; t4])
   else
     do topProtocols <- get_prop d (lit "topProtocols");
     if truthy topProtocols then
       do p0 <- ranked_entry d (lit "topProtocols") 0 (lit "name");
       do p1 <- ranked_entry d (lit "topProtocols") 1 (lit "name");
       do p2 <- ranked_entry d (lit "topProtocols") 2 (lit "name");
       let posts :=
         [twitter_hook] ++ [lit "Top DeFi protocols by TVL:" ++ nl
                   ++ lit "1. " ++ p0 ++ nl ++ lit "2. " ++ p1 ++ nl
                   ++ lit "3. " ++ p2] in
       do chainsTvl <- get_prop d (lit "chainsTvl");
       do posts <-
         (if truthy chainsTvl then
            do c0 <- ranked_entry d (lit "chainsTvl") 0 (lit "name");
            do c1 <- ranked_entry d (lit "chainsTvl") 1 (lit "name");
            Ret (posts ++ [lit "Blockchain TVL distribution:" ++ nl
                           ++ lit "1. " ++ c0 ++ nl ++ lit "2. " ++ c1])
          else Ret posts);
       do categoryDistribution <-
         get_prop d (lit "categoryDistribution");
       if truthy categoryDistribution then
         do g0 <- ranked_entry d (lit "categoryDistribution") 0
                    (lit "category");
         do g1 <- ranked_entry d (lit "categoryDistribution") 1
                    (lit "category");
         Ret (posts ++ [lit "DeFi category breakdown:" ++ nl
                        ++ lit "1. " ++ g0 ++ nl ++ lit "2. " ++ g1])
       else Ret posts
     else Ret [twitter_hook]) = Ret posts ->
  exists middle,
    posts = twitter_hook :: middle /\ (length middle <= 4)%nat.
Proof.
  intros Hret. destruct (truthy token).
  - bind_inv Hret. apply Ret_inj in Hret. subst posts.
    eexists. split; [reflexivity | simpl; lia].
  - bind_inv Hret. destruct (truthy x).
    + bind_inv Hret.
      assert (Hx4 : exists m3, x4 = twitter_hook :: m3 /\ (length m3 <= 2)%nat).
      { destruct (truthy x3).
        - bind_inv E4. apply Ret_inj in E4. subst x4.
          eexists. split; [reflexivity | simpl; lia].
        - apply Ret_inj in E4. subst x4.
          eexists. split; [reflexivity | simpl; lia]. }
      destruct Hx4 as (m3 & -> & Hm3).
      destruct (truthy x5).
      * bind_inv Hret. apply Ret_inj in Hret. subst posts.
        eexists. split; [reflexivity |].
        rewrite length_app. simpl. lia.
      * apply Ret_inj in Hret. subst posts.
        eexists. split; [reflexivity | lia].
    + apply Ret_inj in Hret. subst posts.
      exists []. split; [reflexivity | simpl; lia].
Qed.

(** X12. A thread of [generateTwitterContent]: the message is the hook
    and is the first post of the thread, at most four posts follow it,
    and the last post is the call to action with the hashtags of the
    first three default tags; the tags returned are the four defaults
    followed by the symbol and the chain of the payload where set. *)
Theorem generateTwitterContent_thread (d : value) (c : SocialContent) :
  generateTwitterContent d Thread = Ret c ->
  exists middle extra,
    thread c
      = Some (message c :: middle
              ++ [twitter_call_to_action ++ lit "#DeFi #crypto #data"]) /\
    message c = twitter_hook /\
    (length middle <= 4)%nat /\
    tags c = twitter_default_tags ++ extra /\
    (length extra <= 2)%nat.
Proof.
  intros Hret. unfold generateTwitterContent in Hret.
  bind_inv Hret. apply Ret_inj in Hret. subst c.
  apply twitter_thread_middle in E1 as (middle & -> & Hmiddle).
  destruct (twitter_tags_shape (get_opt x (lit "symbol")) x0)
    as (extra & Hextra & Hlen).
  rewrite Hextra in E2 |- *.
  rewrite formatTwitterTags_defaults in E2. apply Ret_inj in E2. subst x2.
  exists middle, extra.
  lazy beta iota delta [message tags thread].
  repeat split; try assumption; reflexivity.
Qed.

(** X13. A payload with a token and without a price cannot be turned
    into a tweet: with [data.token] set and [data.price] absent or
    [null], [generateTwitterContent] throws a TypeError for every
    content type, where [generateSocialContent] writes a price of
    zero. *)
Theorem generateTwitterContent_needs_price (d : value) (ct : contentType) :
  is_nullish d = false ->
  truthy (get_opt d (lit "token")) = true ->
  is_nullish (get_opt d (lit "price")) = true ->
  generateTwitterContent d ct = Throw type_error.
Proof.
  intros Hd Htoken Hprice. unfold generateTwitterContent.
  rewrite (get_prop_defined d (lit "token") Hd). cbn [bind].
  rewrite (get_prop_defined d (lit "chain") Hd). cbn [bind].
  rewrite Htoken.
  rewrite (get_prop_defined (get_opt d (lit "token")) (lit "symbol")
             (truthy_defined _ Htoken)).
  cbn [bind]. unfold field2.
  rewrite (get_prop_defined d (lit "price") Hd). cbn [bind].
  destruct (get_opt d (lit "price")); try discriminate Hprice;
    destruct ct; reflexivity.
Qed.

(** X14. A market payload needs one protocol for a short tweet, two for
    a detailed one and three for a thread: with [data.token] falsy and
    fewer entries in the array [data.topProtocols],
    [generateTwitterContent] throws a TypeError. *)
Theorem generateTwitterContent_few_protocols (d : value) (ct : contentType)
    (xs : list value) :
  is_nullish d = false ->
  truthy (get_opt d (lit "token")) = false ->
  get_opt d (lit "topProtocols") = VArr xs ->
  (length xs < match ct with Short => 1 | Detailed => 2 | Thread => 3 end)%nat ->
  generateTwitterContent d ct = Throw type_error.
Proof.
  intros Hd Htoken Hprotocols Hlen. unfold generateTwitterContent.
  rewrite (get_prop_defined d (lit "token") Hd). cbn [bind].
  rewrite (get_prop_defined d (lit "chain") Hd). cbn [bind].
  rewrite Htoken.
  rewrite (get_prop_defined d (lit "topProtocols") Hd). cbn [bind].
  rewrite Hprotocols. cbn [truthy].
  destruct ct.
  - destruct xs as [|x xs]; [reflexivity | simpl in Hlen; lia].
  - rewrite (bind_then_throws
               (ranked_entry d (lit "topProtocols") 0 (lit "name")));
      [reflexivity | apply ranked_entry_throws |].
    intros e0.
    rewrite (ranked_entry_past_end d (lit "topProtocols") 1 (lit "name") xs)
      by (try assumption; lia).
    reflexivity.
  - rewrite (bind_then_throws
               (ranked_entry d (lit "topProtocols") 0 (lit "name")));
      [reflexivity | apply ranked_entry_throws |].
    intros e0.
    rewrite (bind_then_throws
               (ranked_entry d (lit "topProtocols") 1 (lit "name")));
      [reflexivity | apply ranked_entry_throws |].
    intros e1.
    rewrite (ranked_entry_past_end d (lit "topProtocols") 2 (lit "name") xs)
      by (try assumption; lia).
    reflexivity.
Qed.
End TwitterThread.

(** The thread for a payload with a chain and nothing else: the hook, the
    call to action, and the chain among the tags. *)
Lemma generateTwitterContent_thread_witness :
  exists c,
    generateTwitterContent (lib := ascii_lib)
      (VObj [(lit "chain", VStr (lit "solana"))]) Thread = Ret c /\
    thread c
      = Some [twitter_hook; twitter_call_to_action ++ lit "#DeFi #crypto #data"] /\
    message c = twitter_hook /\
    tags c = twitter_default_tags ++ [VStr (lit "solana")].
Proof.
  eexists. split; [vm_compute; reflexivity |].
  destruct (generateTwitterContent_thread (lib := ascii_lib)
              (VObj [(lit "chain", VStr (lit "solana"))]) _ eq_refl)
    as (middle & extra & _ & Hmessage & _).
  split; [reflexivity |]. split; [exact Hmessage | reflexivity].
Defined.

(** [{token: {symbol: "ETH"}}]: a tweet cannot be written, the social
    content can. *)
Lemma generateTwitterContent_needs_price_witness :
  let d := VObj [(lit "token", VObj [(lit "symbol", VStr (lit "ETH"))])] in
  generateTwitterContent (lib := ascii_lib) d Short = Throw type_error /\
  exists c, generateSocialContent (lib := ascii_lib) d twitter Short = Ret c.
Proof.
  intros d. split.
  - apply (generateTwitterContent_needs_price (lib := ascii_lib) d Short);
      reflexivity.
  - eexists. vm_compute. reflexivity.
Defined.

(** Two protocols are enough for a detailed tweet and not for a thread. *)
Lemma generateTwitterContent_few_protocols_witness :
  let p name_text :=
    VObj [(lit "name", VStr name_text); (lit "tvl", VNum (num_of_Z 2000000000))] in
  let d := VObj [(lit "topProtocols", VArr [p (lit "Lido"); p (lit "Aave")])] in
  generateTwitterContent (lib := ascii_lib) d Thread = Throw type_error /\
  exists c, generateTwitterContent (lib := ascii_lib) d Detailed = Ret c.
Proof.
  intros p d. split.
  - apply (generateTwitterContent_few_protocols (lib := ascii_lib) d Thread
             [p (lit "Lido"); p (lit "Aave")]);
      [reflexivity | reflexivity | reflexivity | simpl; lia].
  - eexists. vm_compute. reflexivity.
Defined.

(** ** Saving, loading and cleaning up artifacts *)

Section KeepsBrowsers.
Context {lib : EcmaLib} {H : Type} {host_ops : Host H}.

Lemma keeps_ret {A} (a : A) : keeps_browsers (H := H) (io_ret a).
Proof. intros w. split; reflexivity. Qed.

Lemma keeps_throw {A} (e : exn) : keeps_browsers (H := H) (A := A) (io_throw e).
Proof. intros w. split; reflexivity. Qed.

Lemma keeps_pure {A} (r : outcome A) : keeps_browsers (H := H) (pure_outcome r).
Proof. intros w. split; reflexivity. Qed.

Lemma keeps_host_op {A} (f : H -> H * outcome A) : keeps_browsers (host_op f).
Proof. intros w. unfold host_op. destruct (f (host w)). split; reflexivity. Qed.

Lemma keeps_host_read {A} (f : H -> A) : keeps_browsers (host_read f).
Proof. intros w. split; reflexivity. Qed.

Lemma keeps_bind {A B} (m : io H A) (k : A -> io H B) :
  keeps_browsers m -> (forall a, keeps_browsers (k a)) ->
  keeps_browsers (io_bind m k).
Proof.
  intros Hm Hk w. unfold io_bind. destruct (Hm w) as [Hl Ho].
  destruct (m w) as [w1 [a|e]]; simpl in *.
  - destruct (Hk a w1) as [Hl' Ho']. rewrite Hl', Ho'. split; assumption.
  - split; assumption.
Qed.

Lemma keeps_try_catch {A} (body : io H A) (handler : exn -> io H A) :
  keeps_browsers body -> (forall e, keeps_browsers (handler e)) ->
  keeps_browsers (try_catch body handler).
Proof.
  intros Hm Hk w. unfold try_catch. destruct (Hm w) as [Hl Ho].
  destruct (body w) as [w1 [a|e]]; simpl in *.
  - split; assumption.
  - destruct (Hk e w1) as [Hl' Ho']. rewrite Hl', Ho'. split; assumption.
Qed.
End KeepsBrowsers.

(** Proves [keeps_browsers] for a computation built from the combinators
    without [launch] and [close]. *)
Ltac keeps :=
  repeat first
    [ apply keeps_ret | apply keeps_throw | apply keeps_pure
    | apply keeps_host_op | apply keeps_host_read
    | apply keeps_bind; [| intros ?]
    | apply keeps_try_catch; [| intros ?]
    | match goal with
      | |- keeps_browsers (match ?x with _ => _ end) => destruct x
      | |- keeps_browsers (if ?b then _ else _) => destruct b
      end ].

Section ArtifactProperties.
Context {lib : EcmaLib} {H : Type} {host_ops : Host H}.

Lemma keeps_upload (action : option Action) (outputPath fullFilename : list N) :
  keeps_browsers (H := H) (upload action outputPath fullFilename).
Proof. unfold upload. keeps. Qed.

Lemma keeps_cleanupFiles (paths : list (list N)) :
  keeps_browsers (H := H) (cleanupFiles paths).
Proof. induction paths as [|p ps IH]; cbn [cleanupFiles]; keeps. exact IH. Qed.

(** X15. Only PNG output starts a browser: saving as HTML or SVG,
    converting to HTML or SVG, loading a file and cleaning files up end,
    on every exit, with the browsers launched and open as they were. *)
Theorem only_png_starts_a_browser (html_text filename inputPath : list N)
    (fmt outputFormat : format) (action : option Action)
    (paths : list (list N)) :
  (fmt <> png ->
   keeps_browsers (H := H) (saveVisualization html_text filename fmt action)) /\
  (outputFormat <> png ->
   keeps_browsers (H := H) (convertVisualization inputPath outputFormat)) /\
  keeps_browsers (H := H) (loadVisualization inputPath) /\
  keeps_browsers (H := H) (cleanupFiles paths).
Proof.
  split; [| split; [| split]].
  - intros Hfmt. unfold saveVisualization.
    destruct fmt; [| destruct (Hfmt eq_refl) |];
      keeps; try apply keeps_upload; keeps.
  - intros Hfmt. unfold convertVisualization.
    destruct outputFormat; [| destruct (Hfmt eq_refl) |]; keeps.
  - unfold loadVisualization. keeps.
  - apply keeps_cleanupFiles.
Qed.

(** The upload never throws, and what it returns names the local
    file. *)
Lemma upload_returns (action : option Action) (outputPath fullFilename : list N)
    (w : world H) :
  exists w' r,
    upload action outputPath fullFilename w = (w', Ret r) /\
    (no_workspace action -> w' = w /\ r = None) /\
    forall s, r = Some s -> save_success s = true /\ filePath s = outputPath.
Proof.
  unfold upload.
  destruct action as [[[ws|] has_agent has_me]|];
    try (exists w, None; split; [reflexivity |];
         split; [intros _; split; reflexivity | intros s Hs; discriminate Hs]).
  cbn [workspace agent me]. unfold try_catch.
  match goal with
  | |- context [match ?body w with _ => _ end] =>
      destruct (body w) as [w1 [r|e]] eqn:Hbody
  end.
  - exists w1, r. split; [reflexivity |].
    split; [intros Hno; discriminate Hno |].
    intros s ->. revert Hbody.
    unfold io_bind, host_op, pure_outcome, io_ret, io_throw.
    repeat (match goal with
            | |- context [match ?x with _ => _ end] => destruct x
            end; simpl; try discriminate).
    all: intros E; injection E as _ <-; split; reflexivity.
  - exists w1, None. split; [reflexivity |].
    split; [intros Hno; discriminate Hno | intros s Hs; discriminate Hs].
Qed.

(** X16. What [saveVisualization] reports: whenever it returns, the
    result says success and names the file [<filename>.<format>] in the
    directory [output] under the working directory. A failed upload to
    the workspace never fails the save: when the directory exists and
    the HTML file is written, the call returns for every [action]. *)
Theorem saveVisualization_reports_path (html_text filename : list N)
    (fmt : format) (action : option Action) (w : world H) :
  (forall w' r,
     saveVisualization html_text filename fmt action w = (w', Ret r) ->
     save_success r = true /\ filePath r = output_path w filename fmt) /\
  (forall h1,
     fmt = html ->
     fs_existsSync (host w) (output_dir w) = true ->
     fs_writeFileSync (host w) (output_path w filename html) html_text
       = (h1, Ret tt) ->
     exists w' r,
       saveVisualization html_text filename fmt action w = (w', Ret r)).
Proof.
  split.
  - intros w' r. unfold saveVisualization, output_path, output_dir.
    unfold io_bind at 1 2 3. unfold host_read.
    set (dir := path_resolve (process_cwd (host w)) (lit "output")).
    set (out := path_resolve dir (filename ++ lit "." ++ format_id fmt)).
    destruct ((if negb (fs_existsSync (host w) dir)
               then host_op (fun h => fs_mkdirSync h dir)
               else io_ret tt) w) as [w0 [u|e]]; [| discriminate].
    unfold try_catch.
    match goal with
    | |- context [match ?body w0 with _ => _ end] =>
        destruct (body w0) as [w1 [r1|e]] eqn:Hbody
    end.
    2: { unfold io_throw. discriminate. }
    intros E. injection E as <- <-.
    revert Hbody. unfold io_bind at 1.
    match goal with
    | |- context [match ?first w0 with _ => _ end] =>
        destruct (first w0) as [w2 [u2|e]]
    end; [| discriminate].
    unfold io_bind.
    destruct (upload_returns action out (filename ++ lit "." ++ format_id fmt) w2)
      as (w3 & up & -> & _ & Hup).
    destruct up as [s|]; unfold io_ret; intros E; injection E as _ <-.
    + apply Hup. reflexivity.
    + split; reflexivity.
  - intros h1 -> Hdir Hwrite.
    unfold saveVisualization. unfold output_path, output_dir in *.
    unfold io_bind at 1 2 3. unfold host_read.
    rewrite Hdir. cbn [negb io_ret].
    unfold try_catch, io_bind, host_op. cbn [format_id] in *.
    rewrite Hwrite. cbv beta iota.
    match goal with
    | |- context [upload action ?o ?f ?w2] =>
        destruct (upload_returns action o f w2) as (w3 & up & -> & _ & _)
    end.
    destruct up as [s|]; eexists _, _; reflexivity.
Qed.
End ArtifactProperties.

(** Saving as HTML on the scripted host: no browser is launched. *)
Lemma only_png_starts_a_browser_witness :
  launched (fst (saveVisualization (lib := ascii_lib) (lit "<html></html>")
                   (lit "chart") html None (start with_output_dir))) = 0%nat.
Proof.
  destruct (proj1 (only_png_starts_a_browser (lib := ascii_lib) (H := scripted)
                     (lit "<html></html>") (lit "chart") [] html html None [])
              ltac:(discriminate) (start with_output_dir)) as [Hlaunched _].
  exact Hlaunched.
Defined.

(** Saving as HTML with a workspace on the scripted host. *)
Lemma saveVisualization_reports_path_witness :
  exists w' r,
    saveVisualization (lib := ascii_lib) (lit "<html></html>") (lit "chart")
      html (Some with_workspace) (start with_output_dir) = (w', Ret r) /\
    save_success r = true /\
    filePath r = lit "/app/output/chart.html".
Proof.
  destruct (saveVisualization_reports_path (lib := ascii_lib) (H := scripted)
              (lit "<html></html>") (lit "chart") html (Some with_workspace)
              (start with_output_dir)) as [Hpath Hreturns].
  destruct (Hreturns
              (with_files with_output_dir
                 (<[lit "/app/output/chart.html" := lit "<html></html>"]>
                    (files with_output_dir)))
              eq_refl eq_refl eq_refl) as (w' & r & Hrun).
  exists w', r. split; [exact Hrun |]. exact (Hpath w' r Hrun).
Defined.

Section ArtifactErrors.
Context {lib : EcmaLib} {H : Type} {host_ops : Host H}.


(** X18. Saving as SVG a document without an [svg] element, with the
    output directory in place: the call throws [Failed to save as svg:
    No SVG content found in the HTML] and leaves the world as it was, no
    file written and nothing uploaded. *)
Theorem saveVisualization_svg_missing (html_text filename : list N)
    (action : option Action) (w : world H) :
  fs_existsSync (host w) (output_dir w) = true ->
  match_svg html_text = None ->
  saveVisualization html_text filename svg action w
    = (w, Throw (JsError (lit "Failed to save as svg: No SVG content found in the HTML"))).
Proof.
  intros Hdir Hsvg. unfold saveVisualization, output_dir in *.
  unfold io_bind at 1 2 3. unfold host_read. rewrite Hdir.
  cbn [negb io_ret]. unfold try_catch, io_bind. rewrite Hsvg.
  reflexivity.
Qed.

(** X19. A conversion that is not implemented (anything but HTML to SVG,
    HTML to PNG and SVG to PNG, the extension compared in lower case)
    throws [Failed to convert visualization: Unsupported conversion:
    <extension> to <format>] and leaves the world as it was. *)
Theorem convertVisualization_unsupported (inputPath : list N)
    (outputFormat : format) (w : world H) :
  let inputExt := to_lower_case (drop 1 (path_extname inputPath)) in
  forallb is_word_char inputExt = true ->
  inputExt <> format_id outputFormat ->
  supported_conversion inputExt outputFormat = false ->
  convertVisualization inputPath outputFormat w
    = (w, Throw (JsError (lit "Failed to convert visualization: "
                          ++ lit "Unsupported conversion: " ++ inputExt
                          ++ lit " to " ++ format_id outputFormat))).
Proof.
  intros inputExt Hword Hne Hsupported.
  unfold convertVisualization, replace_extension. fold inputExt.
  rewrite Hword. unfold io_bind at 1. unfold pure_outcome.
  rewrite (bool_decide_eq_false_2 _ Hne).
  unfold supported_conversion in Hsupported.
  apply orb_false_elim in Hsupported as [Hhtml Hsvg].
  unfold try_catch, io_bind.
  destruct (bool_decide (inputExt = lit "html")).
  - destruct outputFormat; try discriminate Hhtml. reflexivity.
  - destruct (bool_decide (inputExt = lit "svg")).
    + destruct outputFormat; try discriminate Hsvg; reflexivity.
    + reflexivity.
Qed.


(** X21. Saving and loading round-trip. On a host whose file system
    reads a written file back as written, a document saved as HTML
    without a workspace is what [loadVisualization] returns for the
    reported path. *)
Theorem save_then_load (html_text filename : list N)
    (action : option Action) (w w1 : world H) (r : SaveResult) :
  reads_back_writes H ->
  no_workspace action ->
  saveVisualization html_text filename html action w = (w1, Ret r) ->
  loadVisualization (filePath r) w1 = (w1, Ret html_text).
Proof.
  intros Hlaw Hno. unfold saveVisualization.
  unfold io_bind at 1 2 3. unfold host_read.
  set (dir := path_resolve (process_cwd (host w)) (lit "output")).
  set (out := path_resolve dir (filename ++ lit "." ++ format_id html)).
  destruct ((if negb (fs_existsSync (host w) dir)
             then host_op (fun h => fs_mkdirSync h dir)
             else io_ret tt) w) as [w0 [u|e]]; [| discriminate].
  unfold try_catch, io_bind, host_op.
  destruct (fs_writeFileSync (host w0) out html_text) as [h1 [[]|e]] eqn:Hwrite;
    [| discriminate].
  match goal with
  | |- context [upload action ?o ?f ?w2] =>
      destruct (upload_returns action o f w2) as (w3 & up & -> & Hnone & _)
  end.
  destruct (Hnone Hno) as [-> ->].
  unfold io_ret. intros E. injection E as <- <-.
  unfold loadVisualization, try_catch, host_op. cbn [filePath host].
  rewrite (Hlaw _ _ _ _ Hwrite). reflexivity.
Qed.

(** X22. The [distributeToSocial] capability fails only when the image
    cannot be saved: it then throws [Failed to distribute
    visualization: ] followed by the text of the exception of
    [saveVisualization]. Once the image is saved it returns a result
    with an entry for exactly the requested platforms, whatever happens
    while posting. *)
Theorem distributeToSocial_capability_fails_only_on_save
    (html_text : list N) (platforms : list Platform) (msg : list N)
    (tag_list : option (list (list N))) (fmt : format)
    (action : option Action) (w : world H) :
  (forall w1 e,
     saveVisualization html_text (lit "temp-visualization") fmt action w
       = (w1, Throw e) ->
     distributeToSocial_capability html_text platforms msg tag_list fmt
       action w
       = (w1, Throw (JsError (lit "Failed to distribute visualization: "
                              ++ error_text e)))) /\
  (forall w1 image,
     saveVisualization html_text (lit "temp-visualization") fmt action w
       = (w1, Ret image) ->
     exists w2 results,
       distributeToSocial_capability html_text platforms msg tag_list fmt
         action w = (w2, Ret results) /\
       forall k, is_Some (results !! k) <->
                 exists p, p ∈ platforms /\ k = platform_id p).
Proof.
  unfold distributeToSocial_capability, try_catch, io_bind. split.
  - intros w1 e ->. reflexivity.
  - intros w1 image ->. unfold distributeToSocial.
    destruct (post_to_platforms_records (filePath image) msg
                (formatTagsForPlatforms (default [] tag_list) platforms)
                action platforms ∅ w1) as (w2 & results & -> & Hdom).
    exists w2, results. split; [reflexivity |].
    intros k. rewrite Hdom. split.
    + intros [Hk | Hk]; [| exact Hk].
      rewrite lookup_empty in Hk. destruct Hk as [? Hk]. discriminate Hk.
    + intros Hk. right. exact Hk.
Qed.
End ArtifactErrors.


Lemma saveVisualization_svg_missing_witness :
  saveVisualization (lib := ascii_lib) (lit "<p>chart</p>") (lit "chart") svg
    (Some with_workspace) (start with_output_dir)
  = (start with_output_dir,
     Throw (JsError (lit "Failed to save as svg: No SVG content found in the HTML"))).
Proof.
  apply (saveVisualization_svg_missing (lib := ascii_lib) (H := scripted));
    reflexivity.
Defined.

(** A PNG cannot be converted to SVG. *)
Lemma convertVisualization_unsupported_witness :
  convertVisualization (lib := ascii_lib) chart_png svg (start two_replies)
  = (start two_replies,
     Throw (JsError (lit "Failed to convert visualization: Unsupported conversion: png to svg"))).
Proof.
  exact (convertVisualization_unsupported (lib := ascii_lib) (H := scripted)
           chart_png svg (start two_replies) eq_refl
           ltac:(discriminate) eq_refl).
Defined.

Lemma scripted_reads_back_writes : reads_back_writes scripted.
Proof.
  intros h h' p c E. simpl in E. injection E as <-.
  simpl. rewrite lookup_insert_eq. reflexivity.
Qed.

(** A document saved as [chart.html] and loaded again on the scripted
    host. *)
Lemma save_then_load_witness :
  exists w1 r,
    saveVisualization (lib := ascii_lib) (lit "<html></html>") (lit "chart")
      html None (start with_output_dir) = (w1, Ret r) /\
    loadVisualization (lib := ascii_lib) (filePath r) w1
      = (w1, Ret (lit "<html></html>")).
Proof.
  eexists _, _. split; [vm_compute; reflexivity |].
  apply (save_then_load (lib := ascii_lib) (H := scripted)
           (lit "<html></html>") (lit "chart") None (start with_output_dir));
    [exact scripted_reads_back_writes | exact I | vm_compute; reflexivity].
Defined.

(** The capability on the scripted host without an output directory
    entry for the image: the image is saved, and both platforms have an
    entry. *)
Lemma distributeToSocial_capability_fails_only_on_save_witness :
  exists w2 results,
    distributeToSocial_capability (lib := ascii_lib) (lit "<html></html>")
      [twitter; telegram] (lit "TVL is up") None html None
      (start with_output_dir) = (w2, Ret results) /\
    is_Some (results !! lit "twitter") /\
    is_Some (results !! lit "telegram").
Proof.
  edestruct (proj2 (distributeToSocial_capability_fails_only_on_save
                      (lib := ascii_lib) (H := scripted) (lit "<html></html>")
                      [twitter; telegram] (lit "TVL is up") None html None
                      (start with_output_dir)))
    as (w2 & results & Hrun & Hdom); [vm_compute; reflexivity |].
  exists w2, results. split; [exact Hrun |]. split.
  - apply Hdom. exists twitter. split; [left | reflexivity].
  - apply Hdom. exists telegram. split; [right; left | reflexivity].
Defined.

(** ** Campaign content *)

Section CampaignContent.
Context {lib : EcmaLib}.

Lemma token_content_single (d token : value) (ct : contentType)
    (tgs : list value) (r : list N + SocialContent) :
  ct <> Thread ->
  token_content d token ct tgs = Ret r -> exists msg, r = inl msg.
Proof.
  intros Hct. unfold token_content, opt_field. intros Hret.
  destruct ct; [| | destruct (Hct eq_refl)];
    bind_inv Hret; apply Ret_inj in Hret; subst r; eauto.
Qed.

(** What the three branches of [generateSocialContent] leave for the
    end of the function. *)
Lemma generateSocialContent_shape (d : value) (p : Platform)
    (ct : contentType) (c : SocialContent) :
  generateSocialContent d p ct = Ret c ->
  extractDefaultTags d = Ret (tags c) /\
  (is_Some (thread c) <-> ct = Thread).
Proof.
  unfold generateSocialContent. intros Hret. bind_inv Hret.
  assert (Hdec : ct = Thread \/ ct <> Thread)
    by (destruct ct; [right; discriminate | right; discriminate | left; reflexivity]).
  destruct Hdec as [-> | Hct].
  - assert (Hbranch : exists c', x1 = inr c' /\ tags c' = x
                                 /\ is_Some (thread c')).
    { destruct (truthy x0).
      - unfold token_content, opt_field in E1. bind_inv E1.
        apply Ret_inj in E1. subst x1.
        eexists. split; [reflexivity |]. split; [reflexivity | eexists; reflexivity].
      - bind_inv E1. destruct (truthy (or_else x2 x3));
          apply Ret_inj in E1; subst x1;
          (eexists; split; [reflexivity |];
           split; [reflexivity | eexists; reflexivity]). }
    destruct Hbranch as (c' & -> & Htags & Hthread).
    apply Ret_inj in Hret. subst c'. rewrite Htags.
    split; [exact E | split; [reflexivity | intros _; exact Hthread]].
  - assert (Hbranch : exists msg, x1 = inl msg).
    { destruct (truthy x0).
      - apply (token_content_single _ _ _ _ _ Hct E1).
      - bind_inv E1. destruct (truthy (or_else x2 x3));
          apply Ret_inj in E1; subst x1; destruct ct;
          try (destruct (Hct eq_refl)); eexists; reflexivity. }
    destruct Hbranch as (msg & ->).
    apply Ret_inj in Hret. subst c. lazy beta iota delta [tags thread].
    split; [exact E |].
    destruct ct; try (destruct (Hct eq_refl));
      (split; [intros [? Hsome]; discriminate Hsome | intros E'; discriminate E']).
Qed.

(** X23. The tags of [generateSocialContent] are those of
    [extractDefaultTags] for the same payload, for every platform and
    content type: at most ten, without duplicates. *)
Theorem generateSocialContent_tags (d : value) (p : Platform)
    (ct : contentType) (c : SocialContent) :
  generateSocialContent d p ct = Ret c ->
  extractDefaultTags d = Ret (tags c) /\
  (length (tags c) <= max_tags)%nat /\
  NoDup (tags c).
Proof.
  intros Hret. apply generateSocialContent_shape in Hret as [Htags _].
  split; [exact Htags |].
  unfold extractDefaultTags in Htags. bind_inv Htags.
  apply Ret_inj in Htags. rewrite <- Htags. split.
  - rewrite length_take. unfold max_tags. lia.
  - apply (sublist_NoDup (take 10 (new_Set x)) (new_Set x));
      [apply new_Set_NoDup | apply sublist_take].
Qed.

(** The inner loop of [createSocialCampaign] for one platform: one
    entry for each visualization, in order, named by the title of the
    visualization and pointing to its PNG. The entries carry a thread
    exactly when threads were asked for and the platform is twitter. *)
Lemma contents_for_entries (p : Platform) (includeThread : bool)
    (vs : list Visualization) (cs : list CampaignContent) :
  contents_for p includeThread vs = Ret cs ->
  List.map visualization cs = List.map title vs /\
  List.map imagePath cs = List.map pngPath vs /\
  Forall (fun entry =>
            is_Some (thread (content entry))
            <-> includeThread = true /\ p = twitter) cs.
Proof.
  revert cs. induction vs as [|viz vs IH]; intros cs; cbn [contents_for].
  - intros Hret. apply Ret_inj in Hret. subst cs.
    split; [reflexivity |]. split; [reflexivity | apply Forall_nil_2].
  - intros Hret. bind_inv Hret. apply Ret_inj in Hret. subst cs.
    destruct (IH x0 E0) as (Htitles & Hpaths & Hthreads).
    cbn [List.map visualization imagePath]. rewrite Htitles, Hpaths.
    split; [reflexivity |]. split; [reflexivity |].
    apply Forall_cons. split; [| exact Hthreads].
    cbn [content].
    apply generateSocialContent_shape in E as [_ Hshape].
    rewrite Hshape.
    destruct includeThread; simpl.
    + destruct (decide (p = twitter)) as [-> | Hne].
      * rewrite bool_decide_eq_true_2 by reflexivity. tauto.
      * rewrite (bool_decide_eq_false_2 _ Hne). split; [discriminate |].
        intros [_ E']. destruct (Hne E').
    + split; [discriminate | intros [E' _]; discriminate E'].
Qed.
End CampaignContent.

Section CampaignShape.
Context {lib : EcmaLib} {H : Type} {host_ops : Host H}.

Lemma platform_contents_spec (platforms : list Platform)
    (includeThread : bool) (vs : list Visualization) :
  forall acc pc,
    platform_contents platforms includeThread vs acc = Ret pc ->
    (forall p, p ∈ platforms ->
       exists cs, pc !! platform_id p = Some cs /\
                  contents_for p includeThread vs = Ret cs) /\
    (forall k, (forall p, p ∈ platforms -> k <> platform_id p) ->
       pc !! k = acc !! k).
Proof.
  induction platforms as [|q ps IH]; intros acc pc; cbn [platform_contents].
  - intros Hret. apply Ret_inj in Hret. subst pc.
    split; [intros p Hp; inversion Hp | reflexivity].
  - intros Hret. apply bind_Ret_inv in Hret as (contents & Hq & Hret).
    destruct (IH _ _ Hret) as [Hin Hout]. split.
    + intros p Hp.
      destruct (decide (p ∈ ps)) as [Hps | Hps]; [apply Hin, Hps |].
      apply elem_of_cons in Hp as [-> | Hp]; [| destruct (Hps Hp)].
      exists contents. split; [| exact Hq].
      rewrite Hout; [apply lookup_insert_eq |].
      intros p Hp E. apply platform_id_inj in E. subst p. exact (Hps Hp).
    + intros k Hk. rewrite Hout.
      * apply lookup_insert_ne. intros E. apply (Hk q); [left | symmetry; exact E].
      * intros p Hp. apply Hk. right. exact Hp.
Qed.

(** X24. A campaign that [createSocialCampaign] returns has the topic it
    was asked for and content for exactly the requested platforms; for
    each of them there is one entry per visualization, in order, named
    by the title of the visualization and pointing to its PNG, with a
    thread exactly when threads were asked for and the platform is
    twitter. An exception that leaves the call is an [Error] whose
    message starts with [Failed to create social campaign: ]. *)
Theorem createSocialCampaign_contents
    (gather : list N -> list (list N) -> io H (list Visualization))
    (topic_text : list N) (platforms : list Platform)
    (visualizationTypes : list (list N)) (postCount : Z)
    (includeThread : bool) (w : world H) :
  (forall w' c,
     createSocialCampaign gather topic_text platforms visualizationTypes
       postCount includeThread w = (w', Ret c) ->
     topic c = topic_text /\
     (forall k, is_Some (platformContent c !! k) <->
                exists p, p ∈ platforms /\ k = platform_id p) /\
     (forall p, p ∈ platforms ->
        exists cs,
          platformContent c !! platform_id p = Some cs /\
          List.map (fun entry => (visualization entry, imagePath entry)) cs
            = List.map (fun v => (snd (fst (fst v)), snd v))
                (visualizations c) /\
          Forall (fun entry =>
                    is_Some (thread (content entry))
                    <-> includeThread = true /\ p = twitter) cs)) /\
  (forall w' e,
     createSocialCampaign gather topic_text platforms visualizationTypes
       postCount includeThread w = (w', Throw e) ->
     exists cause,
       e = JsError (lit "Failed to create social campaign: "
                    ++ error_text cause)).
Proof.
  unfold createSocialCampaign, try_catch. split.
  - intros w' c.
    match goal with
    | |- context [match ?body w with _ => _ end] =>
        destruct (body w) as [w1 [c1|e]] eqn:Hbody
    end; [| unfold io_throw; discriminate].
    intros E. injection E as <- <-. revert Hbody.
    unfold io_bind at 1.
    destruct (gather topic_text visualizationTypes w) as [w2 [vs|e]];
      [| discriminate].
    unfold io_bind at 1. unfold pure_outcome.
    destruct (platform_contents platforms includeThread vs ∅) as [pc|e] eqn:Hpc;
      [| discriminate].
    unfold io_bind at 1.
    destruct (generatePostSchedule_spec postCount w2)
      as (w3 & schedule & -> & _).
    unfold io_ret. intros E. injection E as _ <-.
    cbn [topic platformContent visualizations].
    destruct (platform_contents_spec _ _ _ _ _ Hpc) as [Hin Hout].
    split; [reflexivity |]. split.
    + intros k. split.
      * intros Hk.
        destruct (decide (k ∈ platform_id <$> platforms)) as [Hex | Hnex].
        { apply list_elem_of_fmap in Hex as (p & -> & Hp).
          exists p. split; [exact Hp | reflexivity]. }
        rewrite Hout in Hk.
        -- rewrite lookup_empty in Hk. destruct Hk as [? Hk]. discriminate Hk.
        -- intros p Hp E. apply Hnex. apply list_elem_of_fmap.
           exists p. split; assumption.
      * intros (p & Hp & ->). destruct (Hin p Hp) as (cs & -> & _). eauto.
    + intros p Hp. destruct (Hin p Hp) as (cs & Hcs & Hrun).
      exists cs. split; [exact Hcs |].
      destruct (contents_for_entries _ _ _ _ Hrun)
        as (Htitles & Hpaths & Hthreads).
      split; [| exact Hthreads].
      rewrite <- list_fmap_compose.
      clear -Htitles Hpaths. revert cs Htitles Hpaths.
      induction vs as [|v vs IH]; intros [|entry cs] Htitles Hpaths;
        try discriminate Htitles; [reflexivity |].
      simpl in *. injection Htitles as -> Htitles.
      injection Hpaths as -> Hpaths.
      rewrite (IH cs Htitles Hpaths). reflexivity.
  - intros w' e.
    match goal with
    | |- context [match ?body w with _ => _ end] =>
        destruct (body w) as [w1 [c1|cause]]
    end; [discriminate |].
    unfold io_throw. intros E. injection E as _ <-. exists cause. reflexivity.
Qed.
End CampaignShape.

(** The tags of the ETH snapshot, for a detailed linkedin post. *)
Lemma generateSocialContent_tags_witness :
  exists c,
    generateSocialContent (lib := ascii_lib) eth_snapshot linkedin Detailed
      = Ret c /\
    extractDefaultTags (lib := ascii_lib) eth_snapshot = Ret (tags c) /\
    (length (tags c) <= max_tags)%nat /\
    NoDup (tags c).
Proof.
  eexists. split; [vm_compute; reflexivity |].
  apply (generateSocialContent_tags (lib := ascii_lib) eth_snapshot linkedin
           Detailed).
  vm_compute. reflexivity.
Defined.

(** The Lido campaign for twitter and linkedin with threads. *)
Lemma createSocialCampaign_contents_witness :
  exists w' c twitter_posts linkedin_posts,
    createSocialCampaign (lib := ascii_lib) one_tvl_chart
      (lit "Ethereum TVL trends") [twitter; linkedin] [lit "tvl-chart"] 3 true
      (start two_replies) = (w', Ret c) /\
    platformContent c !! lit "twitter" = Some twitter_posts /\
    List.map imagePath twitter_posts = [lit "/app/output/tvl-chart_1.png"] /\
    Forall (fun entry => is_Some (thread (content entry))) twitter_posts /\
    platformContent c !! lit "linkedin" = Some linkedin_posts /\
    Forall (fun entry => thread (content entry) = None) linkedin_posts /\
    platformContent c !! lit "telegram" = None.
Proof.
  destruct (createSocialCampaign (lib := ascii_lib) one_tvl_chart
              (lit "Ethereum TVL trends") [twitter; linkedin] [lit "tvl-chart"]
              3 true (start two_replies)) as [w' [c|e]] eqn:Hrun;
    [| vm_compute in Hrun; discriminate Hrun].
  destruct (proj1 (createSocialCampaign_contents (lib := ascii_lib)
                     (H := scripted) one_tvl_chart (lit "Ethereum TVL trends")
                     [twitter; linkedin] [lit "tvl-chart"] 3 true
                     (start two_replies)) w' c Hrun)
    as (_ & Hkeys & Hposts).
  destruct (Hposts twitter ltac:(left)) as (tw & Htw & Hmap_tw & Hthread_tw).
  destruct (Hposts linkedin ltac:(right; left)) as (li & Hli & _ & Hthread_li).
  assert (Hviz : visualizations c
                 = [(lit "tvl-chart", lit "Lido TVL Chart",
                     lit "/app/output/tvl-chart_1.html",
                     lit "/app/output/tvl-chart_1.png")]).
  { vm_compute in Hrun. injection Hrun as _ <-. reflexivity. }
  exists w', c, tw, li.
  split; [reflexivity |]. split; [exact Htw |]. split.
  { rewrite Hviz in Hmap_tw.
    apply (f_equal (List.map snd)) in Hmap_tw.
    rewrite <- list_fmap_compose in Hmap_tw. exact Hmap_tw. }
  split.
  { eapply Forall_impl; [exact Hthread_tw |].
    intros entry Hentry. apply Hentry. split; reflexivity. }
  split; [exact Hli |]. split.
  { eapply Forall_impl; [exact Hthread_li |].
    intros entry Hentry. destruct (thread (content entry)) eqn:Ht; [| reflexivity].
    destruct (proj1 Hentry ltac:(eauto)) as [_ E]. discriminate E. }
  destruct (platformContent c !! lit "telegram") as [cs|] eqn:Htg; [| reflexivity].
  exfalso.
  destruct (proj1 (Hkeys (lit "telegram")) ltac:(rewrite Htg; eauto))
    as (p & Hp & E).
  repeat (apply elem_of_cons in Hp as [-> | Hp]; [discriminate E |]).
  inversion Hp.
Defined.

(** ** Chart data of the market overview *)

Lemma map_outcome_length {A B} (f : A -> outcome B) (xs : list A)
    (ys : list B) :
  map_outcome f xs = Ret ys -> length ys = length xs.
Proof.
  revert ys. induction xs as [|x xs IH]; intros ys; cbn [map_outcome].
  - intros E. apply Ret_inj in E. subst ys. reflexivity.
  - intros E. bind_inv E. apply Ret_inj in E. subst ys.
    simpl. rewrite (IH _ E1). reflexivity.
Qed.

Lemma map_or_empty_length (d : value) (field : list N) (arr : value)
    (f : value -> outcome value) (ys : list value) :
  get_prop d field = Ret arr ->
  MarketOverview.map_or_empty arr f = Ret ys ->
  length ys = MarketOverview.entries d field.
Proof.
  intros Harr Hmap. unfold MarketOverview.entries, get_opt. rewrite Harr.
  destruct arr; simpl in Hmap; try discriminate Hmap;
    try (apply Ret_inj in Hmap; subst ys; reflexivity).
  apply (map_outcome_length _ _ _ Hmap).
Qed.

Lemma colors_from_spec (n : nat) :
  forall (i : nat) (acc : list (list N)),
    MarketOverview.colors_from i n acc
    = acc ++ List.map (fun k => nth (k mod 16) MarketOverview.palette [])
               (seq i n).
Proof.
  induction n as [|n IH]; intros i acc; cbn [MarketOverview.colors_from seq List.map].
  - rewrite app_nil_r. reflexivity.
  - rewrite IH, <- app_assoc. reflexivity.
Qed.

Lemma generateChartColors_lookup (count i : nat) :
  (i < count)%nat ->
  MarketOverview.generateChartColors count !! i
    = Some (nth (i mod 16) MarketOverview.palette []).
Proof.
  intros Hi. unfold MarketOverview.generateChartColors.
  rewrite colors_from_spec, app_nil_l, list_lookup_fmap.
  rewrite (lookup_seq_lt 0 count i Hi). reflexivity.
Qed.

Lemma generateChartColors_length (count : nat) :
  length (MarketOverview.generateChartColors count) = count.
Proof.
  unfold MarketOverview.generateChartColors.
  rewrite colors_from_spec, app_nil_l, length_map. apply length_seq.
Qed.

Lemma with_colors_aligned (count : nat) (ls vs : list value) :
  length vs = length ls -> (length ls <= count)%nat ->
  aligned (MarketOverview.with_colors
             (MarketOverview.generateChartColors count) ls vs).
Proof.
  intros Hvs Hcount. unfold aligned, MarketOverview.with_colors.
  cbn [MarketOverview.labels MarketOverview.values MarketOverview.colors
       MarketOverview.borderColors].
  split; [exact Hvs |]. split.
  - rewrite length_take, generateChartColors_length. lia.
  - split.
    + rewrite length_map, length_take, generateChartColors_length. lia.
    + intros i color Hi. apply lookup_take_Some in Hi as [Hi Hlt].
      rewrite generateChartColors_lookup in Hi by lia.
      injection Hi as <-. split; [reflexivity |].
      rewrite list_lookup_fmap.
      rewrite (proj2 (lookup_take_Some _ _ i
                        (nth (i mod 16) MarketOverview.palette [])));
        [reflexivity |].
      split; [apply generateChartColors_lookup; lia | exact Hlt].
Qed.

(** X25. The chart data of the market overview. Whenever
    [formatDataForCharts] returns, each of the four charts has as many
    labels as the array it is drawn from has entries (none when the array
    is absent), and as many values, colours and border colours as labels;
    the colour of entry [i] is colour [i mod 16] of the palette and its
    border colour is that colour with its first [0.7] replaced by [1]. *)
Theorem formatDataForCharts_aligned (d : value) (c : MarketOverview.Charts) :
  MarketOverview.formatDataForCharts d = Ret c ->
  List.map (fun s => length (MarketOverview.labels s))
    (MarketOverview.all_series c)
  = List.map (MarketOverview.entries d)
      [lit "topTokens"; lit "topProtocols"; lit "chainsTvl";
       lit "categoryDistribution"] /\
  Forall aligned (MarketOverview.all_series c).
Proof.
  unfold MarketOverview.formatDataForCharts. intros Hret.
  bind_inv Hret. apply Ret_inj in Hret. subst c.
  pose proof (map_or_empty_length _ _ _ _ _ E E0) as H0.
  pose proof (map_or_empty_length _ _ _ _ _ E E1) as H1.
  pose proof (map_or_empty_length _ _ _ _ _ E2 E3) as H3.
  pose proof (map_or_empty_length _ _ _ _ _ E2 E4) as H4.
  pose proof (map_or_empty_length _ _ _ _ _ E5 E6) as H6.
  pose proof (map_or_empty_length _ _ _ _ _ E5 E7) as H7.
  pose proof (map_or_empty_length _ _ _ _ _ E8 E9) as H9.
  pose proof (map_or_empty_length _ _ _ _ _ E8 E10) as H10.
  unfold MarketOverview.all_series.
  cbn [MarketOverview.topTokens MarketOverview.topProtocols
       MarketOverview.chainsTvl MarketOverview.categoryDistribution List.map].
  split.
  - unfold MarketOverview.with_colors. cbn [MarketOverview.labels].
    rewrite H0, H3, H6, H9. reflexivity.
  - repeat (apply Forall_cons; split); try apply Forall_nil_2;
      apply with_colors_aligned; lia.
Qed.

(** Two tokens, of which one has no symbol, and one protocol. *)
Lemma formatDataForCharts_aligned_witness :
  let d :=
    VObj [(lit "topTokens",
           VArr [VObj [(lit "baseToken", VObj [(lit "symbol", VStr (lit "ETH"))]);
                       (lit "volume", VObj [(lit "h24", VNum (num_of_Z 5))])];
                 VObj []]);
          (lit "topProtocols",
           VArr [VObj [(lit "name", VStr (lit "Lido"))]])] in
  exists c,
    MarketOverview.formatDataForCharts d = Ret c /\
    MarketOverview.labels (MarketOverview.topTokens c)
      = [VStr (lit "ETH"); VStr (lit "Unknown")] /\
    MarketOverview.borderColors (MarketOverview.topTokens c)
      = [lit "rgba(75, 192, 192, 1)"; lit "rgba(54, 162, 235, 1)"] /\
    Forall aligned (MarketOverview.all_series c).
Proof.
  intros d. eexists. split; [vm_compute; reflexivity |].
  split; [reflexivity |]. split; [reflexivity |].
  apply (formatDataForCharts_aligned d). vm_compute. reflexivity.
Defined.

(** ** Token address resolution *)

Lemma includes_longer (s a b : list N) :
  includes s (a ++ b) = true -> includes s a = true.
Proof.
  rewrite !includes_spec. intros (pre & post & ->).
  exists pre, (b ++ post). rewrite <- app_assoc. reflexivity.
Qed.

Section TokenAddress.
Context {lib : EcmaLib}.

(** X26. [resolveTokenAddress] returns the wrapped-ether contract, the
    wrapped-bitcoin contract or the address it was given, unchanged. A
    name or symbol whose lower-case form contains [eth] and does not
    start with [0x] resolves to wrapped ether on ethereum whatever chain
    was asked for. An address whose lower-case form starts with [0x] and
    does not contain [ether] is never replaced. *)
Theorem resolveTokenAddress_cases (tokenAddress : list N)
    (chain : option (list N)) :
  (fst (resolveTokenAddress tokenAddress chain) = weth_address \/
   fst (resolveTokenAddress tokenAddress chain) = wbtc_address \/
   fst (resolveTokenAddress tokenAddress chain) = tokenAddress) /\
  (includes (to_lower_case tokenAddress) (lit "eth") = true ->
   is_prefix (lit "0x") (to_lower_case tokenAddress) = false ->
   resolveTokenAddress tokenAddress chain = (weth_address, lit "ethereum")) /\
  (is_prefix (lit "0x") (to_lower_case tokenAddress) = true ->
   includes (to_lower_case tokenAddress) (lit "ether") = false ->
   fst (resolveTokenAddress tokenAddress chain) = tokenAddress).
Proof.
  unfold resolveTokenAddress. split; [| split].
  - repeat match goal with
           | |- context [if ?b then _ else _] => destruct b
           end; simpl; auto.
  - intros Heth Hprefix. rewrite Heth, Hprefix. reflexivity.
  - intros Hprefix Hether. rewrite Hprefix, Hether.
    destruct (includes (to_lower_case tokenAddress) (lit "ethereum")) eqn:Hereum.
    { apply (includes_longer _ (lit "ether") (lit "eum")) in Hereum.
      rewrite Hereum in Hether. discriminate Hether. }
    cbn [negb andb orb].
    rewrite !andb_false_r. cbn [andb orb].
    destruct (bool_decide _ && includes _ _); reflexivity.
Qed.
End TokenAddress.

(** [Tether] asked for on the chain [bsc] resolves to wrapped ether on
    ethereum; a contract address is kept. *)
Lemma resolveTokenAddress_cases_witness :
  resolveTokenAddress (lib := ascii_lib) (lit "Tether") (Some (lit "bsc"))
    = (weth_address, lit "ethereum") /\
  fst (resolveTokenAddress (lib := ascii_lib)
         (lit "0xdAC17F958D2ee523a2206206994597C13D831ec7") (Some (lit "ethereum")))
    = lit "0xdAC17F958D2ee523a2206206994597C13D831ec7".
Proof.
  split.
  - apply (proj1 (proj2 (resolveTokenAddress_cases (lib := ascii_lib)
                           (lit "Tether") (Some (lit "bsc")))));
      reflexivity.
  - apply (proj2 (proj2 (resolveTokenAddress_cases (lib := ascii_lib)
                           (lit "0xdAC17F958D2ee523a2206206994597C13D831ec7")
                           (Some (lit "ethereum")))));
      reflexivity.
Defined.

(** ** Token data *)








Section TokenDataProperties.
Context {lib : EcmaLib}.
Variable parse_float : list N -> spec_float.
Variable timestamp : list N.

End TokenDataProperties.


(** ** Number formatting *)

Lemma num_ge_weaken (x : spec_float) (m1 m2 : positive) (e1 e2 : Z) :
  e1 < e2 ->
  num_ge x (S754_finite false m2 e2) = true ->
  num_ge x (S754_finite false m1 e1) = true.
Proof.
  intros He. unfold num_ge, SFleb, SFcompare.
  destruct x as [s|[|]| |[|] m e]; try discriminate; try reflexivity.
  destruct (Z.compare_spec e2 e) as [-> | Hlt | Hgt].
  - intros _. rewrite (proj2 (Z.compare_lt_iff e1 e) He). reflexivity.
  - intros _. rewrite (proj2 (Z.compare_lt_iff e1 e) ltac:(lia)). reflexivity.
  - discriminate.
Qed.

Section NumberFormatting.
Context {lib : EcmaLib}.

(** X28. [formatNumber] on a value that is not a number: the
    comparisons and the divisions coerce it, the last branch calls its
    own [toFixed]. A value that counts as a thousand or more, such as
    the string [1500], is formatted with a suffix; any other one, such
    as the string [500], makes the call throw a TypeError. *)
Theorem formatNumber_coerces_large_only (v : value) :
  is_number v = false ->
  (num_ge (to_number v) num_1e3 = true ->
   exists digits_text suffix,
     formatNumber v = Ret (digits_text ++ suffix) /\
     suffix ∈ [lit "B"; lit "M"; lit "K"]) /\
  (num_ge (to_number v) num_1e3 = false ->
   formatNumber v = Throw type_error).
Proof.
  intros Hv. unfold formatNumber. split.
  - intros Hk.
    destruct (num_ge (to_number v) num_1e9);
      [eexists _, _; split; [reflexivity | left] |].
    destruct (num_ge (to_number v) num_1e6);
      [eexists _, _; split; [reflexivity | right; left] |].
    rewrite Hk. eexists _, _. split; [reflexivity | right; right; left].
  - intros Hk.
    assert (E3 : num_1e3 = S754_finite false 8796093022208000 (-43))
      by reflexivity.
    assert (E6 : num_1e6 = S754_finite false 8589934592000000 (-33))
      by reflexivity.
    assert (E9 : num_1e9 = S754_finite false 8388608000000000 (-23))
      by reflexivity.
    destruct (num_ge (to_number v) num_1e9) eqn:Hb.
    { rewrite E9 in Hb.
      apply (num_ge_weaken _ 8796093022208000 _ (-43)) in Hb; [| lia].
      rewrite <- E3, Hk in Hb. discriminate Hb. }
    destruct (num_ge (to_number v) num_1e6) eqn:Hm.
    { rewrite E6 in Hm.
      apply (num_ge_weaken _ 8796093022208000 _ (-43)) in Hm; [| lia].
      rewrite <- E3, Hk in Hm. discriminate Hm. }
    rewrite Hk. destruct v; try reflexivity. discriminate Hv.
Qed.
End NumberFormatting.

(** The strings [1500] and [500]. *)
Lemma formatNumber_coerces_large_only_witness :
  formatNumber (lib := ascii_lib) (VStr (lit "1500")) = Ret (lit "1.50K") /\
  formatNumber (lib := ascii_lib) (VStr (lit "500")) = Throw type_error.
Proof.
  split; [vm_compute; reflexivity |].
  apply (proj2 (formatNumber_coerces_large_only (lib := ascii_lib)
                  (VStr (lit "500")) eq_refl)).
  vm_compute. reflexivity.
Defined.

Lemma num_ge_positive_abs (x : spec_float) (m : positive) (e : Z) :
  num_ge x (S754_finite false m e) = true -> SFabs x = x.
Proof.
  unfold num_ge, SFleb, SFcompare.
  destruct x as [[|]|[|]| |[|] m' e']; try discriminate; reflexivity.
Qed.

Lemma num_ge_abs_same (x : spec_float) (m : positive) (e : Z) :
  num_ge x num_0 = true \/ num_ge (SFabs x) (S754_finite false m e) = false ->
  num_ge (SFabs x) (S754_finite false m e) = num_ge x (S754_finite false m e).
Proof.
  intros [Hpos | Hsmall].
  - destruct x as [[|]|[|]| |[|] m' e']; try discriminate Hpos; reflexivity.
  - rewrite Hsmall. symmetry.
    destruct (num_ge x (S754_finite false m e)) eqn:Hx; [| reflexivity].
    rewrite (num_ge_positive_abs _ _ _ Hx), Hx in Hsmall. discriminate Hsmall.
Qed.

Section FormattersAgree.
Context {lib : EcmaLib}.

(** X29. The two [formatNumber] functions, that of the visualization
    utilities with two decimals and that of the social distributor,
    return the same text for every number that is not NaN and is either
    at least zero or of magnitude below a thousand. (They differ on NaN
    and on negative numbers from minus a thousand down, where only the
    utilities look at the magnitude.) *)
Theorem formatNumber_agreement (x : spec_float) :
  x <> S754_nan ->
  num_ge x num_0 = true \/ num_ge (SFabs x) num_1e3 = false ->
  Utils.formatNumber x 2 = formatNumber (VNum x).
Proof.
  intros Hnan Hx. unfold Utils.formatNumber, formatNumber.
  cbn [to_number call_toFixed].
  assert (E3 : num_1e3 = S754_finite false 8796093022208000 (-43))
    by reflexivity.
  assert (E6 : num_1e6 = S754_finite false 8589934592000000 (-33))
    by reflexivity.
  assert (E9 : num_1e9 = S754_finite false 8388608000000000 (-23))
    by reflexivity.
  assert (H3 : num_ge (SFabs x) num_1e3 = num_ge x num_1e3).
  { rewrite E3. apply num_ge_abs_same. rewrite <- E3. exact Hx. }
  assert (H6 : num_ge (SFabs x) num_1e6 = num_ge x num_1e6).
  { rewrite E6. apply num_ge_abs_same. destruct Hx as [Hx | Hx]; [left; exact Hx |].
    right. destruct (num_ge (SFabs x) (S754_finite false 8589934592000000 (-33)))
      eqn:Hm; [| reflexivity].
    apply (num_ge_weaken _ 8796093022208000 _ (-43)) in Hm; [| lia].
    rewrite <- E3, Hx in Hm. discriminate Hm. }
  assert (H9 : num_ge (SFabs x) num_1e9 = num_ge x num_1e9).
  { rewrite E9. apply num_ge_abs_same. destruct Hx as [Hx | Hx]; [left; exact Hx |].
    right. destruct (num_ge (SFabs x) (S754_finite false 8388608000000000 (-23)))
      eqn:Hb; [| reflexivity].
    apply (num_ge_weaken _ 8796093022208000 _ (-43)) in Hb; [| lia].
    rewrite <- E3, Hx in Hb. discriminate Hb. }
  rewrite H3, H6, H9.
  destruct x as [s|s| |s m e]; try (destruct (Hnan eq_refl));
    cbn [Utils.isNaN];
    repeat match goal with
           | |- context [if num_ge ?a ?b then _ else _] =>
               destruct (num_ge a b)
           end; reflexivity.
Qed.
End FormattersAgree.

(** 1.2 billion is formatted alike; minus five billion is not. *)
Lemma formatNumber_agreement_witness :
  Utils.formatNumber (lib := ascii_lib) (num_of_Z 1200000000) 2
    = formatNumber (lib := ascii_lib) (VNum (num_of_Z 1200000000)) /\
  Utils.formatNumber (lib := ascii_lib) (num_of_Z (-5000000000)) 2
    = Ret (lit "-5.00B") /\
  formatNumber (lib := ascii_lib) (VNum (num_of_Z (-5000000000)))
    = Ret (lit "-5000000000.00").
Proof.
  split; [| split; vm_compute; reflexivity].
  apply (formatNumber_agreement (lib := ascii_lib) (num_of_Z 1200000000));
    [discriminate | left; reflexivity].
Defined.
